(** * reefguide infra scripts: slug generation and the instance readiness controller

    Shallow embedding of
    - [packages/infra/scripts/python/utils.py],
    - [packages/infra/scripts/python/get-efs-target.py] (slugify_stack_name),
    - [packages/infra/scripts/python/build-capacity-env.py] (slugify_stack_name),
    - [packages/infra/scripts/python/connet-efs.py] (the whole script).

    Python [str] values are lists of Unicode code points.  The AWS command
    line is an oracle (record [World]); every command the script issues, every
    line it prints and every sleep is appended to a chronological trace, and
    the reply to the n-th command of a kind is read off the oracle at the
    number of commands of that kind already in the trace. *)

From Stdlib Require Import List String Ascii NArith ZArith Bool Arith Lia.
Import ListNotations.

Local Open Scope list_scope.

(** ** Python strings *)

Module PyStr.

(** A [str] is a sequence of code points. *)
Definition str := list N.

(** A literal written in the source (all of them are ASCII, apart from the
    escape character that is spelled out where it occurs). *)
Definition lit (s : string) : str := map N_of_ascii (list_ascii_of_string s).

Definition str_eqb (a b : str) : bool :=
  if list_eq_dec N.eq_dec a b then true else false.

(** [x in [a, b, ...]] on a list of strings. *)
Definition str_in (x : str) (l : list str) : bool := existsb (str_eqb x) l.

(** Truthiness of a string: [if s] holds for the non-empty ones. *)
Definition truthy (s : str) : bool :=
  match s with [] => false | _ :: _ => true end.

(** [str.isspace] on one code point: the Unicode white space characters
    together with the four separators FS, GS, RS, US. *)
Definition isspace (c : N) : bool :=
  ((9 <=? c) && (c <=? 13) || (28 <=? c) && (c <=? 32) || (c =? 133)
   || (c =? 160) || (c =? 5760) || (8192 <=? c) && (c <=? 8202)
   || (c =? 8232) || (c =? 8233) || (c =? 8239) || (c =? 8287)
   || (c =? 12288))%N.

Fixpoint lstrip (s : str) : str :=
  match s with
  | [] => []
  | c :: s' => if isspace c then lstrip s' else s
  end.

(** [s.strip()] with no argument. *)
Definition strip (s : str) : str := rev (lstrip (rev (lstrip s))).

Definition is_ascii_upper (c : N) : bool := ((65 <=? c) && (c <=? 90))%N.
Definition is_ascii_lower (c : N) : bool := ((97 <=? c) && (c <=? 122))%N.
Definition is_ascii_digit (c : N) : bool := ((48 <=? c) && (c <=? 57))%N.

End PyStr.

(** ** slugify_stack_name *)

Module Slug.
Import PyStr.

Section Unicode.

(** The interpreter's case and digit tables outside ASCII.  [unicode_lower c]
    is the lower-case expansion of a code point [c >= 128] (one code point
    may lower to several, and to ASCII ones); [unicode_isdigit c] is
    [str.isdigit] there. *)
Variable unicode_lower : N -> list N.
Variable unicode_isdigit : N -> bool.

Definition lower_char (c : N) : list N :=
  if (c <? 128)%N then [if is_ascii_upper c then (c + 32)%N else c]
  else unicode_lower c.

(** [text.lower()] *)
Definition lower (text : str) : str := flat_map lower_char text.

(** [c.isdigit()] on a one-character string. *)
Definition isdigit (c : N) : bool :=
  if (c <? 128)%N then is_ascii_digit c else unicode_isdigit c.

(** The set [[a-z0-9]] of the pattern. *)
Definition in_class (c : N) : bool := is_ascii_lower c || is_ascii_digit c.

(** [re.sub(r'[^a-z0-9]', '', s)]: every character outside the class is
    replaced by the empty string. *)
Definition re_sub_non_alnum (s : str) : str := filter in_class s.

End Unicode.

Module GetEfsTarget.
Section Unicode.
Variable unicode_lower : N -> list N.
Variable unicode_isdigit : N -> bool.

(** get-efs-target.py, lines 38-54. *)
Definition slugify_stack_name (text : str) : str :=
  let slugified := re_sub_non_alnum (lower unicode_lower text) in
  let slugified :=
    if truthy slugified && isdigit unicode_isdigit (hd 0%N slugified)
    then lit "n" ++ slugified else slugified in
  let slugified :=
    if negb (truthy slugified) then lit "empty" else slugified in
  slugified.

End Unicode.
End GetEfsTarget.

Module BuildCapacityEnv.
Section Unicode.
Variable unicode_lower : N -> list N.
Variable unicode_isdigit : N -> bool.

(** build-capacity-env.py, lines 53-66. *)
Definition slugify_stack_name (text : str) : str :=
  let slugified := re_sub_non_alnum (lower unicode_lower text) in
  let slugified :=
    if truthy slugified && isdigit unicode_isdigit (hd 0%N slugified)
    then lit "n" ++ slugified else slugified in
  let slugified :=
    if negb (truthy slugified) then lit "empty" else slugified in
  slugified.

End Unicode.
End BuildCapacityEnv.

End Slug.

(** ** The interpreter and the operating system, as the scripts see them *)

Module Runtime.
Import PyStr.

(** The exceptions the scripts can meet. *)
Inductive exn :=
| CalledProcessError (text : str) (stderr : str)
| FileNotFoundError
| ImportError (name : string) (module : string)
| JSONDecodeError (text : str)
| AttributeError
| TypeError
| OSError (text : str).

(** What a child process started by [subprocess.run(..., check=True)] does:
    it exits with status 0 and the captured standard output, it exits with
    another status ([text] is the rendering of the exception, [stderr] the
    captured standard error), or the program is not found. *)
Inductive reply :=
| Completed (stdout : str)
| NonZeroExit (text : str) (stderr : str)
| NotFound.

(** Everything a run does that can be seen from outside, in order. *)
Inductive event :=
| Run (argv : list str)
| Execvp (file : str) (argv : list str)
| Sleep (seconds : Z)
| Stderr (line : str)
| Stdout (line : str).

Definition trace := list event.

(** Values that [json.loads] produces, as far as the scripts look into them:
    [POther] stands for numbers, booleans and lists, with their truth value
    and their [str()] rendering. *)
#[warnings="-register-all"]
Inductive pyval :=
| PNone
| PStr (s : str)
| PDict (items : list (str * pyval)) (rendering : str)
| POther (truth : bool) (rendering : str).

Record World := {
  (** [sys.argv] *)
  sys_argv : list str;
  (** [str(Path(__file__).parent / name)] *)
  sibling_path : str -> str;
  (** [Path.exists] *)
  path_exists : str -> bool;
  (** the outcome of the n-th run of a command line (n counts from 0) *)
  subprocess : list str -> nat -> reply;
  (** [os.execvp]: [Some text] when it raises [OSError], [None] when the
      process image is replaced *)
  execvp : str -> list str -> option str;
  (** [json.loads]: a value, or the text of the decoding error *)
  json_loads : str -> pyval + str;
  (** [datetime.now().strftime('%Y-%m-%d %H:%M:%S')] after n events *)
  now_text : nat -> str
}.

(** How a piece of a function body ends: it falls through with a value, it
    executes [return], an exception is in flight, [sys.exit] was called, or
    the process image was replaced. *)
Inductive outcome (R A : Type) :=
| Normal (a : A)
| Return (r : R)
| Raised (e : exn)
| SysExit (code : Z)
| Replaced.
Arguments Normal {R A} a.
Arguments Return {R A} r.
Arguments Raised {R A} e.
Arguments SysExit {R A} code.
Arguments Replaced {R A}.

(** A statement inside a function whose [return] carries an [R]. *)
Definition M (R A : Type) := trace -> outcome R A * trace.

Definition ret {R A} (a : A) : M R A := fun tr => (Normal a, tr).

Definition bind {R A B} (m : M R A) (f : A -> M R B) : M R B :=
  fun tr =>
    match m tr with
    | (Normal a, tr') => f a tr'
    | (Return r, tr') => (Return r, tr')
    | (Raised e, tr') => (Raised e, tr')
    | (SysExit c, tr') => (SysExit c, tr')
    | (Replaced, tr') => (Replaced, tr')
    end.

Definition return_ {R A} (r : R) : M R A := fun tr => (Return r, tr).
Definition raise {R A} (e : exn) : M R A := fun tr => (Raised e, tr).
Definition sys_exit {R A} (code : Z) : M R A := fun tr => (SysExit code, tr).
Definition emit {R} (e : event) : M R unit := fun tr => (Normal tt, tr ++ [e]).

(** [if c: body] *)
Definition when {R} (c : bool) (body : M R unit) : M R unit :=
  if c then body else ret tt.

(** [for x in xs: body x] *)
Fixpoint for_each {R X} (xs : list X) (body : X -> M R unit) : M R unit :=
  match xs with
  | [] => ret tt
  | x :: xs' => bind (body x) (fun _ => for_each xs' body)
  end.

(** [range(n)] *)
Definition range (n : nat) : list nat := seq 0 n.

(** [try: body except ...: handler]; [handler e = None] when no clause
    matches [e]. *)
Definition try_except {R A} (body : M R A) (handler : exn -> option (M R A))
  : M R A :=
  fun tr =>
    match body tr with
    | (Raised e, tr') =>
        match handler e with
        | Some h => h tr'
        | None => (Raised e, tr')
        end
    | other => other
    end.

(** Calling a function: a [return] of the body, or its falling off the end,
    is the value of the call. *)
Definition call {R R'} (body : M R R) : M R' R :=
  fun tr =>
    match body tr with
    | (Normal r, tr') => (Normal r, tr')
    | (Return r, tr') => (Normal r, tr')
    | (Raised e, tr') => (Raised e, tr')
    | (SysExit c, tr') => (SysExit c, tr')
    | (Replaced, tr') => (Replaced, tr')
    end.

Definition is_run (argv : list str) (e : event) : bool :=
  match e with
  | Run argv' => if list_eq_dec (list_eq_dec N.eq_dec) argv argv' then true
                 else false
  | _ => false
  end.

(** How many times a command line was run in a trace. *)
Definition count_run (argv : list str) (tr : trace) : nat :=
  List.length (filter (is_run argv) tr).

Definition is_sleep (e : event) : bool :=
  match e with Sleep _ => true | _ => false end.

Definition count_sleep (tr : trace) : nat :=
  List.length (filter is_sleep tr).

(** Total time slept in a trace. *)
Definition slept (tr : trace) : Z :=
  fold_right (fun e acc => match e with Sleep s => (s + acc)%Z | _ => acc end)
             0%Z tr.

Section WithWorld.
Variable w : World.

(** [subprocess.run(argv, capture_output=True, check=True)]; the value is
    [result.stdout]. *)
Definition subprocess_run {R} (argv : list str) : M R str :=
  fun tr =>
    match subprocess w argv (count_run argv tr) with
    | Completed out => (Normal out, tr ++ [Run argv])
    | NonZeroExit text err =>
        (Raised (CalledProcessError text err), tr ++ [Run argv])
    | NotFound => (Raised FileNotFoundError, tr ++ [Run argv])
    end.

(** [time.sleep(seconds)] *)
Definition time_sleep {R} (seconds : Z) : M R unit := emit (Sleep seconds).

(** [print(line, file=sys.stderr)] and [print(line)] *)
Definition print_stderr {R} (line : str) : M R unit := emit (Stderr line).
Definition print_stdout {R} (line : str) : M R unit := emit (Stdout line).

(** [os.execvp(file, argv)] *)
Definition os_execvp {R A} (file : str) (argv : list str) : M R A :=
  fun tr =>
    match execvp w file argv with
    | Some text => (Raised (OSError text), tr ++ [Execvp file argv])
    | None => (Replaced, tr ++ [Execvp file argv])
    end.

End WithWorld.

Declare Scope py_scope.
Delimit Scope py_scope with py.
Notation "x <- c1 ;; c2" := (bind c1 (fun x => c2))
  (at level 61, c1 at next level, right associativity) : py_scope.
Notation "c1 ;; c2" := (bind c1 (fun _ => c2))
  (at level 61, right associativity) : py_scope.

End Runtime.

(** ** utils.py *)

Module Utils.
Import PyStr Runtime.
Local Open Scope py_scope.

(** [class Colors] *)
Module Colors.
Definition RED : str := 27%N :: lit "[0;31m".
Definition GREEN : str := 27%N :: lit "[0;32m".
Definition YELLOW : str := 27%N :: lit "[1;33m".
Definition NC : str := 27%N :: lit "[0m".
End Colors.

Section WithWorld.
Variable w : World.

Definition log {R} (message : str) : M R unit :=
  call (fun tr =>
          print_stderr (lit "[" ++ now_text w (List.length tr) ++ lit "] "
                        ++ message) tr).

Definition log_info {R} (message : str) : M R unit :=
  call (print_stderr
          (Colors.GREEN ++ lit "[INFO]" ++ Colors.NC ++ lit " " ++ message)).

Definition log_warn {R} (message : str) : M R unit :=
  call (print_stderr
          (Colors.YELLOW ++ lit "[WARN]" ++ Colors.NC ++ lit " " ++ message)).

Definition log_error {R} (message : str) : M R unit :=
  call (print_stderr
          (Colors.RED ++ lit "[ERROR]" ++ Colors.NC ++ lit " " ++ message)).

End WithWorld.

(** What a name of the module is bound to: one of its functions, or
    something that is not one (an imported module, a class). *)
Inductive attribute :=
| Function (f : forall R : Type, str -> M R unit)
| Object.

(** The names the module body binds, in the order it binds them.  The
    attributes every module has ([__name__], [__doc__], [__file__] and the
    like) are left out. *)
Definition attributes (w : World) : list (string * attribute) :=
  [ ("sys"%string, Object);
    ("datetime"%string, Object);
    ("Colors"%string, Object);
    ("log"%string, Function (fun R => @log w R));
    ("log_info"%string, Function (fun R => @log_info R));
    ("log_warn"%string, Function (fun R => @log_warn R));
    ("log_error"%string, Function (fun R => @log_error R)) ].

Definition is_function (a : attribute) : bool :=
  match a with Function _ => true | Object => false end.

(** The functions the module defines. *)
Definition functions (w : World) : list string :=
  map fst (filter (fun na => is_function (snd na)) (attributes w)).

End Utils.

(** ** The import statement *)

Module Import_.
Import PyStr Runtime.

Fixpoint getattr (attrs : list (string * Utils.attribute)) (name : string)
  : option Utils.attribute :=
  match attrs with
  | [] => None
  | (n, a) :: rest => if String.eqb n name then Some a else getattr rest name
  end.

(** One name of [from module import name, ...]: the attribute it is bound
    to, or [ImportError] when the module has no such attribute. *)
Definition import_from {R} (module : string)
  (attrs : list (string * Utils.attribute)) (name : string)
  : M R Utils.attribute :=
  match getattr attrs name with
  | Some a => ret a
  | None => raise (ImportError name module)
  end.

(** Calling what a name is bound to. *)
Definition apply (a : Utils.attribute) : forall R : Type, str -> M R unit :=
  match a with
  | Utils.Function f => f
  | Utils.Object => fun R _ => raise TypeError
  end.

End Import_.

(** ** connet-efs.py *)

Module ConnectEfs.
Import PyStr Runtime.
Local Open Scope py_scope.

(** What [str(v)] and [v.get(key, default)] and [not v] do on the values
    [json.loads] returns. *)
Definition py_str (v : pyval) : str :=
  match v with
  | PNone => lit "None"
  | PStr s => s
  | PDict _ r => r
  | POther _ r => r
  end.

Definition py_truth (v : pyval) : bool :=
  match v with
  | PNone => false
  | PStr s => truthy s
  | PDict items _ => match items with [] => false | _ :: _ => true end
  | POther t _ => t
  end.

Fixpoint dict_lookup (items : list (str * pyval)) (key : str)
  : option pyval :=
  match items with
  | [] => None
  | (k, v) :: rest => if str_eqb k key then Some v else dict_lookup rest key
  end.

Definition py_get {R} (v : pyval) (key : str) (default : pyval)
  : M R pyval :=
  match v with
  | PDict items _ =>
      ret (match dict_lookup items key with Some x => x | None => default end)
  | _ => raise AttributeError
  end.

(** [s.split()] with no argument: the maximal runs of characters that are
    not white space.  [cur] is the run being read, last character first. *)
Fixpoint split_from (s : str) (cur : str) : list str :=
  match s with
  | [] => if truthy cur then [rev cur] else []
  | c :: s' =>
      if isspace c
      then (if truthy cur then rev cur :: split_from s' [] else split_from s' [])
      else split_from s' (c :: cur)
  end.

Definition split (s : str) : list str := split_from s [].

(** The command lines the script runs. *)
Definition describe_state_argv (instance_id : str) : list str :=
  [ lit "aws"; lit "ec2"; lit "describe-instances";
    lit "--instance-ids"; instance_id;
    lit "--query"; lit "Reservations[0].Instances[0].State.Name";
    lit "--output"; lit "text" ].

Definition describe_ping_argv (instance_id : str) : list str :=
  [ lit "aws"; lit "ssm"; lit "describe-instance-information";
    lit "--filters"; lit "Key=InstanceIds,Values=" ++ instance_id;
    lit "--query"; lit "InstanceInformationList[0].PingStatus";
    lit "--output"; lit "text" ].

Definition start_instances_argv (instance_id : str) : list str :=
  [ lit "aws"; lit "ec2"; lit "start-instances";
    lit "--instance-ids"; instance_id ].

Definition describe_details_argv (instance_id : str) : list str :=
  [ lit "aws"; lit "ec2"; lit "describe-instances";
    lit "--instance-ids"; instance_id;
    lit "--query"; lit "Reservations[0].Instances[0]";
    lit "--output"; lit "json" ].

Definition start_session_argv (instance_id : str) : list str :=
  [ lit "aws"; lit "ssm"; lit "start-session"; lit "--target"; instance_id ].

(** The text [show_usage] prints, lines 203-239. *)
Definition usage_text (argv0 : str) : str :=
  lit "Usage: "
  ++ argv0 ++
  lit " [stack-name]

Connect to EFS management instance via AWS SSM interactive session.
Uses the same connection discovery as get-efs-target.py

Arguments:
  stack-name    CloudFormation stack name (optional)
                If not provided, will read from config file using CONFIG_FILE_NAME

Environment variables:
  CONFIG_FILE_NAME    Config file name (e.g., 'test.json')
                      Script will look for configs/${CONFIG_FILE_NAME}
  AWS_REGION          AWS region (uses AWS CLI default if not set)

Prerequisites:
  - AWS Session Manager plugin must be installed
  - EC2 instance must have SSM agent and appropriate IAM role
  - Your AWS credentials must have SSM permissions

Examples:
  # Use config file
  CONFIG_FILE_NAME=test.json "
  ++ argv0 ++
  lit "

  # Override with specific stack name
  "
  ++ argv0 ++
  lit " my-efs-stack

Session commands:
  sudo su - ubuntu          # Switch to ubuntu user
  ./mountefs.sh            # Mount EFS (if not already mounted)
  ls -la /home/ubuntu/efs/  # Browse EFS contents
  exit                     # End session

Required IAM permissions:
  - ssm:StartSession
  - ssm:DescribeInstanceInformation
  - ec2:DescribeInstances
  - ec2:StartInstances (if instance is stopped)".

Section Script.
Variable w : World.

(** The three names of line 13, [from utils import log_info, log_error,
    log_blue], as the functions of the script see them. *)
Variable log_info : forall R : Type, str -> M R unit.
Variable log_error : forall R : Type, str -> M R unit.
Variable log_blue : forall R : Type, str -> M R unit.
Arguments log_info {R} _.
Arguments log_error {R} _.
Arguments log_blue {R} _.

(** Lines 16-33. *)
Definition validate_requirements {R} : M R unit :=
  call (
    let required_commands := [lit "aws"] in
    for_each required_commands (fun cmd =>
      try_except
        (_ <- subprocess_run w [cmd; lit "--version"] ;; ret tt)
        (fun e =>
           match e with
           | CalledProcessError _ _ | FileNotFoundError =>
               Some (log_error (lit "Required command '" ++ cmd
                                ++ lit "' not found") ;;
                     sys_exit 1)
           | _ => None
           end)) ;;
    try_except
      (_ <- subprocess_run w [lit "aws"; lit "sts"; lit "get-caller-identity"] ;;
       ret tt)
      (fun e =>
         match e with
         | CalledProcessError _ _ =>
             Some (log_error (lit "AWS CLI not configured or credentials invalid") ;;
                   sys_exit 1)
         | _ => None
         end)).

(** Lines 36-48. *)
Definition get_instance_state {R} (instance_id : str) : M R str :=
  call (
    try_except
      (stdout <- subprocess_run w (describe_state_argv instance_id) ;;
       return_ (strip stdout))
      (fun e =>
         match e with
         | CalledProcessError _ _ => Some (return_ (lit "unknown"))
         | _ => None
         end)).

(** Lines 51-64. *)
Definition check_ssm_managed {R} (instance_id : str) : M R bool :=
  call (
    try_except
      (stdout <- subprocess_run w (describe_ping_argv instance_id) ;;
       let ping_status := strip stdout in
       return_ (str_eqb ping_status (lit "Online")))
      (fun e =>
         match e with
         | CalledProcessError _ _ => Some (return_ false)
         | _ => None
         end)).

(** Lines 93-103: the wait phase of [start_instance_if_needed]. *)
Definition wait_until_running (instance_id : str) : M unit unit :=
  for_each (range 30) (fun attempt =>
    current_state <- get_instance_state instance_id ;;
    when (str_eqb current_state (lit "running"))
      (log_info (lit "Instance is now running") ;;
       return_ tt) ;;
    log_info (lit "Instance state: " ++ current_state ++ lit ", waiting...") ;;
    time_sleep 10) ;;
  log_error (lit "Instance failed to start within timeout") ;;
  sys_exit 1.

(** Lines 67-107. *)
Definition start_instance_if_needed {R} (instance_id : str) : M R unit :=
  call (
    current_state <- get_instance_state instance_id ;;
    log_info (lit "Current EC2 instance state: " ++ current_state) ;;
    when (str_eqb current_state (lit "running"))
      (log_info (lit "Instance is already running") ;;
       return_ tt) ;;
    when (str_eqb current_state (lit "stopped"))
      (log_info (lit "Starting EC2 instance: " ++ instance_id) ;;
       try_except
         (_ <- subprocess_run w (start_instances_argv instance_id) ;; ret tt)
         (fun e =>
            match e with
            | CalledProcessError text _ =>
                Some (log_error (lit "Failed to start instance: " ++ text) ;;
                      sys_exit 1)
            | _ => None
            end)) ;;
    when (str_in current_state [lit "stopped"; lit "pending"; lit "stopping"])
      (when (str_in current_state [lit "pending"; lit "stopping"])
         (log_info (lit "Instance is in transitional state: "
                    ++ current_state)) ;;
       log_info (lit "Waiting for instance to start...") ;;
       wait_until_running instance_id) ;;
    when (negb (str_in current_state
                  [lit "running"; lit "stopped"; lit "pending"; lit "stopping"]))
      (log_error (lit "Instance is in unexpected state: " ++ current_state) ;;
       sys_exit 1)).

(** Lines 110-123. *)
Definition wait_for_ssm {R} (instance_id : str) : M R unit :=
  call (
    log_info (lit "Waiting for SSM connectivity...") ;;
    for_each (range 30) (fun attempt =>
      online <- check_ssm_managed instance_id ;;
      when online
        (log_info (lit "SSM connectivity established") ;;
         return_ tt) ;;
      log_info (lit "SSM not ready yet, waiting...") ;;
      time_sleep 10) ;;
    log_error (lit "SSM connectivity could not be established within timeout") ;;
    sys_exit 1).

(** Lines 126-157. *)
Definition get_instance_details {R} (instance_id : str) : M R unit :=
  call (
    log_info (lit "Getting instance details...") ;;
    try_except
      (stdout <- subprocess_run w (describe_details_argv instance_id) ;;
       instance_info <-
         match json_loads w stdout with
         | inl v => ret v
         | inr text => raise (JSONDecodeError text)
         end ;;
       when (negb (py_truth instance_info))
         (log_error (lit "Could not get instance details for: "
                     ++ instance_id) ;;
          sys_exit 1) ;;
       instance_type <-
         py_get instance_info (lit "InstanceType") (PStr (lit "unknown")) ;;
       platform <- py_get instance_info (lit "Platform") (PStr (lit "linux")) ;;
       private_ip <-
         py_get instance_info (lit "PrivateIpAddress") (PStr (lit "unknown")) ;;
       placement <-
         py_get instance_info (lit "Placement") (PDict [] (lit "{}")) ;;
       az <- py_get placement (lit "AvailabilityZone") (PStr (lit "unknown")) ;;
       log_info (lit "Instance Type: " ++ py_str instance_type) ;;
       log_info (lit "Platform: " ++ py_str platform) ;;
       log_info (lit "Private IP: " ++ py_str private_ip) ;;
       log_info (lit "Availability Zone: " ++ py_str az))
      (fun e =>
         match e with
         | CalledProcessError text _ | JSONDecodeError text =>
             Some (log_error (lit "Failed to get instance details: " ++ text) ;;
                   sys_exit 1)
         | _ => None
         end)).

(** Lines 160-181; [stack_name] is [None] or a string. *)
Definition get_efs_connection_info {R} (stack_name : option str) : M R str :=
  call (
    let get_efs_script := sibling_path w (lit "get-efs-target.py") in
    when (negb (path_exists w get_efs_script))
      (log_error (lit "get-efs-target.py not found at: " ++ get_efs_script) ;;
       sys_exit 1) ;;
    try_except
      (let cmd := [get_efs_script] in
       let cmd :=
         match stack_name with
         | Some name => if truthy name then cmd ++ [name] else cmd
         | None => cmd
         end in
       stdout <- subprocess_run w cmd ;;
       return_ (strip stdout))
      (fun e =>
         match e with
         | CalledProcessError _ stderr =>
             Some (log_error (lit "Failed to get EFS connection information") ;;
                   when (truthy stderr) (log_error stderr) ;;
                   sys_exit 1)
         | _ => None
         end)).

(** Lines 184-198. *)
Definition start_interactive_session {R} (instance_id : str) : M R unit :=
  call (
    log_blue (lit "Starting interactive SSM session with instance: "
              ++ instance_id) ;;
    log_blue (lit "You will be connected as ssm-user. Use 'sudo su - ubuntu' to switch to ubuntu user.") ;;
    log_blue (lit "Type 'exit' to end the session.") ;;
    print_stdout (lit "") ;;
    try_except
      (os_execvp w (lit "aws") (start_session_argv instance_id))
      (fun e =>
         match e with
         | OSError text =>
             Some (log_error (lit "Failed to start SSM session: " ++ text) ;;
                   sys_exit 1)
         | _ => None
         end)).

(** Lines 201-239. *)
Definition show_usage {R} : M R unit :=
  call (print_stdout (usage_text (nth 0 (sys_argv w) []))).

(** Lines 242-284. *)
Definition main {R} : M R unit :=
  call (
    when ((1 <? List.length (sys_argv w))
          && str_in (nth 1 (sys_argv w) []) [lit "-h"; lit "--help"])
      (show_usage ;;
       sys_exit 0) ;;
    let stack_name :=
      if 1 <? List.length (sys_argv w) then Some (nth 1 (sys_argv w) [])
      else None in
    log_info (lit "Starting connect-efs script") ;;
    validate_requirements ;;
    log_info (lit "Getting EFS connection information...") ;;
    efs_info <- get_efs_connection_info stack_name ;;
    let parts := split (strip efs_info) in
    match parts with
    | [transfer_bucket; ec2_instance_id] =>
        when (negb (truthy ec2_instance_id))
          (log_error (lit "Could not extract EC2 instance ID from connection info") ;;
           sys_exit 1) ;;
        log_info (lit "Target EC2 instance: " ++ ec2_instance_id) ;;
        log_info (lit "Transfer bucket: " ++ transfer_bucket) ;;
        get_instance_details ec2_instance_id ;;
        start_instance_if_needed ec2_instance_id ;;
        wait_for_ssm ec2_instance_id ;;
        start_interactive_session ec2_instance_id
    | _ =>
        log_error (lit "Could not parse EFS connection information") ;;
        sys_exit 1
    end).

End Script.

(** The module body, run as a script: the standard-library imports of lines
    7-12 bind names and do nothing else; line 13 takes three names from
    [utils]; the [def]s bind the functions above; line 287 calls [main]. *)
Definition script (w : World) : M unit unit :=
  log_info <- Import_.import_from "utils" (Utils.attributes w) "log_info" ;;
  log_error <- Import_.import_from "utils" (Utils.attributes w) "log_error" ;;
  log_blue <- Import_.import_from "utils" (Utils.attributes w) "log_blue" ;;
  main w (Import_.apply log_info) (Import_.apply log_error)
         (Import_.apply log_blue).

End ConnectEfs.

(** ** The controller as the claims speak of it *)

Module Controller.
Import PyStr Runtime ConnectEfs.

(** The two operations, with the logging functions of [utils] bound to the
    names they are imported under. *)
Definition EnsureRunning (w : World) (instance_id : str)
  : trace -> outcome unit unit * trace :=
  start_instance_if_needed w (fun R => @Utils.log_info R)
    (fun R => @Utils.log_error R) instance_id.

Definition EnsureManagementReachable (w : World) (instance_id : str)
  : trace -> outcome unit unit * trace :=
  wait_for_ssm w (fun R => @Utils.log_info R) (fun R => @Utils.log_error R)
    instance_id.

(** The lines [log_info] and [log_error] print. *)
Definition info_line (message : str) : str :=
  Utils.Colors.GREEN ++ lit "[INFO]" ++ Utils.Colors.NC ++ lit " " ++ message.
Definition error_line (message : str) : str :=
  Utils.Colors.RED ++ lit "[ERROR]" ++ Utils.Colors.NC ++ lit " " ++ message.

(** The command lines run in a trace, in order. *)
Fixpoint commands (tr : trace) : list (list str) :=
  match tr with
  | [] => []
  | Run argv :: tr' => argv :: commands tr'
  | _ :: tr' => commands tr'
  end.

(** Counts of the three commands of the controller. *)
Definition queries (instance_id : str) (tr : trace) : nat :=
  count_run (describe_state_argv instance_id) tr.
Definition starts (instance_id : str) (tr : trace) : nat :=
  count_run (start_instances_argv instance_id) tr.
Definition checks (instance_id : str) (tr : trace) : nat :=
  count_run (describe_ping_argv instance_id) tr.

(** The power state that the n-th power-state query reports, as
    [get_instance_state] reads the reply; [None] when the query raises. *)
Definition state_seen (w : World) (instance_id : str) (n : nat) : option str :=
  match subprocess w (describe_state_argv instance_id) n with
  | Completed out => Some (strip out)
  | NonZeroExit _ _ => Some (lit "unknown")
  | NotFound => None
  end.

(** The reachability flag that the n-th check reports, as
    [check_ssm_managed] reads the reply. *)
Definition online_seen (w : World) (instance_id : str) (n : nat)
  : option bool :=
  match subprocess w (describe_ping_argv instance_id) n with
  | Completed out => Some (str_eqb (strip out) (lit "Online"))
  | NonZeroExit _ _ => Some false
  | NotFound => None
  end.

(** The start command, were it issued after [tr], exits with status 0. *)
Definition start_accepted (w : World) (instance_id : str) (tr : trace)
  : Prop :=
  exists out,
    subprocess w (start_instances_argv instance_id) (starts instance_id tr)
    = Completed out.

(** The states from which [start_instance_if_needed] reaches its wait
    phase. *)
Definition enters_wait (w : World) (instance_id : str) (tr : trace)
  (s0 : str) : Prop :=
  s0 = lit "pending" \/ s0 = lit "stopping"
  \/ (s0 = lit "stopped" /\ start_accepted w instance_id tr).

(** What [start_instance_if_needed] does before its wait phase, from an
    initial state [s0] that leads there and with the start command
    accepted. *)
Definition wait_prologue (instance_id s0 : str) : trace :=
  [ Run (describe_state_argv instance_id);
    Stderr (info_line (lit "Current EC2 instance state: " ++ s0)) ]
  ++ (if str_eqb s0 (lit "stopped")
      then [ Stderr (info_line (lit "Starting EC2 instance: " ++ instance_id));
             Run (start_instances_argv instance_id) ]
      else [ Stderr (info_line (lit "Instance is in transitional state: "
                                ++ s0)) ])
  ++ [ Stderr (info_line (lit "Waiting for instance to start...")) ].

Definition known_states : list str :=
  [lit "running"; lit "stopped"; lit "pending"; lit "stopping"].

(** The two time-out messages. *)
Definition power_timeout_message : str :=
  lit "Instance failed to start within timeout".
Definition ssm_timeout_message : str :=
  lit "SSM connectivity could not be established within timeout".

(** Worlds for concrete runs: every command exits with status 0; the power
    state queries answer from [states] and then [rest], the reachability
    checks answer [pings] and then [Offline]. *)
Definition answer (l : list string) (rest : string) (n : nat) : reply :=
  Completed (lit (nth n l rest) ++ [10%N]).

Definition world_of (states : list string) (rest : string)
  (pings : list string) : World :=
  {| sys_argv := [lit "connet-efs.py"];
     sibling_path := fun name => lit "./" ++ name;
     path_exists := fun _ => true;
     subprocess := fun argv n =>
       if str_eqb (nth 2 argv []) (lit "describe-instances")
       then answer states rest n
       else if str_eqb (nth 2 argv []) (lit "describe-instance-information")
       then answer pings "Offline" n
       else Completed [];
     execvp := fun _ _ => None;
     json_loads := fun _ => inl PNone;
     now_text := fun _ => lit "2025-01-01 00:00:00" |}.

(** The same world, except that the start command exits with status 255. *)
Definition world_start_refused (states : list string) : World :=
  let w := world_of states "stopped" [] in
  {| sys_argv := sys_argv w;
     sibling_path := sibling_path w;
     path_exists := path_exists w;
     subprocess := fun argv n =>
       if str_eqb (nth 2 argv []) (lit "start-instances")
       then NonZeroExit (lit "Command returned non-zero exit status 255.") []
       else subprocess w argv n;
     execvp := execvp w;
     json_loads := json_loads w;
     now_text := now_text w |}.

Definition i_0abc : str := lit "i-0abc".

End Controller.

(** ** More of Python's string methods *)

Module PyStrMore.
Import PyStr.

(** [s.startswith(prefix)] *)
Fixpoint startswith (s prefix : str) {struct prefix} : bool :=
  match prefix with
  | [] => true
  | p :: prefix' =>
      match s with
      | [] => false
      | c :: s' => (c =? p)%N && startswith s' prefix'
      end
  end.

(** [sub in s], for a non-empty [sub] *)
Fixpoint contains (s sub : str) : bool :=
  startswith s sub
  || match s with
     | [] => false
     | _ :: s' => contains s' sub
     end.

(** [c in chars] *)
Definition is_in (chars : str) (c : N) : bool := existsb (N.eqb c) chars.

Fixpoint lstrip_chars (chars : str) (s : str) : str :=
  match s with
  | [] => []
  | c :: s' => if is_in chars c then lstrip_chars chars s' else s
  end.

(** [s.rstrip(chars)]: the argument is a set of characters, all of whose
    trailing occurrences are removed. *)
Definition rstrip (s chars : str) : str := rev (lstrip_chars chars (rev s)).

(** Cuts a string at the first occurrence of [sep]: what is before it and
    what is after it. *)
Fixpoint cut (sep : N) (s : str) : option (str * str) :=
  match s with
  | [] => None
  | c :: s' =>
      if (c =? sep)%N then Some ([], s')
      else match cut sep s' with
           | Some (before, after) => Some (c :: before, after)
           | None => None
           end
  end.

(** [s.rsplit(sep, 1)] for a one-character [sep]: the string is cut at the
    last occurrence of [sep], when there is one. *)
Definition rsplit1 (s : str) (sep : N) : list str :=
  match cut sep (rev s) with
  | Some (after_rev, before_rev) => [rev before_rev; rev after_rev]
  | None => [s]
  end.

(** A string without white space. *)
Definition word (s : str) : bool := forallb (fun c => negb (isspace c)) s.

End PyStrMore.

(** ** build-capacity-env.py: parse_secrets_arn *)

Module SecretsArn.
Import PyStr PyStrMore.

(** What a call of [parse_secrets_arn] ends with: the pair it returns, or the
    [ValueError] of an unpacking that does not find two values. *)
Inductive parsed :=
| Pair (secret_arn : option str) (field : option str)
| ValueError.

(** Lines 161-181. *)
Definition parse_secrets_arn (value_from : str) : parsed :=
  if negb (truthy value_from) then Pair None None
  else if negb (startswith value_from (lit "arn:aws:secretsmanager:"))
  then Pair None None
  else
    let fallthrough := Pair (Some value_from) None in
    if contains value_from (lit "::") then
      let without_trailing := rstrip value_from (lit "::") in
      if contains without_trailing (lit ":") then
        match rsplit1 without_trailing 58%N with
        | [secret_arn; field] =>
            Pair (Some secret_arn) (if truthy field then Some field else None)
        | _ => ValueError
        end
      else fallthrough
    else fallthrough.

End SecretsArn.

(** ** get_stack_output, in get-efs-target.py and in build-capacity-env.py *)

Module StackOutput.
Import PyStr Runtime.
Local Open Scope py_scope.

Definition describe_stacks_argv (stack_name output_key : str) : list str :=
  [ lit "aws"; lit "cloudformation"; lit "describe-stacks";
    lit "--stack-name"; stack_name;
    lit "--query";
    lit "Stacks[0].Outputs[?OutputKey=='" ++ output_key
    ++ lit "'].OutputValue";
    lit "--output"; lit "text" ].

Module GetEfsTarget.
Section WithWorld.
Variable w : World.

(** get-efs-target.py, lines 100-126; the value is [None] or a string. *)
Definition get_stack_output {R} (stack_name output_key : str)
  : M R (option str) :=
  call (
    Utils.log_info (lit "Getting output '" ++ output_key
                    ++ lit "' from stack: " ++ stack_name) ;;
    let cmd := describe_stacks_argv stack_name output_key in
    try_except
      (stdout <- subprocess_run w cmd ;;
       let output_value := strip stdout in
       when (negb (truthy output_value)
             || str_eqb output_value (lit "None"))
         (Utils.log_error (lit "Output key '" ++ output_key
                           ++ lit "' not found in stack '" ++ stack_name
                           ++ lit "'") ;;
          return_ None) ;;
       return_ (Some output_value))
      (fun e =>
         match e with
         | CalledProcessError _ stderr =>
             Some (Utils.log_error (lit "cloudformation describe-stacks error:") ;;
                   Utils.log_error stderr ;;
                   return_ None)
         | _ => None
         end)).

End WithWorld.
End GetEfsTarget.

Module BuildCapacityEnv.
Section WithWorld.
Variable w : World.

(** build-capacity-env.py, lines 112-136. *)
Definition get_stack_output {R} (stack_name output_key : str)
  : M R (option str) :=
  call (
    Utils.log_info (lit "Getting output '" ++ output_key
                    ++ lit "' from stack: " ++ stack_name) ;;
    try_except
      (stdout <- subprocess_run w
                   [ lit "aws"; lit "cloudformation"; lit "describe-stacks";
                     lit "--stack-name"; stack_name;
                     lit "--query";
                     lit "Stacks[0].Outputs[?OutputKey=='" ++ output_key
                     ++ lit "'].OutputValue";
                     lit "--output"; lit "text" ] ;;
       let output_value := strip stdout in
       when (negb (truthy output_value)
             || str_eqb output_value (lit "None"))
         (Utils.log_error (lit "Output key '" ++ output_key
                           ++ lit "' not found in stack '" ++ stack_name
                           ++ lit "'") ;;
          return_ None) ;;
       return_ (Some output_value))
      (fun e =>
         match e with
         | CalledProcessError _ stderr =>
             Some (Utils.log_error (lit "cloudformation describe-stacks error:") ;;
                   Utils.log_error stderr ;;
                   return_ None)
         | _ => None
         end)).

End WithWorld.
End BuildCapacityEnv.

End StackOutput.

(** ** get-efs-target.py: parse_connection_info *)

Module ConnectionInfo.
Import PyStr Runtime ConnectEfs.
Local Open Scope py_scope.

Section WithWorld.
Variable w : World.

(** Lines 129-158. *)
Definition parse_connection_info {R} (json_value : str) : M R str :=
  call (
    Utils.log_info (lit "Parsing connection info JSON") ;;
    try_except
      (data <-
         match json_loads w json_value with
         | inl v => ret v
         | inr text => raise (JSONDecodeError text)
         end ;;
       service_instance_id <- py_get data (lit "serviceInstanceId") PNone ;;
       transfer_bucket_name <- py_get data (lit "transferBucketName") PNone ;;
       when (negb (py_truth service_instance_id))
         (Utils.log_error (lit "Could not extract serviceInstanceId from JSON: "
                           ++ json_value) ;;
          sys_exit 1) ;;
       when (negb (py_truth transfer_bucket_name))
         (Utils.log_error (lit "Could not extract transferBucketName from JSON: "
                           ++ json_value) ;;
          sys_exit 1) ;;
       Utils.log_info (lit "Extracted serviceInstanceId: "
                       ++ py_str service_instance_id) ;;
       Utils.log_info (lit "Extracted transferBucketName: "
                       ++ py_str transfer_bucket_name) ;;
       return_ (py_str transfer_bucket_name ++ lit " "
                ++ py_str service_instance_id))
      (fun e =>
         match e with
         | JSONDecodeError text =>
             Some (Utils.log_error (lit "Invalid JSON in output value: " ++ text) ;;
                   Utils.log_error (lit "Raw value: " ++ json_value) ;;
                   sys_exit 1)
         | _ => None
         end)).

End WithWorld.

(** A world for concrete runs whose JSON decoder knows an empty object, an
    empty list, and takes every other text for one connection document. *)
Definition connection_world : World :=
  let w := Controller.world_of [] "running" [] in
  {| sys_argv := sys_argv w;
     sibling_path := sibling_path w;
     path_exists := path_exists w;
     subprocess := subprocess w;
     execvp := execvp w;
     json_loads := fun s =>
       if str_eqb s (lit "{}") then inl (PDict [] (lit "{}"))
       else if str_eqb s (lit "[]") then inl (POther false (lit "[]"))
       else inl (PDict [ (lit "serviceInstanceId", PStr (lit "i-0abc"));
                         (lit "transferBucketName", PStr (lit "bucket")) ]
                   (lit "{...}"));
     now_text := now_text w |}.

End ConnectionInfo.

(** ** Stack names that differ in ASCII case only *)

Module SlugMore.
Import PyStr.

(** A string with its ASCII capitals replaced by the small letters. *)
Definition ascii_lowercase (text : str) : str :=
  map (fun c => if is_ascii_upper c then (c + 32)%N else c) text.

End SlugMore.

(** ** Properties of traces that a piece of code preserves *)

Module TraceInv.
Import PyStr Runtime ConnectEfs.

(** [m] keeps [P]: run after a trace all of whose events satisfy [P], it
    leaves a trace all of whose events satisfy [P]. *)
Definition keeps (P : event -> Prop) {R A} (m : M R A) : Prop :=
  forall tr, Forall P tr -> Forall P (snd (m tr)).

(** The process image is not replaced. *)
Definition not_exec (e : event) : Prop :=
  match e with Execvp _ _ => False | _ => True end.

(** What connet-efs.py may do to the outside: run the version and identity
    checks, the sibling script with or without a stack name, and, on an
    instance, the three describe commands and start-instances; and replace
    itself by a session of the Systems Manager. *)
Definition allowed (get_efs_script : str) (e : event) : Prop :=
  match e with
  | Run argv =>
      argv = [lit "aws"; lit "--version"]
      \/ argv = [lit "aws"; lit "sts"; lit "get-caller-identity"]
      \/ argv = [get_efs_script]
      \/ (exists stack_name, argv = [get_efs_script; stack_name])
      \/ (exists instance_id,
            argv = describe_details_argv instance_id
            \/ argv = describe_state_argv instance_id
            \/ argv = start_instances_argv instance_id
            \/ argv = describe_ping_argv instance_id)
  | Execvp file argv =>
      file = lit "aws" /\ exists instance_id, argv = start_session_argv instance_id
  | _ => True
  end.

(** A function that does nothing but print: it keeps every property of the
    trace that printing cannot break. *)
Definition only_prints (f : forall R : Type, str -> M R unit) : Prop :=
  forall P : event -> Prop,
    (forall line, P (Stderr line)) ->
    (forall line, P (Stdout line)) ->
    forall R message, keeps P (f R message).

(** A world in which everything is ready: the sibling script prints a bucket
    and an instance id, the instance is running and reachable. *)
Definition ready_world : World :=
  let w := ConnectionInfo.connection_world in
  {| sys_argv := sys_argv w;
     sibling_path := sibling_path w;
     path_exists := path_exists w;
     subprocess := fun argv n =>
       match argv with
       | [_] => Completed (lit "bucket i-0abc" ++ [10%N])
       | _ =>
           if str_eqb (nth 2 argv []) (lit "describe-instance-information")
           then Completed (lit "Online" ++ [10%N])
           else Completed (lit "running" ++ [10%N])
       end;
     execvp := execvp w;
     json_loads := json_loads w;
     now_text := now_text w |}.

End TraceInv.

(** ** get-efs-target.py, the whole script *)

Module GetEfsTargetScript.
Import PyStr Runtime ConnectEfs.
Local Open Scope py_scope.

(** What opening a file and decoding it with [json.load] gives: a value, a
    [JSONDecodeError], or another exception of the file system or of the
    decoding of its bytes, with the text it is printed as. *)
Inductive loaded :=
| Loaded (v : pyval)
| NotJson (text : str)
| Unreadable (text : str).

(** What the script sees of its host besides the commands it runs. *)
Record Host := {
  (** [os.environ.get] *)
  environ_get : str -> option str;
  (** [str(Path("configs") / name)] *)
  configs_path : str -> str;
  (** [open(path, 'r')] followed by [json.load] *)
  load_json_file : str -> loaded;
  (** [str(e)] for the exceptions that carry no text of their own here *)
  exn_text : exn -> str;
  (** the interpreter's case and digit tables outside ASCII *)
  unicode_lower : N -> list N;
  unicode_isdigit : N -> bool
}.

(** [str(e)] *)
Definition str_of_exn (h : Host) (e : exn) : str :=
  match e with
  | CalledProcessError text _ => text
  | JSONDecodeError text => text
  | OSError text => text
  | other => exn_text h other
  end.

(** The text [show_usage] prints. *)
Definition usage_text (argv0 : str) : str :=
  lit "Usage: "
  ++ argv0 ++
  lit " [stack-name]

Extract EFS connection information from CloudFormation stack output.
Looks for output key '<slugified-stack-name>efnConnectionInfo' containing JSON with:
  - serviceInstanceId: EC2 instance ID for EFS access
  - transferBucketName: S3 bucket name for temporary transfers

Arguments:
  stack-name    CloudFormation stack name (optional)
                If not provided, will read from config file using CONFIG_FILE_NAME

Output format:
  <transfer_bucket_name> <ec2_instance_id>

Environment variables:
  CONFIG_FILE_NAME    Config file name (e.g., 'test.json')
                      Script will look for configs/${CONFIG_FILE_NAME}
  AWS_REGION          AWS region (uses AWS CLI default if not set)

Examples:
  # Use config file
  CONFIG_FILE_NAME=test.json "
  ++ argv0 ++
  lit "

  # Override with specific stack name
  "
  ++ argv0 ++
  lit " my-efs-stack

  # Use with copy script
  CONFIG_FILE_NAME=prod.json "
  ++ argv0 ++
  lit " | xargs ./copy-to-efs.py ./myfile.txt target/path

Config file format (configs/${CONFIG_FILE_NAME}):
  {
    "
  ++ [34%N] ++
  lit "stackName"
  ++ [34%N] ++
  lit ": "
  ++ [34%N] ++
  lit "your-cloudformation-stack-name"
  ++ [34%N] ++
  lit ",
    ...
  }".

Section Script.
Variable w : World.
Variable h : Host.

(** Lines 18-35. *)
Definition validate_requirements {R} : M R unit :=
  call (
    let required_commands := [lit "aws"; lit "jq"] in
    for_each required_commands (fun cmd =>
      try_except
        (_ <- subprocess_run w [cmd; lit "--version"] ;; ret tt)
        (fun e =>
           match e with
           | CalledProcessError _ _ | FileNotFoundError =>
               Some (Utils.log_error (lit "Required command '" ++ cmd
                                      ++ lit "' not found") ;;
                     sys_exit 1)
           | _ => None
           end)) ;;
    try_except
      (_ <- subprocess_run w [lit "aws"; lit "sts"; lit "get-caller-identity"] ;;
       ret tt)
      (fun e =>
         match e with
         | CalledProcessError _ _ =>
             Some (Utils.log_error
                     (lit "AWS CLI not configured or credentials invalid") ;;
                   sys_exit 1)
         | _ => None
         end)).

(** Lines 57-97; the value is whatever the configuration has under
    [stackName]. *)
Definition get_stack_name_from_config {R} : M R pyval :=
  call (
    let config_file_name := environ_get h (lit "CONFIG_FILE_NAME") in
    when (negb (match config_file_name with
                | Some name => truthy name
                | None => false
                end))
      (Utils.log_error (lit "CONFIG_FILE_NAME environment variable not set") ;;
       Utils.log_error
         (lit "Please set CONFIG_FILE_NAME to your config file name (e.g., 'test.json')") ;;
       sys_exit 1) ;;
    let config_path :=
      configs_path h (match config_file_name with
                      | Some name => name
                      | None => []
                      end) in
    when (negb (path_exists w config_path))
      (Utils.log_error (lit "Config file not found: " ++ config_path) ;;
       Utils.log_error
         (lit "Please ensure the config file exists and CONFIG_FILE_NAME is correct") ;;
       sys_exit 1) ;;
    Utils.log_info (lit "Reading config from: " ++ config_path) ;;
    try_except
      (config <-
         match load_json_file h config_path with
         | Loaded v => ret v
         | NotJson text => raise (JSONDecodeError text)
         | Unreadable text => raise (OSError text)
         end ;;
       stack_name <- py_get config (lit "stackName") PNone ;;
       when (negb (py_truth stack_name))
         (Utils.log_error
            (lit "Could not extract stackName from config file: "
             ++ config_path) ;;
          Utils.log_error
            (lit "Please ensure the config file contains a 'stackName' field") ;;
          sys_exit 1) ;;
       Utils.log_info (lit "Found stack name in config: " ++ py_str stack_name) ;;
       return_ stack_name)
      (fun e =>
         match e with
         | JSONDecodeError text =>
             Some (Utils.log_error (lit "Invalid JSON in config file "
                                    ++ config_path ++ lit ": " ++ text) ;;
                   sys_exit 1)
         | other =>
             Some (Utils.log_error (lit "Error reading config file "
                                    ++ config_path ++ lit ": "
                                    ++ str_of_exn h other) ;;
                   sys_exit 1)
         end)).

(** Lines 161-196. *)
Definition show_usage {R} : M R unit :=
  call (print_stdout (usage_text (nth 0 (sys_argv w) []))).

(** [slugify_stack_name] on what [main] has for a stack name: a value
    without [lower] raises [AttributeError]. *)
Definition slugify_value {R} (stack_name : pyval) : M R str :=
  match stack_name with
  | PStr text =>
      ret (Slug.GetEfsTarget.slugify_stack_name (unicode_lower h)
             (unicode_isdigit h) text)
  | _ => raise AttributeError
  end.

(** The stack name as an argument of a command line; it is a string when
    [slugify_value] has let it pass. *)
Definition as_argument {R} (stack_name : pyval) : M R str :=
  match stack_name with
  | PStr text => ret text
  | _ => raise TypeError
  end.

(** Lines 199-237. *)
Definition main {R} : M R unit :=
  call (
    when ((1 <? List.length (sys_argv w))
          && str_in (nth 1 (sys_argv w) []) [lit "-h"; lit "--help"])
      (show_usage ;;
       sys_exit 0) ;;
    Utils.log_info (lit "Starting get-efs-target script") ;;
    validate_requirements ;;
    stack_name <-
      (if 1 <? List.length (sys_argv w)
       then
         let stack_name := nth 1 (sys_argv w) [] in
         Utils.log_info (lit "Using stack name from argument: "
                         ++ stack_name) ;;
         ret (PStr stack_name)
       else
         Utils.log_info
           (lit "No stack name provided as argument, reading from config file") ;;
         get_stack_name_from_config) ;;
    Utils.log_info (lit "Using stack: " ++ py_str stack_name) ;;
    slugified_stack_name <- slugify_value stack_name ;;
    Utils.log_info (lit "Slugified stack name: " ++ slugified_stack_name) ;;
    let output_key := slugified_stack_name ++ lit "efnConnectionInfo" in
    Utils.log_info (lit "Looking for output key: " ++ output_key) ;;
    stack_argument <- as_argument stack_name ;;
    output_value <-
      StackOutput.GetEfsTarget.get_stack_output w stack_argument output_key ;;
    match output_value with
    | None => sys_exit 1
    | Some output_value =>
        Utils.log_info (lit "Raw output value: " ++ output_value) ;;
        connection_info <-
          ConnectionInfo.parse_connection_info w output_value ;;
        print_stdout connection_info
    end).

End Script.

(** A host for concrete runs: no configuration, ASCII only. *)
Definition bare_host : Host :=
  {| environ_get := fun _ => None;
     configs_path := fun name => lit "configs/" ++ name;
     load_json_file := fun _ => Unreadable (lit "No such file or directory");
     exn_text := fun _ => lit "error";
     unicode_lower := fun c => [c];
     unicode_isdigit := fun _ => false |}.

(** A world in which the stack [My-Stack] has the connection output. *)
Definition stack_world : World :=
  let w := ConnectionInfo.connection_world in
  {| sys_argv := [lit "get-efs-target.py"; lit "My-Stack"];
     sibling_path := sibling_path w;
     path_exists := path_exists w;
     subprocess := fun argv n => Completed (lit "doc" ++ [10%N]);
     execvp := execvp w;
     json_loads := json_loads w;
     now_text := now_text w |}.

End GetEfsTargetScript.

(** ** What get-efs-target.py writes on its standard output *)

Module StdoutContract.
Import PyStr Runtime.


(** [m] never ends by a [return] of the function around it. *)
Definition no_return {R A} (m : M R A) : Prop :=
  forall tr r t, m tr <> (Return r, t).


(** The commands get-efs-target.py may run on a stack: the version checks,
    the identity check, and describe-stacks on a stack for the output whose
    key is the slug of the stack name followed by [efnConnectionInfo]. *)
Definition asks_for_slug (h : GetEfsTargetScript.Host) (e : event) : Prop :=
  match e with
  | Run argv =>
      argv = [lit "aws"; lit "--version"]
      \/ argv = [lit "jq"; lit "--version"]
      \/ argv = [lit "aws"; lit "sts"; lit "get-caller-identity"]
      \/ exists stack_name,
           argv = StackOutput.describe_stacks_argv stack_name
                    (Slug.GetEfsTarget.slugify_stack_name
                       (GetEfsTargetScript.unicode_lower h)
                       (GetEfsTargetScript.unicode_isdigit h) stack_name
                     ++ lit "efnConnectionInfo")
  | Execvp _ _ => False
  | _ => True
  end.

End StdoutContract.

(** ** build-capacity-env.py: get_secret_value *)

Module SecretValue.
Import PyStr Runtime ConnectEfs.
Local Open Scope py_scope.





Section WithWorld.
Variable w : World.


End WithWorld.
End SecretValue.

(** * Properties *)

(** ** Strings *)

Module PyStrFacts.
Import PyStr.

Lemma str_eqb_eq a b : str_eqb a b = true <-> a = b.
Proof.
  unfold str_eqb.
  destruct (list_eq_dec N.eq_dec a b); split; intros H; congruence.
Qed.

Lemma str_eqb_refl a : str_eqb a a = true.
Proof. now apply str_eqb_eq. Qed.

Lemma str_eqb_neq a b : a <> b -> str_eqb a b = false.
Proof.
  intros H. unfold str_eqb.
  destruct (list_eq_dec N.eq_dec a b); congruence.
Qed.

Lemma str_in_In x l : str_in x l = true <-> In x l.
Proof.
  unfold str_in. rewrite existsb_exists. split.
  - intros (y & Hy & E). apply str_eqb_eq in E. now subst y.
  - intros H. exists x. split; [exact H | apply str_eqb_refl].
Qed.

Lemma str_in_false x l : ~ In x l -> str_in x l = false.
Proof.
  intros H. destruct (str_in x l) eqn:E; [| reflexivity].
  apply str_in_In in E. contradiction.
Qed.

(** Evaluates the comparisons between literals of the source. *)
Ltac eval_literals :=
  repeat match goal with
    | |- context [str_eqb (lit ?a) (lit ?b)] =>
        let v := eval vm_compute in (str_eqb (lit a) (lit b)) in
        change (str_eqb (lit a) (lit b)) with v
    | |- context [str_in (lit ?a) ?l] =>
        let v := eval vm_compute in (str_in (lit a) l) in
        change (str_in (lit a) l) with v
    end.

End PyStrFacts.

(** ** slugify_stack_name *)

Module SlugFacts.
Import PyStr Slug.

Section Unicode.
Variable unicode_lower : N -> list N.
Variable unicode_isdigit : N -> bool.

Let slugify := GetEfsTarget.slugify_stack_name unicode_lower unicode_isdigit.

Lemma in_class_ascii c : in_class c = true -> (c <? 128)%N = true.
Proof.
  unfold in_class, is_ascii_lower, is_ascii_digit. intros H.
  apply N.ltb_lt.
  apply orb_true_iff in H.
  destruct H as [H | H]; apply andb_true_iff in H; destruct H as [_ H];
    apply N.leb_le in H; lia.
Qed.

Lemma in_class_not_upper c : in_class c = true -> is_ascii_upper c = false.
Proof.
  unfold in_class, is_ascii_lower, is_ascii_digit, is_ascii_upper. intros H.
  apply andb_false_iff.
  apply orb_true_iff in H.
  destruct H as [H | H]; apply andb_true_iff in H; destruct H as [H1 H2];
    apply N.leb_le in H1; apply N.leb_le in H2.
  - right. apply N.leb_gt. lia.
  - left. apply N.leb_gt. lia.
Qed.

(** Lower-casing leaves a string over [[a-z0-9]] alone. *)
Lemma lower_fixes_class s :
  forallb in_class s = true -> lower unicode_lower s = s.
Proof.
  induction s as [| c s IH]; simpl; intros H; [reflexivity |].
  apply andb_true_iff in H. destruct H as [Hc Hs].
  unfold lower_char. rewrite (in_class_ascii c Hc), (in_class_not_upper c Hc).
  simpl. now rewrite (IH Hs).
Qed.

Lemma filter_fixes_class s :
  forallb in_class s = true -> re_sub_non_alnum s = s.
Proof.
  unfold re_sub_non_alnum.
  induction s as [| c s IH]; simpl; intros H; [reflexivity |].
  apply andb_true_iff in H. destruct H as [Hc Hs].
  now rewrite Hc, (IH Hs).
Qed.

Lemma filter_in_class s : forallb in_class (re_sub_non_alnum s) = true.
Proof.
  unfold re_sub_non_alnum. apply forallb_forall. intros c Hc.
  now apply filter_In in Hc.
Qed.

(** A non-empty string over [[a-z0-9]] that does not start with a digit is a
    slug already. *)
Lemma slugify_fixed s :
  forallb in_class s = true ->
  truthy s = true ->
  isdigit unicode_isdigit (hd 0%N s) = false ->
  slugify s = s.
Proof.
  intros Hc Ht Hd. unfold slugify, GetEfsTarget.slugify_stack_name.
  rewrite (lower_fixes_class s Hc), (filter_fixes_class s Hc), Ht, Hd.
  cbn [andb]. rewrite Ht. reflexivity.
Qed.

(** What [slugify_stack_name] returns is such a string. *)
Lemma slugify_shape text :
  forallb in_class (slugify text) = true
  /\ truthy (slugify text) = true
  /\ isdigit unicode_isdigit (hd 0%N (slugify text)) = false.
Proof.
  unfold slugify, GetEfsTarget.slugify_stack_name.
  pose proof (filter_in_class (lower unicode_lower text)) as Hc.
  destruct (re_sub_non_alnum (lower unicode_lower text)) as [| c s] eqn:E.
  - simpl. repeat split; reflexivity.
  - cbn [truthy andb hd].
    destruct (isdigit unicode_isdigit c) eqn:D.
    + change (lit "n" ++ c :: s) with (110%N :: c :: s).
      cbn [truthy negb hd].
      split; [| split; reflexivity].
      change (forallb in_class (110%N :: c :: s))
        with (in_class 110 && forallb in_class (c :: s)).
      rewrite Hc. reflexivity.
    + cbn [negb truthy hd]. repeat split; auto.
Qed.

End Unicode.

(** C10.  For every input string and whatever the interpreter's case and
    digit tables are outside ASCII, [slugify_stack_name] of
    get-efs-target.py and [slugify_stack_name] of build-capacity-env.py
    return the same string, and the function is idempotent: applied to its
    own output it returns that output. *)
Theorem slugify_stack_name_agree_idempotent
  (unicode_lower : N -> list N) (unicode_isdigit : N -> bool) (text : str) :
  GetEfsTarget.slugify_stack_name unicode_lower unicode_isdigit text
  = BuildCapacityEnv.slugify_stack_name unicode_lower unicode_isdigit text
  /\ GetEfsTarget.slugify_stack_name unicode_lower unicode_isdigit
       (GetEfsTarget.slugify_stack_name unicode_lower unicode_isdigit text)
     = GetEfsTarget.slugify_stack_name unicode_lower unicode_isdigit text
  /\ BuildCapacityEnv.slugify_stack_name unicode_lower unicode_isdigit
       (BuildCapacityEnv.slugify_stack_name unicode_lower unicode_isdigit text)
     = BuildCapacityEnv.slugify_stack_name unicode_lower unicode_isdigit text.
Proof.
  assert (Hidem :
            GetEfsTarget.slugify_stack_name unicode_lower unicode_isdigit
              (GetEfsTarget.slugify_stack_name unicode_lower unicode_isdigit text)
            = GetEfsTarget.slugify_stack_name unicode_lower unicode_isdigit text).
  { destruct (slugify_shape unicode_lower unicode_isdigit text)
      as (Hc & Ht & Hd).
    now apply slugify_fixed. }
  split; [reflexivity |]. split; exact Hidem.
Qed.

End SlugFacts.

(** ** Traces *)

Module TraceFacts.
Import PyStr Runtime Controller.

Lemma is_run_same argv : is_run argv (Run argv) = true.
Proof.
  unfold is_run.
  destruct (list_eq_dec (list_eq_dec N.eq_dec) argv argv); congruence.
Qed.

Lemma is_run_other argv argv' : argv <> argv' -> is_run argv (Run argv') = false.
Proof.
  intros H. unfold is_run.
  destruct (list_eq_dec (list_eq_dec N.eq_dec) argv argv'); congruence.
Qed.

Lemma count_run_cons_same argv tr :
  count_run argv (Run argv :: tr) = S (count_run argv tr).
Proof. unfold count_run. cbn [filter]. now rewrite is_run_same. Qed.

Lemma count_run_cons_other argv argv' tr :
  argv <> argv' -> count_run argv (Run argv' :: tr) = count_run argv tr.
Proof.
  intros H. unfold count_run. cbn [filter]. now rewrite (is_run_other _ _ H).
Qed.

Lemma count_run_cons_stderr argv line tr :
  count_run argv (Stderr line :: tr) = count_run argv tr.
Proof. reflexivity. Qed.

Lemma count_run_app argv t1 t2 :
  count_run argv (t1 ++ t2) = count_run argv t1 + count_run argv t2.
Proof. unfold count_run. now rewrite filter_app, length_app. Qed.

Lemma count_sleep_app t1 t2 :
  count_sleep (t1 ++ t2) = count_sleep t1 + count_sleep t2.
Proof. unfold count_sleep. now rewrite filter_app, length_app. Qed.

Lemma slept_app t1 t2 : slept (t1 ++ t2) = (slept t1 + slept t2)%Z.
Proof.
  induction t1 as [| e t1 IH]; simpl; [reflexivity |].
  fold (slept (t1 ++ t2)). fold (slept t1). rewrite IH.
  destruct e; lia.
Qed.

Lemma commands_app t1 t2 : commands (t1 ++ t2) = commands t1 ++ commands t2.
Proof.
  induction t1 as [| e t1 IH]; simpl; [reflexivity |].
  destruct e; simpl; now rewrite IH.
Qed.

Lemma last_app_nonempty (t1 t2 : trace) d :
  t2 <> [] -> last (t1 ++ t2) d = last t2 d.
Proof.
  intros H. induction t1 as [| e t1 IH]; [reflexivity |].
  cbn [app last]. rewrite IH.
  destruct (t1 ++ t2) eqn:E; [| reflexivity].
  apply app_eq_nil in E. destruct E as [_ E]. contradiction.
Qed.

Lemma log_info_run (R : Type) message tr :
  @Utils.log_info R message tr
  = (Normal tt, tr ++ [Stderr (info_line message)]).
Proof. reflexivity. Qed.


(** The count of one command line, read off the list of commands. *)
Lemma count_run_commands argv tr :
  count_run argv tr
  = List.length (filter (fun a => is_run argv (Run a)) (commands tr)).
Proof.
  unfold count_run.
  induction tr as [| e tr IH]; simpl; [reflexivity |].
  destruct e; simpl; try exact IH.
  destruct (list_eq_dec (list_eq_dec N.eq_dec) argv argv0); simpl;
    now rewrite IH.
Qed.

Lemma count_run_repeat_same argv tr n :
  commands tr = repeat argv n -> count_run argv tr = n.
Proof.
  intros H. rewrite count_run_commands, H. clear H.
  induction n as [| n IH]; cbn [repeat filter]; [reflexivity |].
  rewrite is_run_same. cbn [List.length]. now rewrite IH.
Qed.

Lemma count_run_repeat_other argv argv' tr n :
  argv <> argv' -> commands tr = repeat argv' n -> count_run argv tr = 0.
Proof.
  intros Hne H. rewrite count_run_commands, H. clear H.
  induction n as [| n IH]; cbn [repeat filter]; [reflexivity |].
  now rewrite (is_run_other _ _ Hne).
Qed.

End TraceFacts.

(** ** The power-on phase *)

Module EnsureRunningFacts.
Import PyStr PyStrFacts Runtime ConnectEfs Controller TraceFacts.
Local Open Scope py_scope.

(** Runs the logging and sleeping statements of a body whose queries have
    been replaced by their replies. *)
Ltac run_py :=
  cbv [bind when call ret return_ sys_exit emit time_sleep print_stderr
       Utils.log_info Utils.log_error info_line error_line negb];
  rewrite <- ?app_assoc; cbn [app].

Section Instance.
Variable w : World.
Variable instance_id : str.

Let q := describe_state_argv instance_id.
Let go := start_instances_argv instance_id.
Let log_info := fun R : Type => @Utils.log_info R.
Let log_error := fun R : Type => @Utils.log_error R.

(** The body of the loop of lines 93-100. *)
Let poll_step : nat -> M unit unit := fun attempt =>
  current_state <- get_instance_state w instance_id ;;
  when (str_eqb current_state (lit "running"))
    (log_info _ (lit "Instance is now running") ;;
     return_ tt) ;;
  log_info _ (lit "Instance state: " ++ current_state ++ lit ", waiting...") ;;
  time_sleep 10.

Lemma wait_until_running_eq :
  wait_until_running w log_info log_error instance_id
  = (for_each (range 30) poll_step ;;
     log_error _ power_timeout_message ;;
     sys_exit 1).
Proof. reflexivity. Qed.

Lemma go_not_q : go <> q.
Proof.
  intros H. apply (f_equal (@List.length _)) in H. discriminate H.
Qed.

(** One call of [get_instance_state]: one command, and the state read off
    its reply. *)
Lemma get_instance_state_run (R : Type) tr :
  @get_instance_state w R instance_id tr
  = (match state_seen w instance_id (queries instance_id tr) with
     | Some s => Normal s
     | None => Raised FileNotFoundError
     end, tr ++ [Run q]).
Proof.
  unfold get_instance_state, call, try_except, bind, subprocess_run,
    state_seen, queries, return_.
  fold q. destruct (subprocess w q (count_run q tr)); reflexivity.
Qed.

Lemma poll_step_running attempt tr :
  state_seen w instance_id (queries instance_id tr) = Some (lit "running") ->
  poll_step attempt tr
  = (Return tt,
     tr ++ [Run q; Stderr (info_line (lit "Instance is now running"))]).
Proof.
  intros H. unfold poll_step, bind.
  rewrite get_instance_state_run, H, str_eqb_refl.
  subst log_info. run_py. reflexivity.
Qed.

Lemma poll_step_waiting attempt tr s :
  state_seen w instance_id (queries instance_id tr) = Some s ->
  s <> lit "running" ->
  poll_step attempt tr
  = (Normal tt,
     tr ++ [Run q;
            Stderr (info_line (lit "Instance state: " ++ s
                               ++ lit ", waiting..."));
            Sleep 10]).
Proof.
  intros H Hs. unfold poll_step, bind.
  rewrite get_instance_state_run, H, (str_eqb_neq _ _ Hs).
  subst log_info. run_py. reflexivity.
Qed.

Lemma poll_step_raises attempt tr :
  state_seen w instance_id (queries instance_id tr) = None ->
  poll_step attempt tr = (Raised FileNotFoundError, tr ++ [Run q]).
Proof.
  intros H. unfold poll_step, bind.
  now rewrite get_instance_state_run, H.
Qed.

Lemma queries_after_poll tr new :
  commands new = [q] ->
  queries instance_id (tr ++ new) = S (queries instance_id tr).
Proof.
  intros H. unfold queries. rewrite count_run_app.
  fold q. rewrite (count_run_repeat_same q new 1 H). lia.
Qed.

(** The loop, when the state is [running] at its attempt [k + 1] and not
    before: it returns from the function after [k + 1] queries and [k]
    sleeps of 10 seconds. *)
Lemma poll_loop_found xs :
  forall k tr,
    k < List.length xs ->
    (forall j, j < k ->
       exists s, state_seen w instance_id (queries instance_id tr + j) = Some s
                 /\ s <> lit "running") ->
    state_seen w instance_id (queries instance_id tr + k)
    = Some (lit "running") ->
    exists new,
      for_each xs poll_step tr = (Return tt, tr ++ new)
      /\ commands new = repeat q (S k)
      /\ count_sleep new = k
      /\ slept new = (10 * Z.of_nat k)%Z
      /\ last new (Sleep 0)
         = Stderr (info_line (lit "Instance is now running")).
Proof.
  induction xs as [| x xs IH]; intros k tr Hk Hbefore Hat;
    [simpl in Hk; lia |].
  destruct k as [| k].
  - rewrite Nat.add_0_r in Hat.
    exists [Run q; Stderr (info_line (lit "Instance is now running"))].
    cbn [for_each]. unfold bind at 1.
    rewrite (poll_step_running x tr Hat).
    repeat split; reflexivity.
  - destruct (Hbefore 0) as (s & Hs & Hne); [lia |].
    rewrite Nat.add_0_r in Hs.
    set (step := [Run q;
                  Stderr (info_line (lit "Instance state: " ++ s
                                     ++ lit ", waiting..."));
                  Sleep 10]).
    assert (Hq : queries instance_id (tr ++ step)
                 = S (queries instance_id tr))
      by (apply queries_after_poll; reflexivity).
    destruct (IH k (tr ++ step)) as (new & Hrun & Hc & Hn & Hz & Hl).
    + simpl in Hk. lia.
    + intros j Hj. rewrite Hq.
      replace (S (queries instance_id tr) + j)
        with (queries instance_id tr + S j) by lia.
      apply Hbefore. lia.
    + rewrite Hq.
      replace (S (queries instance_id tr) + k)
        with (queries instance_id tr + S k) by lia.
      exact Hat.
    + exists (step ++ new).
      cbn [for_each]. unfold bind at 1.
      rewrite (poll_step_waiting x tr s Hs Hne). fold step.
      rewrite Hrun, app_assoc.
      split; [reflexivity |].
      rewrite commands_app, count_sleep_app, slept_app, Hc, Hn, Hz.
      split; [reflexivity |].
      split; [unfold step; cbn [count_sleep filter is_sleep List.length]; lia |].
      split; [unfold step; cbn [slept fold_right]; lia |].
      rewrite last_app_nonempty; [exact Hl |].
      intros E. rewrite E in Hc. discriminate Hc.
Qed.

(** The loop, when none of its attempts sees [running]: it runs through,
    one query and one sleep of 10 seconds per attempt. *)
Lemma poll_loop_exhausted xs :
  forall tr,
    (forall j, j < List.length xs ->
       exists s, state_seen w instance_id (queries instance_id tr + j) = Some s
                 /\ s <> lit "running") ->
    exists new,
      for_each xs poll_step tr = (Normal tt, tr ++ new)
      /\ commands new = repeat q (List.length xs)
      /\ count_sleep new = List.length xs
      /\ slept new = (10 * Z.of_nat (List.length xs))%Z.
Proof.
  induction xs as [| x xs IH]; intros tr Hall.
  - exists []. rewrite app_nil_r. repeat split; reflexivity.
  - destruct (Hall 0) as (s & Hs & Hne); [simpl; lia |].
    rewrite Nat.add_0_r in Hs.
    set (step := [Run q;
                  Stderr (info_line (lit "Instance state: " ++ s
                                     ++ lit ", waiting..."));
                  Sleep 10]).
    assert (Hq : queries instance_id (tr ++ step)
                 = S (queries instance_id tr))
      by (apply queries_after_poll; reflexivity).
    destruct (IH (tr ++ step)) as (new & Hrun & Hc & Hn & Hz).
    + intros j Hj. rewrite Hq.
      replace (S (queries instance_id tr) + j)
        with (queries instance_id tr + S j) by lia.
      apply Hall. simpl. lia.
    + exists (step ++ new).
      cbn [for_each]. unfold bind at 1.
      rewrite (poll_step_waiting x tr s Hs Hne). fold step.
      rewrite Hrun, app_assoc.
      split; [reflexivity |].
      rewrite commands_app, count_sleep_app, slept_app, Hc, Hn, Hz.
      split; [reflexivity |].
      split; [unfold step; cbn [count_sleep filter is_sleep List.length]; lia |].
      unfold step; cbn [slept fold_right List.length]; lia.
Qed.

(** The loop in any world: it only ever runs the power-state query, at most
    once per attempt and at least once when there is an attempt. *)
Lemma poll_loop_commands xs :
  forall tr,
    exists o new n,
      for_each xs poll_step tr = (o, tr ++ new)
      /\ commands new = repeat q n
      /\ n <= List.length xs
      /\ (xs <> [] -> 1 <= n).
Proof.
  induction xs as [| x xs IH]; intros tr.
  - exists (Normal tt), [], 0. rewrite app_nil_r.
    split; [reflexivity |]. split; [reflexivity |].
    split; [simpl; lia | congruence].
  - cbn [for_each]. unfold bind at 1.
    destruct (state_seen w instance_id (queries instance_id tr))
      as [s |] eqn:Hs.
    + destruct (list_eq_dec N.eq_dec s (lit "running")) as [-> | Hne].
      * rewrite (poll_step_running x tr Hs).
        eexists _, _, 1. split; [reflexivity |].
        split; [reflexivity |]. split; [simpl; lia | intros _; lia].
      * rewrite (poll_step_waiting x tr s Hs Hne).
        destruct (IH (tr ++ [Run q;
                            Stderr (info_line (lit "Instance state: " ++ s
                                               ++ lit ", waiting..."));
                            Sleep 10]))
          as (o & new & n & Hrun & Hc & Hn & _).
        rewrite Hrun, <- app_assoc.
        eexists _, _, (S n). split; [reflexivity |].
        rewrite commands_app, Hc.
        split; [reflexivity |]. split; [simpl; lia | intros _; lia].
    + rewrite (poll_step_raises x tr Hs).
      eexists _, _, 1. split; [reflexivity |].
      split; [reflexivity |]. split; [simpl; lia | intros _; lia].
Qed.

(** The start command, issued where the source issues it. *)
Lemma start_command_run (R : Type) tr a b :
  @subprocess_run w R go (tr ++ [Run q; Stderr a; Stderr b])
  = (match subprocess w go (starts instance_id tr) with
     | Completed out => Normal out
     | NonZeroExit text err => Raised (CalledProcessError text err)
     | NotFound => Raised FileNotFoundError
     end, tr ++ [Run q; Stderr a; Stderr b; Run go]).
Proof.
  unfold subprocess_run, starts. fold go.
  rewrite count_run_app.
  replace (count_run go [Run q; Stderr a; Stderr b]) with 0
    by (unfold count_run; cbn [filter]; now rewrite (is_run_other _ _ go_not_q)).
  rewrite Nat.add_0_r, <- app_assoc.
  destruct (subprocess w go (count_run go tr)); reflexivity.
Qed.

Lemma queries_prologue tr s0 :
  queries instance_id (tr ++ wait_prologue instance_id s0)
  = S (queries instance_id tr).
Proof.
  unfold queries. rewrite count_run_app. fold q.
  replace (count_run q (wait_prologue instance_id s0)) with 1; [lia |].
  unfold wait_prologue. fold q. fold go.
  destruct (str_eqb s0 (lit "stopped")); cbn [app];
    rewrite ?count_run_cons_same, ?count_run_cons_stderr,
      ?(count_run_cons_other q go (fun E => go_not_q (eq_sym E)));
    reflexivity.
Qed.

Lemma starts_prologue tr s0 :
  starts instance_id (tr ++ wait_prologue instance_id s0)
  = starts instance_id tr + (if str_eqb s0 (lit "stopped") then 1 else 0).
Proof.
  unfold starts. rewrite count_run_app. fold go. f_equal.
  unfold wait_prologue. fold q. fold go.
  destruct (str_eqb s0 (lit "stopped")); cbn [app];
    rewrite (count_run_cons_other _ _ _ go_not_q), ?count_run_cons_stderr,
      ?count_run_cons_same; reflexivity.
Qed.

(** From a state that leads to the wait phase, the function is the wait
    phase run after the prologue. *)
Lemma ensure_running_to_wait tr s0 :
  state_seen w instance_id (queries instance_id tr) = Some s0 ->
  enters_wait w instance_id tr s0 ->
  EnsureRunning w instance_id tr
  = call (wait_until_running w log_info log_error instance_id)
      (tr ++ wait_prologue instance_id s0).
Proof.
  intros Hs Hw.
  unfold EnsureRunning, start_instance_if_needed.
  subst log_info log_error.
  set (wait := wait_until_running w _ _ instance_id).
  unfold call. unfold bind at 1.
  rewrite get_instance_state_run, Hs.
  destruct Hw as [-> | [-> | [-> (out & Hout)]]]; unfold wait_prologue;
    eval_literals.
  - run_py. cbn [negb].
    destruct (wait _) as [[[] | [] | e | c |] t]; reflexivity.
  - run_py. cbn [negb].
    destruct (wait _) as [[[] | [] | e | c |] t]; reflexivity.
  - unfold bind at 1. unfold Utils.log_info at 1. run_py.
    unfold try_except. rewrite start_command_run. fold go in Hout.
    rewrite Hout. cbn [negb]. rewrite <- ?app_assoc. cbn [app].
    destruct (wait _) as [[[] | [] | e | c |] t]; reflexivity.
Qed.

(** The wait phase when [running] is seen at its attempt [k]. *)
Lemma wait_phase_found tr k :
  1 <= k <= 30 ->
  (forall j, j < k - 1 ->
     exists s, state_seen w instance_id (queries instance_id tr + j) = Some s
               /\ s <> lit "running") ->
  state_seen w instance_id (queries instance_id tr + (k - 1))
  = Some (lit "running") ->
  exists polls,
    wait_until_running w log_info log_error instance_id tr
    = (Return tt, tr ++ polls)
    /\ commands polls = repeat q k
    /\ count_sleep polls = k - 1
    /\ slept polls = (10 * Z.of_nat (k - 1))%Z
    /\ last polls (Sleep 0)
       = Stderr (info_line (lit "Instance is now running")).
Proof.
  intros Hk Hbefore Hat.
  destruct (poll_loop_found (range 30) (k - 1) tr)
    as (polls & Hrun & Hc & Hn & Hz & Hl); try assumption.
  { unfold range. rewrite length_seq. lia. }
  exists polls. rewrite wait_until_running_eq. unfold bind at 1.
  rewrite Hrun. replace (S (k - 1)) with k in Hc by lia.
  repeat split; assumption.
Qed.

(** The wait phase when [running] is seen at none of its 30 attempts. *)
Lemma wait_phase_timeout tr :
  (forall j, j < 30 ->
     exists s, state_seen w instance_id (queries instance_id tr + j) = Some s
               /\ s <> lit "running") ->
  exists polls,
    wait_until_running w log_info log_error instance_id tr
    = (SysExit 1, tr ++ polls)
    /\ commands polls = repeat q 30
    /\ count_sleep polls = 30
    /\ slept polls = 300%Z
    /\ last polls (Sleep 0) = Stderr (error_line power_timeout_message).
Proof.
  intros Hall.
  destruct (poll_loop_exhausted (range 30) tr)
    as (polls & Hrun & Hc & Hn & Hz).
  { unfold range. rewrite length_seq. exact Hall. }
  unfold range in Hc, Hn, Hz. rewrite length_seq in Hc, Hn, Hz.
  exists (polls ++ [Stderr (error_line power_timeout_message)]).
  rewrite wait_until_running_eq. unfold bind at 1. rewrite Hrun.
  subst log_error. run_py.
  split; [reflexivity |].
  rewrite commands_app, count_sleep_app, slept_app, Hc, Hn, Hz, last_last.
  repeat split; reflexivity.
Qed.

(** The wait phase in any world: between 1 and 30 power-state queries and
    no other command. *)
Lemma wait_phase_commands tr :
  exists o polls n,
    wait_until_running w log_info log_error instance_id tr = (o, tr ++ polls)
    /\ commands polls = repeat q n
    /\ 1 <= n <= 30.
Proof.
  destruct (poll_loop_commands (range 30) tr)
    as (o & polls & n & Hrun & Hc & Hn & Hpos).
  unfold range in Hn. rewrite length_seq in Hn.
  assert (1 <= n) by (apply Hpos; discriminate).
  rewrite wait_until_running_eq. unfold bind at 1. rewrite Hrun.
  destruct o as [[] | [] | e | c |].
  - exists (SysExit 1), (polls ++ [Stderr (error_line power_timeout_message)]), n.
    subst log_error. run_py.
    split; [reflexivity |]. rewrite commands_app, Hc. simpl.
    rewrite app_nil_r. split; [reflexivity | lia].
  - exists (Return tt), polls, n. repeat split; auto; lia.
  - exists (Raised e), polls, n. repeat split; auto; lia.
  - exists (SysExit c), polls, n. repeat split; auto; lia.
  - exists Replaced, polls, n. repeat split; auto; lia.
Qed.

(** The branches that do not reach the wait phase. *)
Lemma ensure_running_noop tr :
  state_seen w instance_id (queries instance_id tr) = Some (lit "running") ->
  EnsureRunning w instance_id tr
  = (Normal tt,
     tr ++ [Run q;
            Stderr (info_line (lit "Current EC2 instance state: "
                               ++ lit "running"));
            Stderr (info_line (lit "Instance is already running"))]).
Proof.
  intros Hs. unfold EnsureRunning, start_instance_if_needed.
  unfold call at 1. unfold bind at 1.
  rewrite get_instance_state_run, Hs. eval_literals.
  run_py. reflexivity.
Qed.

Lemma ensure_running_unexpected tr s0 :
  state_seen w instance_id (queries instance_id tr) = Some s0 ->
  ~ In s0 known_states ->
  EnsureRunning w instance_id tr
  = (SysExit 1,
     tr ++ [Run q;
            Stderr (info_line (lit "Current EC2 instance state: " ++ s0));
            Stderr (error_line (lit "Instance is in unexpected state: "
                                ++ s0))]).
Proof.
  intros Hs Hout. unfold EnsureRunning, start_instance_if_needed.
  unfold call at 1. unfold bind at 1.
  rewrite get_instance_state_run, Hs.
  assert (H1 : s0 <> lit "running") by (intros E; apply Hout; simpl; auto).
  assert (H2 : s0 <> lit "stopped") by (intros E; apply Hout; simpl; auto).
  assert (H3 : ~ In s0 [lit "stopped"; lit "pending"; lit "stopping"])
    by (intros E; apply Hout; simpl in *; tauto).
  rewrite (str_eqb_neq _ _ H1), (str_eqb_neq _ _ H2), (str_in_false _ _ H3).
  change [lit "running"; lit "stopped"; lit "pending"; lit "stopping"]
    with known_states.
  rewrite (str_in_false _ _ Hout).
  run_py. reflexivity.
Qed.

Lemma ensure_running_start_fails tr :
  state_seen w instance_id (queries instance_id tr) = Some (lit "stopped") ->
  (forall out,
     subprocess w go (starts instance_id tr) <> Completed out) ->
  EnsureRunning w instance_id tr
  = (match subprocess w go (starts instance_id tr) with
     | NonZeroExit _ _ => SysExit 1
     | _ => Raised FileNotFoundError
     end,
     tr ++ [Run q;
            Stderr (info_line (lit "Current EC2 instance state: "
                               ++ lit "stopped"));
            Stderr (info_line (lit "Starting EC2 instance: " ++ instance_id));
            Run go]
        ++ match subprocess w go (starts instance_id tr) with
           | NonZeroExit text _ =>
               [Stderr (error_line (lit "Failed to start instance: " ++ text))]
           | _ => []
           end).
Proof.
  intros Hs Hfail. unfold EnsureRunning, start_instance_if_needed.
  set (wait := wait_until_running w _ _ instance_id).
  unfold call at 1. unfold bind at 1.
  rewrite get_instance_state_run, Hs. eval_literals.
  unfold bind at 1. unfold Utils.log_info at 1. run_py.
  unfold try_except. rewrite start_command_run. fold go.
  destruct (subprocess w go (starts instance_id tr)) as [out | text err |].
  - now elim (Hfail out).
  - run_py. reflexivity.
  - reflexivity.
Qed.

End Instance.
End EnsureRunningFacts.

(** ** The management-reachability phase *)

Module ReachabilityFacts.
Import PyStr PyStrFacts Runtime ConnectEfs Controller TraceFacts.
Import EnsureRunningFacts.
Local Open Scope py_scope.

Section Instance.
Variable w : World.
Variable instance_id : str.

Let p := describe_ping_argv instance_id.
Let log_info := fun R : Type => @Utils.log_info R.
Let log_error := fun R : Type => @Utils.log_error R.

(** The body of the loop of lines 114-120. *)
Let check_step : nat -> M unit unit := fun attempt =>
  online <- check_ssm_managed w instance_id ;;
  when online
    (log_info _ (lit "SSM connectivity established") ;;
     return_ tt) ;;
  log_info _ (lit "SSM not ready yet, waiting...") ;;
  time_sleep 10.

Let waiting_line :=
  Stderr (info_line (lit "Waiting for SSM connectivity...")).

Lemma wait_for_ssm_eq tr :
  EnsureManagementReachable w instance_id tr
  = call (log_info _ (lit "Waiting for SSM connectivity...") ;;
          for_each (range 30) check_step ;;
          log_error _ ssm_timeout_message ;;
          sys_exit 1) tr.
Proof. reflexivity. Qed.

(** One call of [check_ssm_managed]: one command, and the flag read off its
    reply. *)
Lemma check_ssm_managed_run (R : Type) tr :
  @check_ssm_managed w R instance_id tr
  = (match online_seen w instance_id (checks instance_id tr) with
     | Some b => Normal b
     | None => Raised FileNotFoundError
     end, tr ++ [Run p]).
Proof.
  unfold check_ssm_managed, call, try_except, bind, subprocess_run,
    online_seen, checks, return_.
  fold p. destruct (subprocess w p (count_run p tr)); reflexivity.
Qed.

Lemma check_step_online attempt tr :
  online_seen w instance_id (checks instance_id tr) = Some true ->
  check_step attempt tr
  = (Return tt,
     tr ++ [Run p; Stderr (info_line (lit "SSM connectivity established"))]).
Proof.
  intros H. unfold check_step, bind.
  rewrite check_ssm_managed_run, H.
  subst log_info. run_py. reflexivity.
Qed.

Lemma check_step_offline attempt tr :
  online_seen w instance_id (checks instance_id tr) = Some false ->
  check_step attempt tr
  = (Normal tt,
     tr ++ [Run p;
            Stderr (info_line (lit "SSM not ready yet, waiting..."));
            Sleep 10]).
Proof.
  intros H. unfold check_step, bind.
  rewrite check_ssm_managed_run, H.
  subst log_info. run_py. reflexivity.
Qed.

Lemma checks_after_step tr new :
  commands new = [p] ->
  checks instance_id (tr ++ new) = S (checks instance_id tr).
Proof.
  intros H. unfold checks. rewrite count_run_app.
  fold p. rewrite (count_run_repeat_same p new 1 H). lia.
Qed.

(** The loop, when the flag is true at its attempt [k + 1] and false
    before. *)
Lemma check_loop_found xs :
  forall k tr,
    k < List.length xs ->
    (forall j, j < k ->
       online_seen w instance_id (checks instance_id tr + j) = Some false) ->
    online_seen w instance_id (checks instance_id tr + k) = Some true ->
    exists new,
      for_each xs check_step tr = (Return tt, tr ++ new)
      /\ commands new = repeat p (S k)
      /\ count_sleep new = k
      /\ slept new = (10 * Z.of_nat k)%Z.
Proof.
  induction xs as [| x xs IH]; intros k tr Hk Hbefore Hat;
    [simpl in Hk; lia |].
  destruct k as [| k].
  - rewrite Nat.add_0_r in Hat.
    exists [Run p; Stderr (info_line (lit "SSM connectivity established"))].
    cbn [for_each]. unfold bind at 1.
    rewrite (check_step_online x tr Hat).
    repeat split; reflexivity.
  - pose proof (Hbefore 0 ltac:(lia)) as Hoff.
    rewrite Nat.add_0_r in Hoff.
    set (step := [Run p;
                  Stderr (info_line (lit "SSM not ready yet, waiting..."));
                  Sleep 10]).
    assert (Hq : checks instance_id (tr ++ step) = S (checks instance_id tr))
      by (apply checks_after_step; reflexivity).
    destruct (IH k (tr ++ step)) as (new & Hrun & Hc & Hn & Hz).
    + simpl in Hk. lia.
    + intros j Hj. rewrite Hq.
      replace (S (checks instance_id tr) + j)
        with (checks instance_id tr + S j) by lia.
      apply Hbefore. lia.
    + rewrite Hq.
      replace (S (checks instance_id tr) + k)
        with (checks instance_id tr + S k) by lia.
      exact Hat.
    + exists (step ++ new).
      cbn [for_each]. unfold bind at 1.
      rewrite (check_step_offline x tr Hoff). fold step.
      rewrite Hrun, app_assoc.
      split; [reflexivity |].
      rewrite commands_app, count_sleep_app, slept_app, Hc, Hn, Hz.
      split; [reflexivity |].
      split; [unfold step; cbn [count_sleep filter is_sleep List.length]; lia |].
      unfold step; cbn [slept fold_right]; lia.
Qed.

(** The loop, when the flag is false at each of its attempts. *)
Lemma check_loop_exhausted xs :
  forall tr,
    (forall j, j < List.length xs ->
       online_seen w instance_id (checks instance_id tr + j) = Some false) ->
    exists new,
      for_each xs check_step tr = (Normal tt, tr ++ new)
      /\ commands new = repeat p (List.length xs)
      /\ count_sleep new = List.length xs
      /\ slept new = (10 * Z.of_nat (List.length xs))%Z.
Proof.
  induction xs as [| x xs IH]; intros tr Hall.
  - exists []. rewrite app_nil_r. repeat split; reflexivity.
  - pose proof (Hall 0 ltac:(simpl; lia)) as Hoff.
    rewrite Nat.add_0_r in Hoff.
    set (step := [Run p;
                  Stderr (info_line (lit "SSM not ready yet, waiting..."));
                  Sleep 10]).
    assert (Hq : checks instance_id (tr ++ step) = S (checks instance_id tr))
      by (apply checks_after_step; reflexivity).
    destruct (IH (tr ++ step)) as (new & Hrun & Hc & Hn & Hz).
    + intros j Hj. rewrite Hq.
      replace (S (checks instance_id tr) + j)
        with (checks instance_id tr + S j) by lia.
      apply Hall. simpl. lia.
    + exists (step ++ new).
      cbn [for_each]. unfold bind at 1.
      rewrite (check_step_offline x tr Hoff). fold step.
      rewrite Hrun, app_assoc.
      split; [reflexivity |].
      rewrite commands_app, count_sleep_app, slept_app, Hc, Hn, Hz.
      split; [reflexivity |].
      split; [unfold step; cbn [count_sleep filter is_sleep List.length]; lia |].
      unfold step; cbn [slept fold_right List.length]; lia.
Qed.

Lemma checks_after_line tr line :
  checks instance_id (tr ++ [Stderr line]) = checks instance_id tr.
Proof.
  unfold checks. rewrite count_run_app.
  change (count_run (describe_ping_argv instance_id) [Stderr line]) with 0.
  lia.
Qed.

(** [wait_for_ssm] when the flag is first true at attempt [k]. *)
Lemma wait_for_ssm_found tr k :
  1 <= k <= 30 ->
  (forall j, j < k - 1 ->
     online_seen w instance_id (checks instance_id tr + j) = Some false) ->
  online_seen w instance_id (checks instance_id tr + (k - 1)) = Some true ->
  exists new,
    EnsureManagementReachable w instance_id tr = (Normal tt, tr ++ new)
    /\ commands new = repeat p k
    /\ count_sleep new = k - 1
    /\ slept new = (10 * Z.of_nat (k - 1))%Z.
Proof.
  intros Hk Hbefore Hat.
  destruct (check_loop_found (range 30) (k - 1) (tr ++ [waiting_line]))
    as (new & Hrun & Hc & Hn & Hz).
  { unfold range. rewrite length_seq. lia. }
  { intros j Hj. unfold waiting_line. rewrite checks_after_line. auto. }
  { unfold waiting_line. rewrite checks_after_line. exact Hat. }
  exists (waiting_line :: new).
  rewrite wait_for_ssm_eq. unfold call. unfold bind at 1.
  subst log_info. cbv beta. rewrite log_info_run.
  unfold bind at 1. fold waiting_line.
  change (tr ++ waiting_line :: new) with (tr ++ [waiting_line] ++ new).
  rewrite app_assoc, Hrun.
  replace (S (k - 1)) with k in Hc by lia.
  repeat split; assumption.
Qed.

(** [wait_for_ssm] when the flag is true at none of the 30 attempts. *)
Lemma wait_for_ssm_timeout tr :
  (forall j, j < 30 ->
     online_seen w instance_id (checks instance_id tr + j) = Some false) ->
  exists new,
    EnsureManagementReachable w instance_id tr = (SysExit 1, tr ++ new)
    /\ commands new = repeat p 30
    /\ count_sleep new = 30
    /\ slept new = 300%Z
    /\ last new (Sleep 0) = Stderr (error_line ssm_timeout_message).
Proof.
  intros Hall.
  destruct (check_loop_exhausted (range 30) (tr ++ [waiting_line]))
    as (new & Hrun & Hc & Hn & Hz).
  { unfold range. rewrite length_seq. intros j Hj.
    unfold waiting_line. rewrite checks_after_line. auto. }
  unfold range in Hc, Hn, Hz. rewrite length_seq in Hc, Hn, Hz.
  exists (waiting_line :: new ++ [Stderr (error_line ssm_timeout_message)]).
  rewrite wait_for_ssm_eq. unfold call. unfold bind at 1.
  subst log_info. cbv beta. rewrite log_info_run.
  unfold bind at 1. fold waiting_line.
  change (tr ++ waiting_line :: new ++ [Stderr (error_line ssm_timeout_message)])
    with (tr ++ [waiting_line] ++ new
          ++ [Stderr (error_line ssm_timeout_message)]).
  rewrite app_assoc, Hrun.
  subst log_error. run_py.
  split; [reflexivity |].
  fold (error_line ssm_timeout_message).
  change (waiting_line :: new ++ [Stderr (error_line ssm_timeout_message)])
    with ([waiting_line] ++ new ++ [Stderr (error_line ssm_timeout_message)]).
  rewrite !commands_app, !count_sleep_app, !slept_app, Hc, Hn, Hz.
  rewrite (app_assoc [waiting_line] new), last_last.
  repeat split; reflexivity.
Qed.

End Instance.
End ReachabilityFacts.

(** ** The claims about the controller *)

Module Readiness.
Import PyStr PyStrFacts Runtime ConnectEfs Controller TraceFacts.
Import EnsureRunningFacts ReachabilityFacts.

Lemma q_not_go instance_id :
  describe_state_argv instance_id <> start_instances_argv instance_id.
Proof. intros E. exact (go_not_q instance_id (eq_sym E)). Qed.

Lemma count_run_nil argv : count_run argv [] = 0.
Proof. reflexivity. Qed.

(** Counts the commands of a trace made of explicit events followed by a
    run of power-state queries. *)
Ltac count_commands id :=
  unfold queries, starts; cbn [app];
  repeat first
    [ rewrite count_run_cons_same
    | rewrite count_run_cons_stderr
    | rewrite (count_run_cons_other _ _ _ (go_not_q id))
    | rewrite (count_run_cons_other _ _ _ (q_not_go id))
    | rewrite count_run_nil ].

Lemma prologue_no_sleep instance_id s0 :
  count_sleep (wait_prologue instance_id s0) = 0
  /\ slept (wait_prologue instance_id s0) = 0%Z.
Proof.
  unfold wait_prologue.
  destruct (str_eqb s0 (lit "stopped")); split; reflexivity.
Qed.

(** C5.  When the first power-state query reports [running],
    [start_instance_if_needed] returns normally after that one query and two
    log lines: it runs no start command, no further query, and does not
    sleep. *)
Theorem ensure_running_when_running w instance_id tr :
  state_seen w instance_id (queries instance_id tr) = Some (lit "running") ->
  let new :=
    [ Run (describe_state_argv instance_id);
      Stderr (info_line (lit "Current EC2 instance state: " ++ lit "running"));
      Stderr (info_line (lit "Instance is already running")) ] in
  EnsureRunning w instance_id tr = (Normal tt, tr ++ new)
  /\ commands new = [describe_state_argv instance_id]
  /\ queries instance_id new = 1
  /\ starts instance_id new = 0
  /\ count_sleep new = 0.
Proof.
  intros Hs new. split; [exact (ensure_running_noop w instance_id tr Hs) |].
  subst new. split; [reflexivity |].
  split; [now count_commands instance_id |].
  split; [now count_commands instance_id | reflexivity].
Qed.

(** C8.  When the first power-state query reports a state outside
    [running], [stopped], [pending], [stopping] (among them [unknown], which
    [get_instance_state] returns when the query itself fails),
    [start_instance_if_needed] logs the unexpected state and exits with
    status 1: one query, no start command, no sleep, no retry. *)
Theorem ensure_running_unexpected_state w instance_id tr s0 :
  state_seen w instance_id (queries instance_id tr) = Some s0 ->
  ~ In s0 known_states ->
  let new :=
    [ Run (describe_state_argv instance_id);
      Stderr (info_line (lit "Current EC2 instance state: " ++ s0));
      Stderr (error_line (lit "Instance is in unexpected state: " ++ s0)) ] in
  EnsureRunning w instance_id tr = (SysExit 1, tr ++ new)
  /\ commands new = [describe_state_argv instance_id]
  /\ queries instance_id new = 1
  /\ starts instance_id new = 0
  /\ count_sleep new = 0.
Proof.
  intros Hs Hout new.
  split; [exact (ensure_running_unexpected w instance_id tr s0 Hs Hout) |].
  subst new. split; [reflexivity |].
  split; [now count_commands instance_id |].
  split; [now count_commands instance_id | reflexivity].
Qed.

(** C9.  When the first power-state query reports [stopped] and the start
    command exits with a non-zero status, [start_instance_if_needed] logs
    the failure and exits with status 1: the start command was run once, the
    wait phase is not entered (no further query, no sleep). *)
Theorem ensure_running_start_command_fails w instance_id tr text err :
  state_seen w instance_id (queries instance_id tr) = Some (lit "stopped") ->
  subprocess w (start_instances_argv instance_id) (starts instance_id tr)
  = NonZeroExit text err ->
  let new :=
    [ Run (describe_state_argv instance_id);
      Stderr (info_line (lit "Current EC2 instance state: " ++ lit "stopped"));
      Stderr (info_line (lit "Starting EC2 instance: " ++ instance_id));
      Run (start_instances_argv instance_id);
      Stderr (error_line (lit "Failed to start instance: " ++ text)) ] in
  EnsureRunning w instance_id tr = (SysExit 1, tr ++ new)
  /\ commands new
     = [describe_state_argv instance_id; start_instances_argv instance_id]
  /\ starts instance_id new = 1
  /\ queries instance_id new = 1
  /\ count_sleep new = 0.
Proof.
  intros Hs Hgo new.
  split.
  - rewrite (ensure_running_start_fails w instance_id tr Hs).
    + rewrite Hgo. reflexivity.
    + intros out E. rewrite Hgo in E. discriminate E.
  - subst new. split; [reflexivity |].
    split; [now count_commands instance_id |].
    split; [now count_commands instance_id | reflexivity].
Qed.

(** C4.  When the first power-state query reports [stopped], whatever the
    world does next, [start_instance_if_needed] runs the start command
    exactly once, right after that first query, and every command it runs
    afterwards is a power-state query of the wait phase (at most 30 of
    them). *)
Theorem ensure_running_stopped_starts_once w instance_id tr :
  state_seen w instance_id (queries instance_id tr) = Some (lit "stopped") ->
  let head :=
    [ Run (describe_state_argv instance_id);
      Stderr (info_line (lit "Current EC2 instance state: " ++ lit "stopped"));
      Stderr (info_line (lit "Starting EC2 instance: " ++ instance_id));
      Run (start_instances_argv instance_id) ] in
  exists o rest n,
    EnsureRunning w instance_id tr = (o, tr ++ head ++ rest)
    /\ commands rest = repeat (describe_state_argv instance_id) n
    /\ n <= 30
    /\ starts instance_id (head ++ rest) = 1.
Proof.
  intros Hs head.
  assert (Hcount : forall rest n,
             commands rest = repeat (describe_state_argv instance_id) n ->
             starts instance_id (head ++ rest) = 1).
  { intros rest n Hc. subst head. count_commands instance_id.
    now rewrite (count_run_repeat_other _ _ rest n (go_not_q instance_id) Hc). }
  destruct (subprocess w (start_instances_argv instance_id)
              (starts instance_id tr)) as [out | text err |] eqn:Hgo.
  - rewrite (ensure_running_to_wait w instance_id tr (lit "stopped") Hs)
      by (right; right; split; [reflexivity | now exists out]).
    destruct (wait_phase_commands w instance_id
                (tr ++ wait_prologue instance_id (lit "stopped")))
      as (o & polls & n & Hrun & Hc & Hn).
    unfold call. rewrite Hrun.
    exists (match o with Return r => Normal r | other => other end),
      (Stderr (info_line (lit "Waiting for instance to start...")) :: polls),
      n.
    split.
    { rewrite <- app_assoc.
      destruct o as [[] | [] | e | c |]; reflexivity. }
    assert (Hc' : commands
                    (Stderr (info_line (lit "Waiting for instance to start..."))
                     :: polls)
                  = repeat (describe_state_argv instance_id) n) by exact Hc.
    split; [exact Hc' |]. split; [lia |]. exact (Hcount _ n Hc').
  - exists (SysExit 1),
      [Stderr (error_line (lit "Failed to start instance: " ++ text))], 0.
    rewrite (ensure_running_start_fails w instance_id tr Hs)
      by (intros out E; rewrite Hgo in E; discriminate E).
    rewrite Hgo.
    split; [reflexivity |]. split; [reflexivity |]. split; [lia |].
    now apply (Hcount _ 0).
  - exists (Raised FileNotFoundError), [], 0.
    rewrite (ensure_running_start_fails w instance_id tr Hs)
      by (intros out E; rewrite Hgo in E; discriminate E).
    rewrite Hgo.
    split; [reflexivity |]. split; [reflexivity |]. split; [lia |].
    now apply (Hcount _ 0).
Qed.

(** C6.  When the first power-state query reports [pending] or [stopping],
    [start_instance_if_needed] goes to the wait phase at once: after the
    first query it only logs, then polls; every command it runs afterwards
    is a power-state query (between 1 and 30 of them), and it runs no start
    command. *)
Theorem ensure_running_transitional_no_start w instance_id tr s0 :
  state_seen w instance_id (queries instance_id tr) = Some s0 ->
  s0 = lit "pending" \/ s0 = lit "stopping" ->
  let head :=
    [ Run (describe_state_argv instance_id);
      Stderr (info_line (lit "Current EC2 instance state: " ++ s0));
      Stderr (info_line (lit "Instance is in transitional state: " ++ s0));
      Stderr (info_line (lit "Waiting for instance to start...")) ] in
  exists o polls n,
    EnsureRunning w instance_id tr = (o, tr ++ head ++ polls)
    /\ commands polls = repeat (describe_state_argv instance_id) n
    /\ 1 <= n <= 30
    /\ starts instance_id (head ++ polls) = 0.
Proof.
  intros Hs Hs0 head.
  assert (Hhead : wait_prologue instance_id s0 = head)
    by (destruct Hs0 as [-> | ->]; reflexivity).
  rewrite (ensure_running_to_wait w instance_id tr s0 Hs)
    by (destruct Hs0; [left | right; left]; assumption).
  destruct (wait_phase_commands w instance_id
              (tr ++ wait_prologue instance_id s0))
    as (o & polls & n & Hrun & Hc & Hn).
  unfold call. rewrite Hrun, Hhead.
  exists (match o with Return r => Normal r | other => other end), polls, n.
  split.
  { rewrite <- app_assoc. destruct o as [[] | [] | e | c |]; reflexivity. }
  split; [exact Hc |]. split; [exact Hn |].
  subst head. count_commands instance_id.
  exact (count_run_repeat_other _ _ polls n (go_not_q instance_id) Hc).
Qed.

(** C1, as the code has it.  Let the first power-state query report a state
    that leads to the wait phase ([pending], [stopping], or [stopped] with
    the start command accepted), and let [running] be reported at attempt
    [k] of the wait phase, [1 <= k <= 30], and not at an earlier attempt.
    Then [start_instance_if_needed] returns normally; the wait phase runs
    exactly [k] power-state queries, which with the initial query makes
    [k + 1] in all, and it sleeps [k - 1] times, 10 seconds each. *)
Theorem ensure_running_succeeds_at_attempt w instance_id tr s0 k :
  state_seen w instance_id (queries instance_id tr) = Some s0 ->
  enters_wait w instance_id tr s0 ->
  1 <= k <= 30 ->
  (forall j, 1 <= j < k ->
     exists s, state_seen w instance_id (queries instance_id tr + j) = Some s
               /\ s <> lit "running") ->
  state_seen w instance_id (queries instance_id tr + k)
  = Some (lit "running") ->
  exists polls,
    EnsureRunning w instance_id tr
    = (Normal tt, tr ++ wait_prologue instance_id s0 ++ polls)
    /\ commands polls = repeat (describe_state_argv instance_id) k
    /\ queries instance_id (wait_prologue instance_id s0 ++ polls) = k + 1
    /\ count_sleep (wait_prologue instance_id s0 ++ polls) = k - 1
    /\ slept (wait_prologue instance_id s0 ++ polls)
       = (10 * Z.of_nat (k - 1))%Z.
Proof.
  intros Hs Hw Hk Hbefore Hat.
  pose proof (queries_prologue instance_id tr s0) as Hq.
  destruct (wait_phase_found w instance_id
              (tr ++ wait_prologue instance_id s0) k Hk)
    as (polls & Hrun & Hc & Hn & Hz & _).
  { intros j Hj. rewrite Hq.
    replace (S (queries instance_id tr) + j)
      with (queries instance_id tr + S j) by lia.
    apply Hbefore. lia. }
  { rewrite Hq.
    replace (S (queries instance_id tr) + (k - 1))
      with (queries instance_id tr + k) by lia.
    exact Hat. }
  exists polls.
  rewrite (ensure_running_to_wait w instance_id tr s0 Hs Hw).
  unfold call. rewrite Hrun, <- app_assoc.
  split; [reflexivity |]. split; [exact Hc |].
  destruct (prologue_no_sleep instance_id s0) as [Hn0 Hz0].
  rewrite count_sleep_app, slept_app, Hn0, Hz0, Hn, Hz.
  split; [| split; [reflexivity | lia]].
  pose proof (queries_prologue instance_id [] s0) as Hq0.
  cbn [app] in Hq0.
  unfold queries in *. rewrite count_run_app, Hq0.
  rewrite (count_run_repeat_same _ polls k Hc).
  change (count_run (describe_state_argv instance_id) []) with 0. lia.
Qed.

(** C2, as the code has it.  Let the first power-state query report a state
    that leads to the wait phase, and let each of the 30 attempts of the
    wait phase report a state other than [running].  Then
    [start_instance_if_needed] exits with status 1 after exactly 30
    power-state queries in the wait phase, 31 with the initial one; the last
    thing it does is log its time-out message, which is not the message of
    the reachability phase, with which [wait_for_ssm] ends when it times
    out. *)
Theorem ensure_running_times_out w instance_id tr s0 :
  state_seen w instance_id (queries instance_id tr) = Some s0 ->
  enters_wait w instance_id tr s0 ->
  (forall j, 1 <= j <= 30 ->
     exists s, state_seen w instance_id (queries instance_id tr + j) = Some s
               /\ s <> lit "running") ->
  (exists polls,
     EnsureRunning w instance_id tr
     = (SysExit 1, tr ++ wait_prologue instance_id s0 ++ polls)
     /\ commands polls = repeat (describe_state_argv instance_id) 30
     /\ queries instance_id (wait_prologue instance_id s0 ++ polls) = 31
     /\ last polls (Sleep 0) = Stderr (error_line power_timeout_message))
  /\ power_timeout_message <> ssm_timeout_message
  /\ (forall tr',
        (forall j, j < 30 ->
           online_seen w instance_id (checks instance_id tr' + j)
           = Some false) ->
        exists new,
          EnsureManagementReachable w instance_id tr' = (SysExit 1, tr' ++ new)
          /\ last new (Sleep 0) = Stderr (error_line ssm_timeout_message)).
Proof.
  intros Hs Hw Hnever.
  split; [| split].
  - pose proof (queries_prologue instance_id tr s0) as Hq.
    destruct (wait_phase_timeout w instance_id
                (tr ++ wait_prologue instance_id s0))
      as (polls & Hrun & Hc & _ & _ & Hl).
    { intros j Hj. rewrite Hq.
      replace (S (queries instance_id tr) + j)
        with (queries instance_id tr + S j) by lia.
      apply Hnever. lia. }
    exists polls.
    rewrite (ensure_running_to_wait w instance_id tr s0 Hs Hw).
    unfold call. rewrite Hrun, <- app_assoc.
    split; [reflexivity |]. split; [exact Hc |]. split; [| exact Hl].
    pose proof (queries_prologue instance_id [] s0) as Hq0.
    cbn [app] in Hq0.
    unfold queries in *. rewrite count_run_app, Hq0.
    rewrite (count_run_repeat_same _ polls 30 Hc).
    reflexivity.
  - intros E. vm_compute in E. discriminate E.
  - intros tr' Hoff.
    destruct (wait_for_ssm_timeout w instance_id tr' Hoff)
      as (new & Hrun & _ & _ & _ & Hl).
    exists new. split; assumption.
Qed.

(** C7.  [wait_for_ssm] checks the reachability flag up to 30 times.  When
    the flag is first true at attempt [k], [1 <= k <= 30], it returns
    normally after exactly [k] checks and [k - 1] sleeps of 10 seconds.  When
    the flag is false at all 30 attempts, it exits with status 1 after
    exactly 30 checks, having slept 10 seconds after each, and its last act
    is to log its time-out message. *)
Theorem wait_for_ssm_poll_contract w instance_id tr :
  (forall k,
     1 <= k <= 30 ->
     (forall j, j < k - 1 ->
        online_seen w instance_id (checks instance_id tr + j) = Some false) ->
     online_seen w instance_id (checks instance_id tr + (k - 1)) = Some true ->
     exists new,
       EnsureManagementReachable w instance_id tr = (Normal tt, tr ++ new)
       /\ commands new = repeat (describe_ping_argv instance_id) k
       /\ checks instance_id new = k
       /\ count_sleep new = k - 1
       /\ slept new = (10 * Z.of_nat (k - 1))%Z)
  /\ ((forall j, j < 30 ->
         online_seen w instance_id (checks instance_id tr + j) = Some false) ->
      exists new,
        EnsureManagementReachable w instance_id tr = (SysExit 1, tr ++ new)
        /\ commands new = repeat (describe_ping_argv instance_id) 30
        /\ checks instance_id new = 30
        /\ count_sleep new = 30
        /\ slept new = 300%Z
        /\ last new (Sleep 0) = Stderr (error_line ssm_timeout_message)).
Proof.
  split.
  - intros k Hk Hbefore Hat.
    destruct (wait_for_ssm_found w instance_id tr k Hk Hbefore Hat)
      as (new & Hrun & Hc & Hn & Hz).
    exists new. repeat split; try assumption.
    exact (count_run_repeat_same _ new k Hc).
  - intros Hoff.
    destruct (wait_for_ssm_timeout w instance_id tr Hoff)
      as (new & Hrun & Hc & Hn & Hz & Hl).
    exists new. repeat split; try assumption.
    exact (count_run_repeat_same _ new 30 Hc).
Qed.

(** C3.  Run as a script, the module body of connet-efs.py stops at its
    line 13: [utils] binds no [log_blue] (the functions it defines are
    [log], [log_info], [log_warn] and [log_error]), so the import raises
    [ImportError] before [main] is called; nothing is run, printed or slept,
    in any world and with any command line. *)
Theorem connect_script_import_fails w tr :
  script w tr = (Raised (ImportError "log_blue" "utils"), tr)
  /\ Import_.getattr (Utils.attributes w) "log_blue" = None
  /\ Utils.functions w
     = ["log"; "log_info"; "log_warn"; "log_error"]%string.
Proof. repeat split; reflexivity. Qed.

(** *** Concrete runs *)

Local Open Scope string_scope.
Local Open Scope list_scope.

(** An instance that is running already. *)
Lemma ensure_running_when_running_witness :
  state_seen (world_of ["running"] "running" []) i_0abc 0
  = Some (lit "running")
  /\ EnsureRunning (world_of ["running"] "running" []) i_0abc []
     = (Normal tt,
        [ Run (describe_state_argv i_0abc);
          Stderr (info_line (lit "Current EC2 instance state: running"));
          Stderr (info_line (lit "Instance is already running")) ]).
Proof.
  assert (H : state_seen (world_of ["running"] "running" []) i_0abc
                (queries i_0abc [])
              = Some (lit "running")) by (vm_compute; reflexivity).
  split; [exact H |].
  exact (proj1 (ensure_running_when_running _ i_0abc [] H)).
Defined.

(** An instance reported as [terminated]. *)
Lemma ensure_running_unexpected_state_witness :
  ~ In (lit "terminated") known_states
  /\ EnsureRunning (world_of ["terminated"] "terminated" []) i_0abc []
     = (SysExit 1,
        [ Run (describe_state_argv i_0abc);
          Stderr (info_line (lit "Current EC2 instance state: terminated"));
          Stderr (error_line
                    (lit "Instance is in unexpected state: terminated")) ]).
Proof.
  assert (H : state_seen (world_of ["terminated"] "terminated" []) i_0abc
                (queries i_0abc [])
              = Some (lit "terminated")) by (vm_compute; reflexivity).
  assert (Hout : ~ In (lit "terminated") known_states).
  { simpl. intros [E | [E | [E | [E | []]]]]; discriminate E. }
  split; [exact Hout |].
  exact (proj1 (ensure_running_unexpected_state _ i_0abc [] _ H Hout)).
Defined.

(** A stopped instance whose start command is refused. *)
Lemma ensure_running_start_command_fails_witness :
  EnsureRunning (world_start_refused []) i_0abc []
  = (SysExit 1,
     [ Run (describe_state_argv i_0abc);
       Stderr (info_line (lit "Current EC2 instance state: stopped"));
       Stderr (info_line (lit "Starting EC2 instance: i-0abc"));
       Run (start_instances_argv i_0abc);
       Stderr (error_line
                 (lit "Failed to start instance: Command returned non-zero exit status 255.")) ]).
Proof.
  assert (H : state_seen (world_start_refused []) i_0abc (queries i_0abc [])
              = Some (lit "stopped")) by (vm_compute; reflexivity).
  assert (Hgo : subprocess (world_start_refused [])
                  (start_instances_argv i_0abc) (starts i_0abc [])
                = NonZeroExit
                    (lit "Command returned non-zero exit status 255.") [])
    by (vm_compute; reflexivity).
  exact (proj1 (ensure_running_start_command_fails _ i_0abc [] _ _ H Hgo)).
Defined.

(** A stopped instance that is started and seen running at the third
    attempt of the wait phase: one start command, four power-state queries,
    two sleeps. *)
Lemma ensure_running_stopped_starts_once_witness :
  exists o rest n,
    EnsureRunning (world_of ["stopped"; "pending"; "pending"; "running"]
                     "running" []) i_0abc []
    = (o, [ Run (describe_state_argv i_0abc);
            Stderr (info_line (lit "Current EC2 instance state: stopped"));
            Stderr (info_line (lit "Starting EC2 instance: i-0abc"));
            Run (start_instances_argv i_0abc) ] ++ rest)
    /\ commands rest = repeat (describe_state_argv i_0abc) n
    /\ n <= 30.
Proof.
  assert (H : state_seen
                (world_of ["stopped"; "pending"; "pending"; "running"]
                   "running" []) i_0abc (queries i_0abc [])
              = Some (lit "stopped")) by (vm_compute; reflexivity).
  destruct (ensure_running_stopped_starts_once _ i_0abc [] H)
    as (o & rest & n & Hrun & Hc & Hn & _).
  exists o, rest, n. split; [exact Hrun |]. split; [exact Hc | exact Hn].
Defined.

Lemma ensure_running_succeeds_at_attempt_witness :
  exists polls,
    EnsureRunning (world_of ["stopped"; "pending"; "pending"; "running"]
                     "running" []) i_0abc []
    = (Normal tt, wait_prologue i_0abc (lit "stopped") ++ polls)
    /\ commands polls = repeat (describe_state_argv i_0abc) 3
    /\ queries i_0abc (wait_prologue i_0abc (lit "stopped") ++ polls) = 3 + 1
    /\ count_sleep (wait_prologue i_0abc (lit "stopped") ++ polls) = 3 - 1.
Proof.
  set (w := world_of ["stopped"; "pending"; "pending"; "running"]
              "running" []).
  assert (Hs : state_seen w i_0abc (queries i_0abc []) = Some (lit "stopped"))
    by (vm_compute; reflexivity).
  assert (Hw : enters_wait w i_0abc [] (lit "stopped")).
  { right. right. split; [reflexivity |]. exists []. vm_compute; reflexivity. }
  assert (Hk : 1 <= 3 <= 30) by lia.
  assert (Hb : forall j, 1 <= j < 3 ->
                 exists s,
                   state_seen w i_0abc (queries i_0abc [] + j) = Some s
                   /\ s <> lit "running").
  { intros j Hj. exists (lit "pending").
    assert (E : j = 1 \/ j = 2) by lia.
    destruct E as [-> | ->]; (split; [vm_compute; reflexivity | discriminate]). }
  assert (Ha : state_seen w i_0abc (queries i_0abc [] + 3)
               = Some (lit "running")) by (vm_compute; reflexivity).
  destruct (ensure_running_succeeds_at_attempt w i_0abc [] _ 3 Hs Hw Hk Hb Ha)
    as (polls & Hrun & Hc & Hq & Hn & _).
  exists polls. split; [exact Hrun |].
  split; [exact Hc |]. split; [exact Hq | exact Hn].
Defined.

(** An instance that stays [pending]. *)
Lemma ensure_running_times_out_witness :
  exists polls,
    EnsureRunning (world_of [] "pending" []) i_0abc []
    = (SysExit 1, wait_prologue i_0abc (lit "pending") ++ polls)
    /\ commands polls = repeat (describe_state_argv i_0abc) 30
    /\ queries i_0abc (wait_prologue i_0abc (lit "pending") ++ polls) = 31
    /\ last polls (Sleep 0) = Stderr (error_line power_timeout_message).
Proof.
  assert (Hs : state_seen (world_of [] "pending" []) i_0abc
                 (queries i_0abc [])
               = Some (lit "pending")) by (vm_compute; reflexivity).
  assert (Hw : enters_wait (world_of [] "pending" []) i_0abc []
                 (lit "pending")) by (left; reflexivity).
  assert (Hn : forall j, 1 <= j <= 30 ->
                 exists s,
                   state_seen (world_of [] "pending" []) i_0abc
                     (queries i_0abc [] + j) = Some s
                   /\ s <> lit "running").
  { intros j Hj. exists (lit "pending").
    split; [| discriminate].
    unfold state_seen, world_of, answer. cbn [subprocess].
    assert (E : nth (queries i_0abc [] + j) [] "pending" = "pending")
      by (destruct (queries i_0abc [] + j); reflexivity).
    rewrite E. vm_compute; reflexivity. }
  destruct (ensure_running_times_out _ i_0abc [] _ Hs Hw Hn)
    as ((polls & Hrun & Hc & Hq & Hl) & _).
  exists polls. split; [exact Hrun |].
  split; [exact Hc |]. split; [exact Hq | exact Hl].
Defined.

(** An instance that is [stopping] and seen running at the second
    attempt. *)
Lemma ensure_running_transitional_no_start_witness :
  exists o polls n,
    EnsureRunning (world_of ["stopping"; "stopped"; "running"] "running" [])
      i_0abc []
    = (o, [ Run (describe_state_argv i_0abc);
            Stderr (info_line (lit "Current EC2 instance state: stopping"));
            Stderr (info_line
                      (lit "Instance is in transitional state: stopping"));
            Stderr (info_line (lit "Waiting for instance to start...")) ]
          ++ polls)
    /\ commands polls = repeat (describe_state_argv i_0abc) n
    /\ 1 <= n <= 30.
Proof.
  assert (H : state_seen
                (world_of ["stopping"; "stopped"; "running"] "running" [])
                i_0abc (queries i_0abc [])
              = Some (lit "stopping")) by (vm_compute; reflexivity).
  destruct (ensure_running_transitional_no_start _ i_0abc [] _ H
              (or_intror eq_refl))
    as (o & polls & n & Hrun & Hc & Hn & _).
  exists o, polls, n. split; [exact Hrun |]. split; [exact Hc | exact Hn].
Defined.

(** Reachability seen at the second check; and never. *)
Lemma wait_for_ssm_poll_contract_witness :
  (exists new,
     EnsureManagementReachable (world_of [] "running" ["Offline"; "Online"])
       i_0abc []
     = (Normal tt, new)
     /\ checks i_0abc new = 2
     /\ count_sleep new = 1
     /\ slept new = 10%Z)
  /\ (exists new,
        EnsureManagementReachable (world_of [] "running" []) i_0abc []
        = (SysExit 1, new)
        /\ checks i_0abc new = 30
        /\ last new (Sleep 0) = Stderr (error_line ssm_timeout_message)).
Proof.
  split.
  - destruct (proj1 (wait_for_ssm_poll_contract
                       (world_of [] "running" ["Offline"; "Online"])
                       i_0abc []) 2)
      as (new & Hrun & _ & Hc & Hn & Hz).
    + lia.
    + intros j Hj. assert (E : j = 0) by lia. rewrite E.
      vm_compute; reflexivity.
    + vm_compute; reflexivity.
    + exists new. split; [exact Hrun |].
      split; [exact Hc |]. split; [exact Hn | exact Hz].
  - destruct (proj2 (wait_for_ssm_poll_contract
                       (world_of [] "running" []) i_0abc []))
      as (new & Hrun & _ & Hc & _ & _ & Hl).
    + intros j Hj.
      unfold online_seen, world_of, answer. cbn [subprocess].
      assert (E : nth (checks i_0abc [] + j) [] "Offline" = "Offline")
        by (destruct (checks i_0abc [] + j); reflexivity).
      rewrite E. vm_compute; reflexivity.
    + exists new. split; [exact Hrun |]. split; [exact Hc | exact Hl].
Defined.

(** *** Where the counts of the specification miss the initial query *)

(** An instance first seen [pending] and seen [running] at the first attempt
    of the wait phase ([k = 1]): the function has run two power-state
    queries when it returns, not one.  So the reading of C1 in which [k]
    counts all the queries of the call does not hold. *)
Lemma ensure_running_queries_not_k :
  ~ (forall w instance_id tr s0 k,
       state_seen w instance_id (queries instance_id tr) = Some s0 ->
       enters_wait w instance_id tr s0 ->
       1 <= k <= 30 ->
       (forall j, 1 <= j < k ->
          exists s,
            state_seen w instance_id (queries instance_id tr + j) = Some s
            /\ s <> lit "running") ->
       state_seen w instance_id (queries instance_id tr + k)
       = Some (lit "running") ->
       exists new,
         EnsureRunning w instance_id tr = (Normal tt, tr ++ new)
         /\ queries instance_id new = k
         /\ count_sleep new = k - 1).
Proof.
  intros claim.
  destruct (claim (world_of ["pending"; "running"] "running" []) i_0abc []
              (lit "pending") 1)
    as (new & Hrun & Hq & _).
  - vm_compute; reflexivity.
  - left. reflexivity.
  - lia.
  - intros j Hj. lia.
  - vm_compute; reflexivity.
  - cbn [app] in Hrun.
    assert (E : snd (EnsureRunning
                       (world_of ["pending"; "running"] "running" [])
                       i_0abc []) = new) by (rewrite Hrun; reflexivity).
    rewrite <- E in Hq. vm_compute in Hq. discriminate Hq.
Qed.

(** An instance that stays [pending]: the function has run 31 power-state
    queries when it exits, not 30.  So the reading of C2 in which 30 counts
    all the queries of the call does not hold. *)
Lemma ensure_running_timeout_queries_not_30 :
  ~ (forall w instance_id tr s0,
       state_seen w instance_id (queries instance_id tr) = Some s0 ->
       enters_wait w instance_id tr s0 ->
       (forall j, 1 <= j <= 30 ->
          exists s,
            state_seen w instance_id (queries instance_id tr + j) = Some s
            /\ s <> lit "running") ->
       exists new,
         EnsureRunning w instance_id tr = (SysExit 1, tr ++ new)
         /\ queries instance_id new = 30).
Proof.
  intros claim.
  destruct (claim (world_of [] "pending" []) i_0abc [] (lit "pending"))
    as (new & Hrun & Hq).
  - vm_compute; reflexivity.
  - left. reflexivity.
  - intros j Hj. exists (lit "pending").
    split; [| discriminate].
    unfold state_seen, world_of, answer. cbn [subprocess].
    assert (E : nth (queries i_0abc [] + j) [] "pending" = "pending")
      by (destruct (queries i_0abc [] + j); reflexivity).
    rewrite E. vm_compute; reflexivity.
  - cbn [app] in Hrun.
    assert (E : snd (EnsureRunning (world_of [] "pending" []) i_0abc [])
                = new) by (rewrite Hrun; reflexivity).
    rewrite <- E in Hq. vm_compute in Hq. discriminate Hq.
Qed.

End Readiness.

(** * Further properties *)

(** ** Python's string methods *)

Module PyStrMoreFacts.
Import PyStr PyStrFacts PyStrMore.

Lemma lstrip_chars_snoc chars l c :
  lstrip_chars chars (l ++ [c])
  = if truthy (lstrip_chars chars l) then lstrip_chars chars l ++ [c]
    else if is_in chars c then [] else [c].
Proof.
  induction l as [| a l IH]; cbn [app lstrip_chars].
  - destruct (is_in chars c); reflexivity.
  - destruct (is_in chars a); [exact IH | reflexivity].
Qed.

(** [rstrip], read from the front of the string. *)
Lemma rstrip_cons c s chars :
  rstrip (c :: s) chars
  = if truthy (rstrip s chars) || negb (is_in chars c)
    then c :: rstrip s chars else [].
Proof.
  unfold rstrip. cbn [rev]. rewrite lstrip_chars_snoc.
  destruct (lstrip_chars chars (rev s)) as [| x l] eqn:E.
  - cbn [truthy rev orb]. destruct (is_in chars c); reflexivity.
  - assert (Hne : truthy (rev (x :: l)) = true).
    { destruct (rev (x :: l)) eqn:E'; [| reflexivity].
      apply (f_equal (@rev N)) in E'. rewrite rev_involutive in E'.
      discriminate E'. }
    rewrite Hne. cbn [truthy orb]. now rewrite rev_app_distr.
Qed.

Lemma rstrip_nil chars : rstrip [] chars = [].
Proof. reflexivity. Qed.

(** A character outside the set shields what is before it. *)
Lemma rstrip_keeps x c y chars :
  is_in chars c = false ->
  rstrip (x ++ c :: y) chars = x ++ c :: rstrip y chars.
Proof.
  intros Hc. induction x as [| a x IH]; cbn [app].
  - rewrite rstrip_cons, Hc, orb_true_r. reflexivity.
  - rewrite rstrip_cons, IH.
    assert (Ht : truthy (x ++ c :: rstrip y chars) = true)
      by (destruct x; reflexivity).
    now rewrite Ht.
Qed.

Lemma rstrip_repeat c n chars :
  is_in chars c = true -> rstrip (repeat c n) chars = [].
Proof.
  intros Hc. induction n as [| n IH]; cbn [repeat]; [reflexivity |].
  now rewrite rstrip_cons, IH, Hc.
Qed.

Lemma rstrip_app_repeat x c n chars :
  is_in chars c = true ->
  rstrip (x ++ repeat c n) chars = rstrip x chars.
Proof.
  intros Hc. induction x as [| a x IH]; cbn [app].
  - now rewrite rstrip_repeat.
  - now rewrite !rstrip_cons, IH.
Qed.

(** What [rstrip] removes is a run of characters of the set; with a
    one-character set, a run of that character. *)
Lemma rstrip_removes_run s c :
  exists n, s = rstrip s [c; c] ++ repeat c n.
Proof.
  induction s as [| a s (n & IH)].
  - exists 0. reflexivity.
  - rewrite rstrip_cons.
    destruct (truthy (rstrip s [c; c])) eqn:Ht; cbn [orb].
    + exists n. cbn [app]. now rewrite <- IH.
    + destruct (rstrip s [c; c]) as [| ? ?]; [| discriminate Ht].
      cbn [app] in IH.
      destruct (is_in [c; c] a) eqn:Ha; cbn [negb].
      * exists (S n). cbn [app repeat]. rewrite <- IH. f_equal.
        unfold is_in in Ha. cbn [existsb] in Ha.
        rewrite orb_false_r, orb_diag in Ha. now apply N.eqb_eq in Ha.
      * exists n. cbn [app]. now rewrite <- IH.
Qed.

(** What [rstrip] returns does not end with a character of the set. *)
Lemma rstrip_end s chars x c :
  rstrip s chars = x ++ [c] -> is_in chars c = false.
Proof.
  revert x. induction s as [| a s IH]; intros x E.
  - destruct x; discriminate E.
  - rewrite rstrip_cons in E.
    destruct (rstrip s chars) as [| r rs] eqn:Er; cbn [truthy orb] in E.
    + destruct (is_in chars a) eqn:Ha; cbn [negb] in E.
      * destruct x; discriminate E.
      * destruct x as [| ? [| ? ?]]; try discriminate E.
        injection E as ->. exact Ha.
    + destruct x as [| x0 x]; [discriminate E |].
      injection E as _ E. exact (IH x E).
Qed.

Lemma cut_snoc sep l c :
  cut sep (l ++ [c])
  = match cut sep l with
    | Some (before, after) => Some (before, after ++ [c])
    | None => if (c =? sep)%N then Some (l, []) else None
    end.
Proof.
  induction l as [| a l IH]; cbn [app cut].
  - destruct (c =? sep)%N; reflexivity.
  - destruct (a =? sep)%N; [reflexivity |].
    rewrite IH. destruct (cut sep l) as [[b af] |]; [reflexivity |].
    destruct (c =? sep)%N; reflexivity.
Qed.

(** [rsplit1], read from the front of the string. *)
Lemma rsplit1_cons c s sep :
  rsplit1 (c :: s) sep
  = match cut sep (rev s) with
    | Some _ =>
        match rsplit1 s sep with
        | [before; after] => [c :: before; after]
        | other => other
        end
    | None => if (c =? sep)%N then [[]; s] else [c :: s]
    end.
Proof.
  unfold rsplit1. cbn [rev]. rewrite cut_snoc.
  destruct (cut sep (rev s)) as [[b af] |].
  - now rewrite rev_app_distr.
  - destruct (c =? sep)%N; [| reflexivity].
    cbn [rev]. now rewrite rev_involutive.
Qed.

Lemma cut_none sep s : ~ In sep s -> cut sep s = None.
Proof.
  induction s as [| a s IH]; intros H; [reflexivity |].
  cbn [cut]. destruct (N.eqb_spec a sep) as [-> | Hne].
  - elim H. now left.
  - rewrite IH; [reflexivity |]. intros Hin. apply H. now right.
Qed.

Lemma cut_some sep s : In sep s -> exists b a, cut sep s = Some (b, a).
Proof.
  induction s as [| c s IH]; intros H; [destruct H |].
  cbn [cut]. destruct (N.eqb_spec c sep) as [-> | Hne].
  - now exists [], s.
  - destruct H as [-> | H]; [congruence |].
    destruct (IH H) as (b & a & E). rewrite E. now exists (c :: b), a.
Qed.

(** Cutting at the last separator: nothing after it is a separator, and
    the two parts with the separator between them are the string. *)
Lemma rsplit1_at_last a f sep :
  ~ In sep f -> rsplit1 (a ++ sep :: f) sep = [a; f].
Proof.
  intros Hf. induction a as [| c a IH]; cbn [app].
  - rewrite rsplit1_cons, cut_none, N.eqb_refl; [reflexivity |].
    intros Hin. apply Hf. now apply in_rev.
  - rewrite rsplit1_cons, IH.
    destruct (cut_some sep (rev (a ++ sep :: f))) as (x & y & E).
    { apply -> in_rev. apply in_or_app. right. now left. }
    now rewrite E.
Qed.

Lemma rsplit1_found s sep :
  In sep s ->
  exists a f, rsplit1 s sep = [a; f] /\ s = a ++ sep :: f /\ ~ In sep f.
Proof.
  induction s as [| c s IH]; intros H; [destruct H |].
  destruct (in_dec N.eq_dec sep s) as [Hin | Hout].
  - destruct (IH Hin) as (a & f & E & -> & Hf).
    exists (c :: a), f. split; [| split; [reflexivity | exact Hf]].
    exact (rsplit1_at_last (c :: a) f sep Hf).
  - destruct H as [-> | H]; [| contradiction].
    exists [], s. split; [| split; [reflexivity | exact Hout]].
    exact (rsplit1_at_last [] s sep Hout).
Qed.

Lemma startswith_app s prefix rest :
  startswith s prefix = true -> startswith (s ++ rest) prefix = true.
Proof.
  revert s. induction prefix as [| p prefix IH]; intros s H; [reflexivity |].
  destruct s as [| c s]; [discriminate H |].
  cbn [startswith app] in *. apply andb_true_iff in H. destruct H as [H1 H2].
  now rewrite H1, (IH s H2).
Qed.

Lemma startswith_split s prefix :
  startswith s prefix = true -> exists rest, s = prefix ++ rest.
Proof.
  revert s. induction prefix as [| p prefix IH]; intros s H.
  - now exists s.
  - destruct s as [| c s]; [discriminate H |].
    cbn [startswith] in H. apply andb_true_iff in H. destruct H as [H1 H2].
    apply N.eqb_eq in H1. subst c.
    destruct (IH s H2) as (rest & ->). now exists rest.
Qed.

Lemma contains_app_r x y sub :
  contains y sub = true -> contains (x ++ y) sub = true.
Proof.
  intros H. induction x as [| a x IH]; [exact H |].
  cbn [app contains]. rewrite IH. apply orb_true_r.
Qed.

Lemma contains_one s c : contains s [c] = true <-> In c s.
Proof.
  induction s as [| a s IH]; cbn [contains startswith].
  - split; [discriminate | intros []].
  - rewrite orb_true_iff, andb_true_r, IH, N.eqb_eq. cbn [In]. tauto.
Qed.

End PyStrMoreFacts.

(** ** parse_secrets_arn *)

Module SecretsArnFacts.
Import PyStr PyStrFacts PyStrMore PyStrMoreFacts SecretsArn.

Local Abbreviation arn_prefix := (lit "arn:aws:secretsmanager:").
Local Abbreviation colon := 58%N.

Lemma colon_in_set c : is_in (lit "::") c = (c =? colon)%N.
Proof.
  unfold is_in. change (lit "::") with [colon; colon]. cbn [existsb].
  now rewrite orb_false_r, orb_diag.
Qed.

Lemma contains_colon s : contains s (lit ":") = true <-> In colon s.
Proof. exact (contains_one s colon). Qed.

Lemma prefixed_not_empty v : startswith v arn_prefix = true -> truthy v = true.
Proof. destruct v; [discriminate | reflexivity]. Qed.

(** Under the prefix, what is left after the trailing colons are removed
    still has a colon. *)
Lemma prefixed_rstrip_has_colon v :
  startswith v arn_prefix = true ->
  In colon (rstrip v (lit "::")).
Proof.
  intros H. destruct (startswith_split _ _ H) as (rest & ->).
  change (arn_prefix ++ rest)
    with (lit "arn:aws:secretsmanage" ++ 114%N :: (colon :: rest)).
  rewrite rstrip_keeps by reflexivity.
  simpl. auto.
Qed.

(** The branch taken when the value has the prefix and a double colon. *)
Lemma parse_with_field v a f n :
  startswith v arn_prefix = true ->
  contains v (lit "::") = true ->
  v = a ++ colon :: f ++ repeat colon n ->
  f <> [] ->
  ~ In colon f ->
  parse_secrets_arn v = Pair (Some a) (Some f).
Proof.
  intros Hp Hc Hv Hne Hf.
  unfold parse_secrets_arn.
  rewrite (prefixed_not_empty v Hp), Hp, Hc. cbn [negb].
  assert (Hs : rstrip v (lit "::") = a ++ colon :: f).
  { rewrite Hv.
    change (a ++ colon :: f ++ repeat colon n)
      with (a ++ (colon :: f) ++ repeat colon n).
    rewrite app_assoc, rstrip_app_repeat by reflexivity.
    destruct (exists_last Hne) as (f' & c & ->).
    assert (Hc' : is_in (lit "::") c = false).
    { rewrite colon_in_set. apply N.eqb_neq. intros ->.
      apply Hf. apply in_or_app. right. now left. }
    change (a ++ colon :: f' ++ [c]) with (a ++ (colon :: f') ++ c :: []).
    rewrite app_assoc, (rstrip_keeps _ c [] _ Hc'). reflexivity. }
  rewrite Hs.
  assert (Hin : contains (a ++ colon :: f) (lit ":") = true).
  { apply contains_colon. apply in_or_app. right. now left. }
  rewrite Hin, (rsplit1_at_last a f colon Hf).
  destruct f; [contradiction | reflexivity].
Qed.

(** X3: parse_secrets_arn never fails to unpack, and it rejects a value,
    returning the pair [(None, None)], exactly when the value does not start
    with [arn:aws:secretsmanager:] (the empty string included); every other
    value gets a secret ARN. *)
Theorem parse_secrets_arn_rejects_iff v :
  parse_secrets_arn v <> ValueError
  /\ (parse_secrets_arn v = Pair None None
      <-> startswith v arn_prefix = false)
  /\ (startswith v arn_prefix = true ->
      exists a f, parse_secrets_arn v = Pair (Some a) f).
Proof.
  unfold parse_secrets_arn.
  destruct (startswith v arn_prefix) eqn:Hp.
  - rewrite (prefixed_not_empty v Hp). cbn [negb].
    destruct (contains v (lit "::")) eqn:Hc.
    + pose proof (prefixed_rstrip_has_colon v Hp) as Hin.
      rewrite (proj2 (contains_colon _) Hin).
      destruct (rsplit1_found _ _ Hin) as (a & f & E & _ & _).
      rewrite E.
      split; [discriminate |]. split.
      * split; discriminate.
      * intros _. eauto.
    + split; [discriminate |]. split.
      * split; discriminate.
      * intros _. eauto.
  - destruct (truthy v); cbn [negb];
      (split; [discriminate |]; split; [tauto | discriminate]).
Qed.

(** X4: when parse_secrets_arn reports a field, the value contains a double
    colon, the field is not empty and has no colon, and the value is the
    secret ARN, a colon, the field, and then nothing but colons.  And under
    the prefix a field is reported exactly when the value contains a double
    colon, wherever it stands. *)
Theorem parse_secrets_arn_field_sound v :
  (forall a f,
     parse_secrets_arn v = Pair (Some a) (Some f) ->
     contains v (lit "::") = true
     /\ f <> []
     /\ ~ In colon f
     /\ exists n, v = a ++ colon :: f ++ repeat colon n)
  /\ (startswith v arn_prefix = true ->
      (contains v (lit "::") = true
       <-> exists a f, parse_secrets_arn v = Pair (Some a) (Some f))).
Proof.
  assert (Hsound : forall a f,
             parse_secrets_arn v = Pair (Some a) (Some f) ->
             contains v (lit "::") = true
             /\ f <> []
             /\ ~ In colon f
             /\ exists n, v = a ++ colon :: f ++ repeat colon n).
  { intros a f. unfold parse_secrets_arn.
    destruct (truthy v); cbn [negb]; [| discriminate].
    destruct (startswith v arn_prefix); cbn [negb]; [| discriminate].
    destruct (contains v (lit "::")); [| discriminate].
    destruct (contains (rstrip v (lit "::")) (lit ":")) eqn:Hin;
      [| discriminate].
    apply contains_colon in Hin.
    destruct (rsplit1_found _ _ Hin) as (a' & f' & E & Hs & Hf).
    rewrite E. intros H.
    destruct f' as [| c f']; [discriminate H |].
    cbn [truthy] in H. injection H as <- <-.
    split; [reflexivity |]. split; [discriminate |]. split; [exact Hf |].
    destruct (rstrip_removes_run v colon) as (n & Hn).
    change [colon; colon] with (lit "::") in Hn.
    exists n. rewrite Hn at 1. rewrite Hs, <- app_assoc. reflexivity. }
  split; [exact Hsound |].
  intros Hp. split.
  - intros Hc.
    pose proof (prefixed_rstrip_has_colon v Hp) as Hin.
    destruct (rsplit1_found _ _ Hin) as (a & f & E & Hs & Hf).
    destruct (rstrip_removes_run v colon) as (n & Hn).
    change [colon; colon] with (lit "::") in Hn.
    exists a, f. apply (parse_with_field v a f n Hp Hc).
    + rewrite Hn at 1. rewrite Hs, <- app_assoc. reflexivity.
    + intros ->.
      pose proof (rstrip_end v (lit "::") a colon Hs) as Hend.
      rewrite colon_in_set in Hend. discriminate Hend.
    + exact Hf.
  - intros (a & f & E). exact (proj1 (Hsound a f E)).
Qed.

(** X5: round trip.  A secret ARN with the prefix, a colon, a non-empty field
    without a colon, and two or more colons after it, is parsed back into
    that ARN and that field. *)
Theorem parse_secrets_arn_round_trip arn field n :
  startswith arn arn_prefix = true ->
  field <> [] ->
  ~ In colon field ->
  2 <= n ->
  parse_secrets_arn (arn ++ colon :: field ++ repeat colon n)
  = Pair (Some arn) (Some field).
Proof.
  intros Hp Hne Hf Hn.
  apply (parse_with_field _ arn field n); try assumption; try reflexivity.
  - now apply startswith_app.
  - apply contains_app_r.
    change (colon :: field ++ repeat colon n)
      with ((colon :: field) ++ repeat colon n).
    apply contains_app_r.
    destruct n as [| [| n]]; [lia | lia | reflexivity].
Qed.

(** X6: a double colon inside the value is enough.  A value with the prefix
    that contains a double colon anywhere and does not end with a colon
    (an ARN with an empty region or account, say, and no [::] at its end)
    loses its last colon-separated segment, which is reported as the
    field. *)
Theorem parse_secrets_arn_inner_double_colon a f :
  startswith (a ++ colon :: f) arn_prefix = true ->
  contains (a ++ colon :: f) (lit "::") = true ->
  f <> [] ->
  ~ In colon f ->
  parse_secrets_arn (a ++ colon :: f) = Pair (Some a) (Some f).
Proof.
  intros Hp Hc Hne Hf.
  apply (parse_with_field _ a f 0); try assumption.
  cbn [repeat]. now rewrite app_nil_r.
Qed.

Local Open Scope string_scope.
Local Open Scope list_scope.

Lemma parse_secrets_arn_field_sound_witness :
  contains (lit "arn:aws:secretsmanager:us-east-1:1:secret:db-AbC:password::")
    (lit "::") = true
  /\ lit "password" <> []
  /\ ~ In colon (lit "password")
  /\ exists n,
       lit "arn:aws:secretsmanager:us-east-1:1:secret:db-AbC:password::"
       = lit "arn:aws:secretsmanager:us-east-1:1:secret:db-AbC"
         ++ colon :: lit "password" ++ repeat colon n.
Proof.
  apply (proj1 (parse_secrets_arn_field_sound
                  (lit "arn:aws:secretsmanager:us-east-1:1:secret:db-AbC:password::"))).
  vm_compute. reflexivity.
Defined.

Lemma parse_secrets_arn_round_trip_witness :
  parse_secrets_arn
    (lit "arn:aws:secretsmanager:us-east-1:1:secret:db-AbC"
     ++ colon :: lit "password" ++ repeat colon 2)
  = Pair (Some (lit "arn:aws:secretsmanager:us-east-1:1:secret:db-AbC"))
         (Some (lit "password")).
Proof.
  apply parse_secrets_arn_round_trip.
  - vm_compute. reflexivity.
  - discriminate.
  - vm_compute. intuition discriminate.
  - lia.
Defined.

Lemma parse_secrets_arn_inner_double_colon_witness :
  parse_secrets_arn
    (lit "arn:aws:secretsmanager::1:secret" ++ colon :: lit "db-AbC")
  = Pair (Some (lit "arn:aws:secretsmanager::1:secret"))
         (Some (lit "db-AbC")).
Proof.
  apply parse_secrets_arn_inner_double_colon.
  - vm_compute. reflexivity.
  - vm_compute. reflexivity.
  - discriminate.
  - vm_compute. intuition discriminate.
Defined.

End SecretsArnFacts.

(** ** More on slugify_stack_name *)

Module SlugMoreFacts.
Import PyStr Slug SlugFacts SlugMore.

Section Unicode.
Variable unicode_lower : N -> list N.
Variable unicode_isdigit : N -> bool.

Lemma lower_app a b :
  lower unicode_lower (a ++ b)
  = lower unicode_lower a ++ lower unicode_lower b.
Proof. unfold lower. apply flat_map_app. Qed.

Lemma lower_ascii_lowercase text :
  lower unicode_lower (ascii_lowercase text) = lower unicode_lower text.
Proof.
  unfold lower, ascii_lowercase.
  induction text as [| c text IH]; [reflexivity |].
  cbn [map flat_map]. rewrite IH. f_equal.
  unfold lower_char.
  destruct (is_ascii_upper c) eqn:Hu; [| now rewrite Hu].
  unfold is_ascii_upper in *.
  apply andb_true_iff in Hu. destruct Hu as [H1 H2].
  apply N.leb_le in H1. apply N.leb_le in H2.
  assert (E1 : (c <? 128)%N = true) by (apply N.ltb_lt; lia).
  assert (E2 : (c + 32 <? 128)%N = true) by (apply N.ltb_lt; lia).
  assert (E3 : (c + 32 <=? 90)%N = false) by (apply N.leb_gt; lia).
  now rewrite E1, E2, E3, andb_false_r.
Qed.

Lemma slug_from_core a b :
  re_sub_non_alnum (lower unicode_lower a)
  = re_sub_non_alnum (lower unicode_lower b) ->
  GetEfsTarget.slugify_stack_name unicode_lower unicode_isdigit a
  = GetEfsTarget.slugify_stack_name unicode_lower unicode_isdigit b.
Proof.
  intros E. unfold GetEfsTarget.slugify_stack_name. now rewrite E.
Qed.

End Unicode.

(** X1: what slugify_stack_name returns, in both files and for every input,
    is not empty, is made of the characters a-z and 0-9 only, and starts
    with a letter. *)
Theorem slugify_stack_name_is_identifier
  (unicode_lower : N -> list N) (unicode_isdigit : N -> bool) (text : str) :
  let s := GetEfsTarget.slugify_stack_name unicode_lower unicode_isdigit text in
  BuildCapacityEnv.slugify_stack_name unicode_lower unicode_isdigit text = s
  /\ s <> []
  /\ forallb in_class s = true
  /\ is_ascii_lower (hd 0%N s) = true.
Proof.
  intros s.
  destruct (slugify_shape unicode_lower unicode_isdigit text)
    as (Hc & Ht & Hd).
  fold s in Hc, Ht, Hd.
  split; [reflexivity |].
  destruct s as [| c s']; [discriminate Ht |].
  split; [discriminate |]. split; [exact Hc |].
  cbn [hd forallb] in *. apply andb_true_iff in Hc. destruct Hc as [Hc _].
  unfold isdigit in Hd. rewrite (in_class_ascii c Hc) in Hd.
  unfold in_class in Hc. rewrite Hd, orb_false_r in Hc. exact Hc.
Qed.

(** X2: stack names collide.  An ASCII character that is neither a letter nor
    a digit can be dropped from a stack name, and ASCII capitals can be
    replaced by small letters, without changing the slug. *)
Theorem slugify_stack_name_ignores_separators_and_case
  (unicode_lower : N -> list N) (unicode_isdigit : N -> bool)
  (a b : str) (c : N) :
  (c <? 128)%N = true ->
  is_ascii_upper c = false ->
  in_class c = false ->
  GetEfsTarget.slugify_stack_name unicode_lower unicode_isdigit (a ++ c :: b)
  = GetEfsTarget.slugify_stack_name unicode_lower unicode_isdigit (a ++ b)
  /\ GetEfsTarget.slugify_stack_name unicode_lower unicode_isdigit
       (ascii_lowercase (a ++ c :: b))
     = GetEfsTarget.slugify_stack_name unicode_lower unicode_isdigit
         (a ++ c :: b).
Proof.
  intros H1 H2 H3. split.
  - apply slug_from_core.
    change (a ++ c :: b) with (a ++ [c] ++ b).
    rewrite !lower_app. unfold re_sub_non_alnum. rewrite !filter_app.
    do 2 f_equal.
    unfold lower at 1. cbn [flat_map]. unfold lower_char.
    rewrite H1, H2. cbn [app filter]. now rewrite H3.
  - apply slug_from_core. now rewrite lower_ascii_lowercase.
Qed.

Local Open Scope string_scope.
Local Open Scope list_scope.

Lemma slugify_stack_name_ignores_separators_and_case_witness :
  GetEfsTarget.slugify_stack_name (fun c => [c]) (fun _ => false)
    (lit "My" ++ 45%N :: lit "Stack")
  = GetEfsTarget.slugify_stack_name (fun c => [c]) (fun _ => false)
      (lit "My" ++ lit "Stack")
  /\ GetEfsTarget.slugify_stack_name (fun c => [c]) (fun _ => false)
       (ascii_lowercase (lit "My" ++ 45%N :: lit "Stack"))
     = GetEfsTarget.slugify_stack_name (fun c => [c]) (fun _ => false)
         (lit "My" ++ 45%N :: lit "Stack").
Proof.
  apply slugify_stack_name_ignores_separators_and_case;
    vm_compute; reflexivity.
Defined.

End SlugMoreFacts.

(** ** strip and split *)

Module StripFacts.
Import PyStr PyStrFacts PyStrMore ConnectEfs.

(** [s.rstrip()], the second half of [strip]. *)
Local Abbreviation rstrip_ws s := (rev (lstrip (rev s))).

Lemma strip_eq s : strip s = rstrip_ws (lstrip s).
Proof. reflexivity. Qed.

Lemma lstrip_snoc l c :
  lstrip (l ++ [c])
  = if truthy (lstrip l) then lstrip l ++ [c]
    else if isspace c then [] else [c].
Proof.
  induction l as [| a l IH]; cbn [app lstrip].
  - destruct (isspace c); reflexivity.
  - destruct (isspace a); [exact IH | reflexivity].
Qed.

Lemma rstrip_ws_cons c s :
  rstrip_ws (c :: s)
  = if truthy (rstrip_ws s) || negb (isspace c)
    then c :: rstrip_ws s else [].
Proof.
  cbn [rev]. rewrite lstrip_snoc.
  destruct (lstrip (rev s)) as [| x l] eqn:E.
  - cbn [truthy rev orb]. destruct (isspace c); reflexivity.
  - assert (Hne : truthy (rev (x :: l)) = true).
    { destruct (rev (x :: l)) eqn:E'; [| reflexivity].
      apply (f_equal (@rev N)) in E'. rewrite rev_involutive in E'.
      discriminate E'. }
    rewrite Hne. cbn [truthy orb]. now rewrite rev_app_distr.
Qed.

Lemma rstrip_ws_idempotent s : rstrip_ws (rstrip_ws s) = rstrip_ws s.
Proof.
  induction s as [| c s IH]; [reflexivity |].
  rewrite rstrip_ws_cons.
  destruct (truthy (rstrip_ws s) || negb (isspace c)) eqn:E; [| reflexivity].
  rewrite rstrip_ws_cons, IH, E. reflexivity.
Qed.

Lemma lstrip_head c s : isspace c = false -> lstrip (c :: s) = c :: s.
Proof. intros H. cbn [lstrip]. now rewrite H. Qed.

Lemma lstrip_shape s :
  lstrip s = [] \/ exists c t, lstrip s = c :: t /\ isspace c = false.
Proof.
  induction s as [| a s IH]; [now left |].
  cbn [lstrip]. destruct (isspace a) eqn:Ha; [exact IH |].
  right. now exists a, s.
Qed.

(** [strip] does nothing to what it returns. *)
Lemma strip_idempotent s : strip (strip s) = strip s.
Proof.
  rewrite !strip_eq.
  destruct (lstrip_shape s) as [E | (c & t & E & Hc)]; rewrite E.
  - reflexivity.
  - assert (E' : rstrip_ws (c :: t) = c :: rstrip_ws t)
      by (now rewrite rstrip_ws_cons, Hc, orb_true_r).
    rewrite E', (lstrip_head c _ Hc), <- E'.
    apply rstrip_ws_idempotent.
Qed.

Lemma rstrip_ws_word s : word s = true -> rstrip_ws s = s.
Proof.
  induction s as [| c s IH]; intros H; [reflexivity |].
  cbn [word forallb] in H. apply andb_true_iff in H. destruct H as [Hc Hs].
  rewrite rstrip_ws_cons, Hc, orb_true_r. now rewrite (IH Hs).
Qed.

Lemma rstrip_ws_app_word x y :
  word y = true -> y <> [] -> rstrip_ws (x ++ y) = x ++ y.
Proof.
  intros Hy Hne. induction x as [| a x IH]; cbn [app].
  - now apply rstrip_ws_word.
  - rewrite rstrip_ws_cons, IH.
    assert (Ht : truthy (x ++ y) = true)
      by (destruct x; [destruct y; [contradiction | reflexivity] | reflexivity]).
    now rewrite Ht.
Qed.

Lemma rstrip_ws_drops_space x c :
  isspace c = true -> rstrip_ws (x ++ [c]) = rstrip_ws x.
Proof.
  intros Hc. induction x as [| a x IH]; cbn [app].
  - rewrite rstrip_ws_cons, Hc. reflexivity.
  - now rewrite !rstrip_ws_cons, IH.
Qed.

Lemma split_from_word y rest cur :
  word y = true ->
  split_from (y ++ rest) cur = split_from rest (rev y ++ cur).
Proof.
  revert cur. induction y as [| c y IH]; intros cur H; [reflexivity |].
  cbn [word forallb] in H. apply andb_true_iff in H. destruct H as [Hc Hy].
  apply negb_true_iff in Hc.
  cbn [app split_from]. rewrite Hc, (IH (c :: cur) Hy).
  cbn [rev]. now rewrite <- app_assoc.
Qed.

(** Two words with one space between them: the line [get-efs-target.py]
    prints, read the way [connet-efs.py] reads it (the captured output is
    stripped, then stripped again and split). *)
Lemma two_words_read_back b i :
  word b = true -> b <> [] -> word i = true -> i <> [] ->
  split (strip (strip ((b ++ lit " " ++ i) ++ [10%N]))) = [b; i].
Proof.
  intros Hb Hbn Hi Hin.
  rewrite strip_idempotent, strip_eq.
  destruct b as [| c b]; [contradiction |].
  assert (Hc : isspace c = false).
  { cbn [word forallb] in Hb. apply andb_true_iff in Hb.
    now apply negb_true_iff. }
  cbn [app]. rewrite lstrip_head by exact Hc.
  change (c :: (b ++ lit " " ++ i) ++ [10%N])
    with (((c :: b) ++ lit " " ++ i) ++ [10%N]).
  rewrite rstrip_ws_drops_space by reflexivity.
  rewrite app_assoc, rstrip_ws_app_word by assumption.
  rewrite <- app_assoc. unfold split.
  rewrite (split_from_word (c :: b) _ [] Hb), app_nil_r.
  change (lit " " ++ i) with (32%N :: i).
  cbn [split_from]. change (isspace 32) with true. cbv iota.
  assert (Ht : truthy (rev (c :: b)) = true).
  { destruct (rev (c :: b)) eqn:E; [| reflexivity].
    apply (f_equal (@rev N)) in E. rewrite rev_involutive in E.
    discriminate E. }
  rewrite Ht, rev_involutive.
  rewrite <- (app_nil_r i) at 1.
  rewrite (split_from_word i [] [] Hi), app_nil_r.
  cbn [split_from].
  assert (Hti : truthy (rev i) = true).
  { destruct (rev i) eqn:E; [| reflexivity].
    apply (f_equal (@rev N)) in E. rewrite rev_involutive in E.
    now subst i. }
  now rewrite Hti, rev_involutive.
Qed.

End StripFacts.

(** ** get_stack_output *)

Module StackOutputFacts.
Import PyStr PyStrFacts Runtime Controller TraceFacts StripFacts StackOutput.
Import EnsureRunningFacts.

(** X7: get_stack_output is the same function in get-efs-target.py and in
    build-capacity-env.py.  It logs what it asks for, runs the
    describe-stacks command once and nothing else, and never exits: when the
    command exits with status 0 and its stripped output is neither empty nor
    [None], that stripped output is returned; in the other cases of a
    command that ran, [None] is returned; a missing [aws] program raises
    [FileNotFoundError].  A returned string is never empty, never [None],
    and has no white space at either end. *)
Theorem get_stack_output_result w stack_name output_key tr :
  let cmd := describe_stacks_argv stack_name output_key in
  let asked :=
    Stderr (info_line (lit "Getting output '" ++ output_key
                       ++ lit "' from stack: " ++ stack_name)) in
  @BuildCapacityEnv.get_stack_output w unit stack_name output_key tr
  = @GetEfsTarget.get_stack_output w unit stack_name output_key tr
  /\ exists o new,
       @GetEfsTarget.get_stack_output w unit stack_name output_key tr
       = (o, tr ++ asked :: Run cmd :: new)
       /\ commands new = []
       /\ match subprocess w cmd (count_run cmd tr) with
          | Completed out =>
              o = Normal (if negb (truthy (strip out))
                             || str_eqb (strip out) (lit "None")
                          then None else Some (strip out))
          | NonZeroExit _ _ => o = Normal None
          | NotFound => o = Raised FileNotFoundError
          end
       /\ (forall v,
             o = Normal (Some v) ->
             strip v = v /\ v <> [] /\ v <> lit "None").
Proof.
  intros cmd asked. split; [reflexivity |].
  unfold GetEfsTarget.get_stack_output.
  unfold call at 1. unfold bind at 1. rewrite log_info_run.
  fold (describe_stacks_argv stack_name output_key). fold cmd.
  unfold info_line at 1. fold (info_line (lit "Getting output '" ++ output_key
                       ++ lit "' from stack: " ++ stack_name)). fold asked.
  unfold try_except, bind at 1, subprocess_run.
  assert (Hn : count_run cmd (tr ++ [asked]) = count_run cmd tr).
  { rewrite count_run_app. unfold asked.
    rewrite count_run_cons_stderr. unfold count_run. simpl. lia. }
  rewrite Hn.
  destruct (subprocess w cmd (count_run cmd tr)) as [out | text err |].
  - cbv beta iota zeta.
    destruct (negb (truthy (strip out)) || str_eqb (strip out) (lit "None"))
      eqn:E.
    + run_py.
      eexists _, _. split; [reflexivity |].
      split; [reflexivity |]. split; [reflexivity |].
      intros v H. discriminate H.
    + run_py.
      eexists _, _. split; [reflexivity |].
      split; [reflexivity |]. split; [reflexivity |].
      intros v H. injection H as <-.
      apply orb_false_iff in E. destruct E as [E1 E2].
      apply negb_false_iff in E1.
      split; [apply strip_idempotent |]. split.
      * intros E0. rewrite E0 in E1. discriminate E1.
      * intros E0. rewrite E0 in E2. discriminate E2.
  - run_py.
    eexists _, _. split; [reflexivity |].
    split; [reflexivity |]. split; [reflexivity |].
    intros v H. discriminate H.
  - run_py.
    eexists _, _. split; [reflexivity |].
    split; [reflexivity |]. split; [reflexivity |].
    intros v H. discriminate H.
Qed.

End StackOutputFacts.

(** ** parse_connection_info *)

Module ConnectionInfoFacts.
Import PyStr PyStrFacts PyStrMore Runtime ConnectEfs Controller TraceFacts.
Import StripFacts ConnectionInfo EnsureRunningFacts.

(** Runs a body up to the next reply it waits for. *)
Ltac py_eval :=
  cbv [bind ret raise return_ sys_exit when call try_except emit print_stderr
       py_get py_truth py_str negb Utils.log_info Utils.log_error
       info_line error_line];
  rewrite <- ?app_assoc; cbn [app].

(** X8: the two scripts agree on the line between them.  When the JSON value
    is an object whose [transferBucketName] and [serviceInstanceId] are
    non-empty strings without white space, parse_connection_info returns
    the bucket, a space and the instance id, running no command and
    printing nothing on the standard output; and that line, printed with
    its newline, is read back by connet-efs.py (which strips the captured
    output, strips it again and splits it) as exactly the bucket and the
    instance id. *)
Theorem parse_connection_info_read_back w json_value tr items r b i :
  json_loads w json_value = inl (PDict items r) ->
  dict_lookup items (lit "transferBucketName") = Some (PStr b) ->
  dict_lookup items (lit "serviceInstanceId") = Some (PStr i) ->
  word b = true -> b <> [] ->
  word i = true -> i <> [] ->
  @parse_connection_info w unit json_value tr
  = (Normal (b ++ lit " " ++ i),
     tr ++ [ Stderr (info_line (lit "Parsing connection info JSON"));
             Stderr (info_line (lit "Extracted serviceInstanceId: " ++ i));
             Stderr (info_line (lit "Extracted transferBucketName: " ++ b)) ])
  /\ split (strip (strip ((b ++ lit " " ++ i) ++ [10%N]))) = [b; i].
Proof.
  intros Hj Hb Hi Hbw Hbn Hiw Hin.
  split; [| now apply two_words_read_back].
  assert (Tb : truthy b = true) by (destruct b; [contradiction | reflexivity]).
  assert (Ti : truthy i = true) by (destruct i; [contradiction | reflexivity]).
  unfold parse_connection_info. py_eval.
  rewrite Hj, Hi, Hb, Ti, Tb. rewrite <- ?app_assoc. reflexivity.
Qed.

(** X9: parse_connection_info returns normally only when the JSON value is
    an object in which both fields are present and truthy, and then with
    the two of them, the bucket first.  A JSON value that is not an object
    (a list, a string, [null]) is not reported as an error by the function:
    the [AttributeError] of [data.get] leaves it. *)
Theorem parse_connection_info_never_partial w json_value tr :
  (forall v tr',
     @parse_connection_info w unit json_value tr = (Normal v, tr') ->
     exists items r tb sid,
       json_loads w json_value = inl (PDict items r)
       /\ dict_lookup items (lit "transferBucketName") = Some tb
       /\ dict_lookup items (lit "serviceInstanceId") = Some sid
       /\ py_truth tb = true /\ py_truth sid = true
       /\ v = py_str tb ++ lit " " ++ py_str sid)
  /\ (forall data,
        json_loads w json_value = inl data ->
        (forall items r, data <> PDict items r) ->
        @parse_connection_info w unit json_value tr
        = (Raised AttributeError,
           tr ++ [Stderr (info_line (lit "Parsing connection info JSON"))])).
Proof.
  split.
  - intros v tr'. unfold parse_connection_info.
    cbv [bind ret raise return_ sys_exit when call try_except emit
         print_stderr py_get negb Utils.log_info Utils.log_error].
    destruct (json_loads w json_value) as [data | text] eqn:Hj;
      [| discriminate].
    destruct data as [| s | items r | t s]; try discriminate.
    destruct (dict_lookup items (lit "serviceInstanceId")) as [sid |] eqn:Hi;
      destruct (dict_lookup items (lit "transferBucketName"))
        as [tb |] eqn:Hb;
      cbn [py_truth];
      try destruct (py_truth sid) eqn:Ts;
      try destruct (py_truth tb) eqn:Tb;
      try discriminate.
    intros H. injection H as <- _.
    exists items, r, tb, sid. repeat split; assumption.
  - intros data Hj Hnot. unfold parse_connection_info. py_eval.
    rewrite Hj.
    destruct data as [| s | items r | t s]; try reflexivity.
    elim (Hnot items r). reflexivity.
Qed.

Local Open Scope string_scope.
Local Open Scope list_scope.

Lemma parse_connection_info_read_back_witness :
  @parse_connection_info connection_world unit (lit "doc") []
  = (Normal (lit "bucket" ++ lit " " ++ lit "i-0abc"),
     [] ++ [ Stderr (info_line (lit "Parsing connection info JSON"));
             Stderr (info_line (lit "Extracted serviceInstanceId: "
                                ++ lit "i-0abc"));
             Stderr (info_line (lit "Extracted transferBucketName: "
                                ++ lit "bucket")) ])
  /\ split (strip (strip ((lit "bucket" ++ lit " " ++ lit "i-0abc")
                          ++ [10%N])))
     = [lit "bucket"; lit "i-0abc"].
Proof.
  apply (parse_connection_info_read_back connection_world (lit "doc") []
           [ (lit "serviceInstanceId", PStr (lit "i-0abc"));
             (lit "transferBucketName", PStr (lit "bucket")) ]
           (lit "{...}")).
  - vm_compute. reflexivity.
  - vm_compute. reflexivity.
  - vm_compute. reflexivity.
  - vm_compute. reflexivity.
  - discriminate.
  - vm_compute. reflexivity.
  - discriminate.
Defined.

Lemma parse_connection_info_never_partial_witness :
  @parse_connection_info connection_world unit (lit "[]") []
  = (Raised AttributeError,
     [] ++ [Stderr (info_line (lit "Parsing connection info JSON"))]).
Proof.
  apply (proj2 (parse_connection_info_never_partial connection_world
                  (lit "[]") []) (POther false (lit "[]"))).
  - vm_compute. reflexivity.
  - intros items r. discriminate.
Defined.

End ConnectionInfoFacts.

(** ** What a piece of code keeps true of the trace *)

Module TraceInvFacts.
Import PyStr Runtime ConnectEfs TraceInv.

Section Keeps.
Variable P : event -> Prop.
Context {R : Type}.

Lemma keeps_ret {A} (a : A) : keeps P (@ret R A a).
Proof. intros tr H. exact H. Qed.

Lemma keeps_raise {A} e : keeps P (@raise R A e).
Proof. intros tr H. exact H. Qed.

Lemma keeps_return_ {A} r : keeps P (@return_ R A r).
Proof. intros tr H. exact H. Qed.

Lemma keeps_sys_exit {A} c : keeps P (@sys_exit R A c).
Proof. intros tr H. exact H. Qed.

Lemma keeps_emit e : P e -> keeps P (@emit R e).
Proof.
  intros He tr H. unfold emit. cbn [snd].
  apply Forall_app. split; [exact H | now constructor].
Qed.

Lemma keeps_bind {A B} (m : M R A) (f : A -> M R B) :
  keeps P m -> (forall a, keeps P (f a)) -> keeps P (bind m f).
Proof.
  intros Hm Hf tr H. unfold bind.
  pose proof (Hm tr H) as H1.
  destruct (m tr) as [[a | r | e | c |] tr1]; cbn [snd] in *;
    try exact H1.
  exact (Hf a tr1 H1).
Qed.

Lemma keeps_when c (m : M R unit) : keeps P m -> keeps P (when c m).
Proof. intros Hm. destruct c; [exact Hm | apply keeps_ret]. Qed.

Lemma keeps_try_except {A} (body : M R A) handler :
  keeps P body ->
  (forall e h, handler e = Some h -> keeps P h) ->
  keeps P (try_except body handler).
Proof.
  intros Hb Hh tr H. unfold try_except.
  pose proof (Hb tr H) as H1.
  destruct (body tr) as [[a | r | e | c |] tr1]; cbn [snd] in *;
    try exact H1.
  destruct (handler e) as [h |] eqn:E; [| exact H1].
  exact (Hh e h E tr1 H1).
Qed.

Lemma keeps_for_each {X} (xs : list X) (body : X -> M R unit) :
  (forall x, keeps P (body x)) -> keeps P (for_each xs body).
Proof.
  intros Hb. induction xs as [| x xs IH]; cbn [for_each].
  - apply keeps_ret.
  - apply keeps_bind; [apply Hb | intros _; exact IH].
Qed.

Lemma keeps_subprocess_run w argv :
  P (Run argv) -> keeps P (@subprocess_run w R argv).
Proof.
  intros He tr H. unfold subprocess_run.
  destruct (subprocess w argv (count_run argv tr)); cbn [snd];
    (apply Forall_app; split; [exact H | now constructor]).
Qed.

Lemma keeps_os_execvp {A} w file argv :
  P (Execvp file argv) -> keeps P (@os_execvp w R A file argv).
Proof.
  intros He tr H. unfold os_execvp.
  destruct (execvp w file argv); cbn [snd];
    (apply Forall_app; split; [exact H | now constructor]).
Qed.

End Keeps.

Lemma keeps_call (P : event -> Prop) {R R'} (body : M R R) :
  keeps P body -> keeps P (@call R R' body).
Proof.
  intros Hb tr H. unfold call. pose proof (Hb tr H) as H1.
  destruct (body tr) as [[a | r | e | c |] tr1]; exact H1.
Qed.

Lemma snd_call {R R'} (body : M R R) tr :
  snd (@call R R' body tr) = snd (body tr).
Proof. unfold call. destruct (body tr) as [[a | r | e | c |] tr1]; reflexivity. Qed.

(** When a sequence breaks [P] and its first part keeps it, the first part
    has ended normally and the rest breaks it. *)
Lemma bind_reach (P : event -> Prop) {R A B} (m : M R A) (f : A -> M R B) tr :
  keeps P m ->
  Forall P tr ->
  ~ Forall P (snd (bind m f tr)) ->
  exists a tr1,
    m tr = (Normal a, tr1) /\ Forall P tr1 /\ ~ Forall P (snd (f a tr1)).
Proof.
  intros Hm H Hbreak. unfold bind in Hbreak.
  pose proof (Hm tr H) as H1.
  destruct (m tr) as [[a | r | e | c |] tr1]; cbn [snd] in *;
    try contradiction.
  now exists a, tr1.
Qed.

End TraceInvFacts.

(** ** connet-efs.py, function by function *)

Module ScriptInv.
Import PyStr PyStrFacts Runtime ConnectEfs Controller TraceInv TraceInvFacts.
Local Open Scope py_scope.

(** Decomposes a body along its statements. *)
Ltac keeps_step :=
  match goal with
  | |- keeps _ (bind _ _) => apply keeps_bind; [| intros ?]
  | |- keeps _ (when _ _) => apply keeps_when
  | |- keeps _ (call _) => apply keeps_call
  | |- keeps _ (ret _) => apply keeps_ret
  | |- keeps _ (raise _) => apply keeps_raise
  | |- keeps _ (return_ _) => apply keeps_return_
  | |- keeps _ (sys_exit _) => apply keeps_sys_exit
  | |- keeps _ (for_each _ _) => apply keeps_for_each; intros ?
  | |- keeps _ (try_except _ _) =>
      apply keeps_try_except;
      [| let e := fresh "e" in
         let h := fresh "h" in
         let E := fresh "E" in
         intros e h E; destruct e; inversion E; subst; clear E]
  | |- keeps _ (subprocess_run _ _) => apply keeps_subprocess_run
  | |- keeps _ (time_sleep _) => apply keeps_emit
  | |- keeps _ (print_stderr _) => apply keeps_emit
  | |- keeps _ (print_stdout _) => apply keeps_emit
  | |- keeps _ (Utils.log_info _) => unfold Utils.log_info
  | |- keeps _ (Utils.log_error _) => unfold Utils.log_error
  | |- keeps _ (py_get ?v _ _) => unfold py_get; destruct v
  | |- keeps _ (match ?x with _ => _ end) => destruct x
  | |- keeps _ (if ?x then _ else _) => destruct x
  end.

Create HintDb keeps.

Section Script.
Variable w : World.
Variable P : event -> Prop.

Let script := sibling_path w (lit "get-efs-target.py").
Let log_info := fun R : Type => @Utils.log_info R.
Let log_error := fun R : Type => @Utils.log_error R.

Hypothesis P_stderr : forall line, P (Stderr line).
Hypothesis P_stdout : forall line, P (Stdout line).
Hypothesis P_sleep : forall s, P (Sleep s).
Hypothesis P_version : P (Run [lit "aws"; lit "--version"]).
Hypothesis P_identity :
  P (Run [lit "aws"; lit "sts"; lit "get-caller-identity"]).
Hypothesis P_script : P (Run [script]).
Hypothesis P_script_stack : forall name, P (Run [script; name]).
Hypothesis P_details : forall i, P (Run (describe_details_argv i)).
Hypothesis P_state : forall i, P (Run (describe_state_argv i)).
Hypothesis P_start : forall i, P (Run (start_instances_argv i)).
Hypothesis P_ping : forall i, P (Run (describe_ping_argv i)).

#[local] Hint Resolve P_stderr P_stdout P_sleep P_version P_identity
  P_script P_script_stack P_details P_state P_start P_ping : keeps.

Ltac keeps_all := repeat keeps_step; cbn [app]; auto with keeps.

Lemma validate_requirements_keeps R :
  keeps P (@validate_requirements w log_error R).
Proof.
  unfold validate_requirements. subst log_error. cbv beta zeta.
  cbn [for_each]. keeps_all.
Qed.

Lemma get_instance_state_keeps R i :
  keeps P (@get_instance_state w R i).
Proof. unfold get_instance_state. keeps_all. Qed.

Lemma check_ssm_managed_keeps R i :
  keeps P (@check_ssm_managed w R i).
Proof. unfold check_ssm_managed. cbv zeta. keeps_all. Qed.

Lemma start_instance_if_needed_keeps R i :
  keeps P (@start_instance_if_needed w log_info log_error R i).
Proof.
  unfold start_instance_if_needed, wait_until_running.
  subst log_info log_error. cbv beta.
  repeat first [apply get_instance_state_keeps | keeps_step];
    auto with keeps.
Qed.

Lemma wait_for_ssm_keeps R i :
  keeps P (@wait_for_ssm w log_info log_error R i).
Proof.
  unfold wait_for_ssm. subst log_info log_error. cbv beta.
  repeat first [apply check_ssm_managed_keeps | keeps_step];
    auto with keeps.
Qed.

Lemma get_instance_details_keeps R i :
  keeps P (@get_instance_details w log_info log_error R i).
Proof.
  unfold get_instance_details. subst log_info log_error. cbv beta.
  keeps_all.
Qed.

Lemma get_efs_connection_info_keeps R stack_name :
  keeps P (@get_efs_connection_info w log_error R stack_name).
Proof.
  unfold get_efs_connection_info. subst log_error. cbv beta zeta.
  fold script. keeps_all.
  destruct stack_name as [name |]; [destruct (truthy name) |];
    auto with keeps.
Qed.

Lemma show_usage_keeps R : keeps P (@show_usage w R).
Proof. unfold show_usage. keeps_all. Qed.

End Script.
End ScriptInv.

(** ** The two phases in any world *)

Module AnyWorld.
Import PyStr PyStrFacts Runtime ConnectEfs Controller TraceFacts.
Import EnsureRunningFacts ReachabilityFacts.
Local Open Scope py_scope.

Section Instance.
Variable w : World.
Variable instance_id : str.

Let q := describe_state_argv instance_id.
Let go := start_instances_argv instance_id.
Let p := describe_ping_argv instance_id.
Let log_info := fun R : Type => @Utils.log_info R.
Let log_error := fun R : Type => @Utils.log_error R.

Let poll_step : nat -> M unit unit := fun attempt =>
  current_state <- get_instance_state w instance_id ;;
  when (str_eqb current_state (lit "running"))
    (log_info _ (lit "Instance is now running") ;;
     return_ tt) ;;
  log_info _ (lit "Instance state: " ++ current_state ++ lit ", waiting...") ;;
  time_sleep 10.

Let check_step : nat -> M unit unit := fun attempt =>
  online <- check_ssm_managed w instance_id ;;
  when online
    (log_info _ (lit "SSM connectivity established") ;;
     return_ tt) ;;
  log_info _ (lit "SSM not ready yet, waiting...") ;;
  time_sleep 10.

(** How the loop of the wait phase can end, and what it has done then. *)
Lemma poll_loop_any xs :
  forall tr,
    exists o new n,
      for_each xs poll_step tr = (o, tr ++ new)
      /\ commands new = repeat q n
      /\ n <= List.length xs
      /\ (xs <> [] -> 1 <= n)
      /\ count_sleep new <= n
      /\ slept new = (10 * Z.of_nat (count_sleep new))%Z
      /\ (o = Normal tt
          \/ (o = Return tt
              /\ exists m, state_seen w instance_id m = Some (lit "running"))
          \/ o = Raised FileNotFoundError).
Proof.
  induction xs as [| x xs IH]; intros tr.
  - exists (Normal tt), [], 0. rewrite app_nil_r.
    repeat split; try reflexivity; try lia; [congruence | now left].
  - cbn [for_each]. unfold bind at 1.
    destruct (state_seen w instance_id (queries instance_id tr))
      as [s |] eqn:Hs.
    + destruct (list_eq_dec N.eq_dec s (lit "running")) as [-> | Hne].
      * assert (E : poll_step x tr
                    = (Return tt,
                       tr ++ [Run q;
                              Stderr (info_line
                                        (lit "Instance is now running"))]))
          by exact (poll_step_running w instance_id x tr Hs).
        rewrite E.
        eexists _, _, 1. split; [reflexivity |].
        split; [reflexivity |]. split; [simpl; lia |].
        split; [intros _; lia |].
        split; [unfold count_sleep; cbn [app filter is_sleep List.length]; lia |].
        split; [reflexivity |].
        right. left. split; [reflexivity |]. eauto.
      * assert (E : poll_step x tr
                    = (Normal tt,
                       tr ++ [Run q;
                              Stderr (info_line (lit "Instance state: " ++ s
                                                 ++ lit ", waiting..."));
                              Sleep 10]))
          by exact (poll_step_waiting w instance_id x tr s Hs Hne).
        rewrite E.
        destruct (IH (tr ++ [Run q;
                            Stderr (info_line (lit "Instance state: " ++ s
                                               ++ lit ", waiting..."));
                            Sleep 10]))
          as (o & new & n & Hrun & Hc & Hn & _ & Hsl & Hz & Ho).
        rewrite Hrun, <- app_assoc.
        eexists _, _, (S n). split; [reflexivity |].
        rewrite commands_app, count_sleep_app, slept_app, Hc, Hz.
        split; [reflexivity |]. split; [simpl; lia |].
        split; [intros _; lia |].
        split; [cbn [count_sleep filter is_sleep List.length]; lia |].
        split; [| exact Ho].
        cbn [slept fold_right count_sleep filter is_sleep List.length]. lia.
    + assert (E : poll_step x tr = (Raised FileNotFoundError, tr ++ [Run q]))
        by exact (poll_step_raises w instance_id x tr Hs).
      rewrite E.
      eexists _, _, 1. split; [reflexivity |].
      split; [reflexivity |]. split; [simpl; lia |].
      split; [intros _; lia |].
        split; [unfold count_sleep; cbn [app filter is_sleep List.length]; lia |].
      split; [reflexivity |]. right. right. reflexivity.
Qed.

(** The wait phase never falls through: it returns from the function
    having seen [running], exits with status 1, or raises. *)
Lemma wait_phase_any tr :
  exists o polls n,
    wait_until_running w log_info log_error instance_id tr = (o, tr ++ polls)
    /\ commands polls = repeat q n
    /\ 1 <= n <= 30
    /\ count_sleep polls <= n
    /\ slept polls = (10 * Z.of_nat (count_sleep polls))%Z
    /\ (o = SysExit 1
        \/ (o = Return tt
            /\ exists m, state_seen w instance_id m = Some (lit "running"))
        \/ o = Raised FileNotFoundError).
Proof.
  destruct (poll_loop_any (range 30) tr)
    as (o & polls & n & Hrun & Hc & Hn & Hpos & Hsl & Hz & Ho).
  unfold range in Hn. rewrite length_seq in Hn.
  assert (1 <= n) by (apply Hpos; discriminate).
  assert (E : wait_until_running w log_info log_error instance_id
              = (for_each (range 30) poll_step ;;
                 log_error _ power_timeout_message ;;
                 sys_exit 1)) by reflexivity.
  rewrite E. unfold bind at 1. rewrite Hrun.
  destruct Ho as [-> | [[-> Hseen] | ->]].
  - exists (SysExit 1), (polls ++ [Stderr (error_line power_timeout_message)]), n.
    clear E. subst log_error. run_py. split; [reflexivity |].
    fold (error_line power_timeout_message).
    rewrite commands_app, count_sleep_app, slept_app, Hc, Hz.
    change (count_sleep [Stderr (error_line power_timeout_message)]) with 0.
    change (slept [Stderr (error_line power_timeout_message)]) with 0%Z.
    split; [simpl; now rewrite app_nil_r |]. split; [lia |].
    split; [lia |]. split; [| now left].
    rewrite Nat.add_0_r. lia.
  - exists (Return tt), polls, n. repeat split; auto; lia.
  - exists (Raised FileNotFoundError), polls, n. repeat split; auto; lia.
Qed.

Lemma ensure_running_query_raises tr :
  state_seen w instance_id (queries instance_id tr) = None ->
  EnsureRunning w instance_id tr = (Raised FileNotFoundError, tr ++ [Run q]).
Proof.
  intros Hs. unfold EnsureRunning, start_instance_if_needed.
  unfold call at 1. unfold bind at 1.
  now rewrite get_instance_state_run, Hs.
Qed.

(** [start_instance_if_needed] in any world: the commands it runs are the
    initial query, possibly the start command, then [n <= 30] queries of the
    wait phase; it sleeps at most once per query of the wait phase, 10
    seconds each time; and it returns normally only after a query that
    reported [running]. *)
Lemma ensure_running_any tr :
  exists o new n,
    EnsureRunning w instance_id tr = (o, tr ++ new)
    /\ (commands new = q :: repeat q n \/ commands new = q :: go :: repeat q n)
    /\ n <= 30
    /\ count_sleep new <= n
    /\ slept new = (10 * Z.of_nat (count_sleep new))%Z
    /\ (o = Normal tt ->
        exists m, state_seen w instance_id m = Some (lit "running")).
Proof.
  destruct (state_seen w instance_id (queries instance_id tr))
    as [s0 |] eqn:Hs.
  2:{ rewrite (ensure_running_query_raises tr Hs).
      exists (Raised FileNotFoundError), [Run q], 0.
      repeat split; try reflexivity; try lia; [now left | discriminate]. }
  assert (Hwait : enters_wait w instance_id tr s0 ->
            exists o new n,
              EnsureRunning w instance_id tr = (o, tr ++ new)
              /\ (commands new = q :: repeat q n
                  \/ commands new = q :: go :: repeat q n)
              /\ n <= 30
              /\ count_sleep new <= n
              /\ slept new = (10 * Z.of_nat (count_sleep new))%Z
              /\ (o = Normal tt ->
                  exists m, state_seen w instance_id m = Some (lit "running"))).
  { intros Hw.
    rewrite (ensure_running_to_wait w instance_id tr s0 Hs Hw).
    destruct (wait_phase_any (tr ++ wait_prologue instance_id s0))
      as (o & polls & n & Hrun & Hc & Hn & Hsl & Hz & Ho).
    unfold log_info, log_error in Hrun.
    unfold call. rewrite Hrun.
    exists (match o with Return r => Normal r | other => other end),
      (wait_prologue instance_id s0 ++ polls), n.
    split.
    { rewrite <- app_assoc. destruct o as [[] | [] | e | c |]; reflexivity. }
    rewrite commands_app, count_sleep_app, slept_app, Hc, Hz.
    assert (Hp : count_sleep (wait_prologue instance_id s0) = 0
                 /\ slept (wait_prologue instance_id s0) = 0%Z).
    { unfold wait_prologue.
      destruct (str_eqb s0 (lit "stopped")); split; reflexivity. }
    destruct Hp as [Hp1 Hp2]. rewrite Hp1, Hp2.
    split.
    { unfold wait_prologue.
      destruct (str_eqb s0 (lit "stopped")); [right | left]; reflexivity. }
    split; [lia |]. split; [lia |]. split; [lia |].
    destruct Ho as [-> | [[-> Hseen] | ->]]; try discriminate.
    intros _. exact Hseen. }
  destruct (list_eq_dec N.eq_dec s0 (lit "running")) as [-> | Hr].
  { rewrite (ensure_running_noop w instance_id tr Hs).
    eexists _, _, 0. split; [reflexivity |].
    split; [left; reflexivity |]. split; [lia |].
    split; [unfold count_sleep; cbn [app filter is_sleep List.length]; lia |].
    split; [reflexivity |]. eauto. }
  destruct (list_eq_dec N.eq_dec s0 (lit "pending")) as [-> | Hp].
  { apply Hwait. now left. }
  destruct (list_eq_dec N.eq_dec s0 (lit "stopping")) as [-> | Hg].
  { apply Hwait. right. now left. }
  destruct (list_eq_dec N.eq_dec s0 (lit "stopped")) as [-> | Hd].
  { destruct (subprocess w go (starts instance_id tr))
      as [out | text err |] eqn:Hgo.
    - apply Hwait. right. right. split; [reflexivity | now exists out].
    - rewrite (ensure_running_start_fails w instance_id tr Hs)
        by (intros out E; fold go in E; rewrite Hgo in E; discriminate E).
      fold go. rewrite Hgo.
      eexists _, _, 0. split; [reflexivity |].
      split; [right; reflexivity |]. split; [lia |].
      split; [unfold count_sleep; cbn [app filter is_sleep List.length]; lia |].
      split; [reflexivity | discriminate].
    - rewrite (ensure_running_start_fails w instance_id tr Hs)
        by (intros out E; fold go in E; rewrite Hgo in E; discriminate E).
      fold go. rewrite Hgo.
      eexists _, _, 0. split; [reflexivity |].
      split; [right; reflexivity |]. split; [lia |].
      split; [unfold count_sleep; cbn [app filter is_sleep List.length]; lia |].
      split; [reflexivity | discriminate]. }
  rewrite (ensure_running_unexpected w instance_id tr s0 Hs)
    by (simpl; intuition congruence).
  eexists _, _, 0. split; [reflexivity |].
  split; [left; reflexivity |]. split; [lia |].
  split; [unfold count_sleep; cbn [app filter is_sleep List.length]; lia |].
      split; [reflexivity | discriminate].
Qed.

Lemma check_loop_any xs :
  forall tr,
    exists o new n,
      for_each xs check_step tr = (o, tr ++ new)
      /\ commands new = repeat p n
      /\ n <= List.length xs
      /\ (xs <> [] -> 1 <= n)
      /\ count_sleep new <= n
      /\ slept new = (10 * Z.of_nat (count_sleep new))%Z
      /\ (o = Normal tt
          \/ (o = Return tt
              /\ exists m, online_seen w instance_id m = Some true)
          \/ o = Raised FileNotFoundError).
Proof.
  induction xs as [| x xs IH]; intros tr.
  - exists (Normal tt), [], 0. rewrite app_nil_r.
    repeat split; try reflexivity; try lia; [congruence | now left].
  - cbn [for_each]. unfold bind at 1.
    destruct (online_seen w instance_id (checks instance_id tr))
      as [[|] |] eqn:Hs.
    + assert (E : check_step x tr
                  = (Return tt,
                     tr ++ [Run p;
                            Stderr (info_line
                                      (lit "SSM connectivity established"))]))
        by exact (check_step_online w instance_id x tr Hs).
      rewrite E.
      eexists _, _, 1. split; [reflexivity |].
      split; [reflexivity |]. split; [simpl; lia |].
      split; [intros _; lia |].
      split; [unfold count_sleep; cbn [app filter is_sleep List.length]; lia |].
      split; [reflexivity |].
      right. left. split; [reflexivity |]. eauto.
    + assert (E : check_step x tr
                  = (Normal tt,
                     tr ++ [Run p;
                            Stderr (info_line
                                      (lit "SSM not ready yet, waiting..."));
                            Sleep 10]))
        by exact (check_step_offline w instance_id x tr Hs).
      rewrite E.
      destruct (IH (tr ++ [Run p;
                          Stderr (info_line
                                    (lit "SSM not ready yet, waiting..."));
                          Sleep 10]))
        as (o & new & n & Hrun & Hc & Hn & _ & Hsl & Hz & Ho).
      rewrite Hrun, <- app_assoc.
      eexists _, _, (S n). split; [reflexivity |].
      rewrite commands_app, count_sleep_app, slept_app, Hc, Hz.
      split; [reflexivity |]. split; [simpl; lia |].
      split; [intros _; lia |].
      split; [cbn [count_sleep filter is_sleep List.length]; lia |].
      split; [| exact Ho].
      cbn [slept fold_right count_sleep filter is_sleep List.length]. lia.
    + assert (E : check_step x tr = (Raised FileNotFoundError, tr ++ [Run p])).
      { unfold check_step, bind.
        now rewrite (check_ssm_managed_run w instance_id), Hs. }
      rewrite E.
      eexists _, _, 1. split; [reflexivity |].
      split; [reflexivity |]. split; [simpl; lia |].
      split; [intros _; lia |].
      split; [unfold count_sleep; cbn [app filter is_sleep List.length]; lia |].
      split; [reflexivity |]. right. right. reflexivity.
Qed.

(** [wait_for_ssm] in any world: between 1 and 30 reachability checks and no
    other command, at most one sleep of 10 seconds per check, and a normal
    return only after a check that reported [Online]. *)
Lemma wait_for_ssm_any tr :
  exists o new n,
    EnsureManagementReachable w instance_id tr = (o, tr ++ new)
    /\ commands new = repeat p n
    /\ 1 <= n <= 30
    /\ count_sleep new <= n
    /\ slept new = (10 * Z.of_nat (count_sleep new))%Z
    /\ (o = Normal tt ->
        exists m, online_seen w instance_id m = Some true).
Proof.
  set (line := Stderr (info_line (lit "Waiting for SSM connectivity..."))).
  destruct (check_loop_any (range 30) (tr ++ [line]))
    as (o & new & n & Hrun & Hc & Hn & Hpos & Hsl & Hz & Ho).
  unfold range in Hn. rewrite length_seq in Hn.
  assert (1 <= n) by (apply Hpos; discriminate).
  assert (E : EnsureManagementReachable w instance_id tr
              = call (log_info _ (lit "Waiting for SSM connectivity...") ;;
                      for_each (range 30) check_step ;;
                      log_error _ ssm_timeout_message ;;
                      sys_exit 1) tr) by reflexivity.
  rewrite E. clear E. unfold call. unfold bind at 1.
  unfold log_info at 1. cbv beta. rewrite log_info_run. fold line.
  unfold bind at 1. rewrite Hrun.
  destruct Ho as [-> | [[-> Hseen] | ->]].
  - exists (SysExit 1),
      (line :: new ++ [Stderr (error_line ssm_timeout_message)]), n.
    subst log_error. run_py. split; [reflexivity |].
    fold (error_line ssm_timeout_message).
    change (line :: new ++ [Stderr (error_line ssm_timeout_message)])
      with ([line] ++ new ++ [Stderr (error_line ssm_timeout_message)]).
    rewrite !commands_app, !count_sleep_app, !slept_app, Hc, Hz.
    change (count_sleep [Stderr (error_line ssm_timeout_message)]) with 0.
    change (slept [Stderr (error_line ssm_timeout_message)]) with 0%Z.
    change (count_sleep [line]) with 0. change (slept [line]) with 0%Z.
    change (commands [line]) with (@nil (list str)).
    change (commands [Stderr (error_line ssm_timeout_message)])
      with (@nil (list str)).
    split; [cbn [app]; now rewrite app_nil_r |]. split; [lia |].
    split; [lia |]. split; [| discriminate].
    cbn [Nat.add]. rewrite Nat.add_0_r. lia.
  - exists (Normal tt), (line :: new), n.
    rewrite <- app_assoc. split; [reflexivity |].
    change (line :: new) with ([line] ++ new).
    rewrite !commands_app, !count_sleep_app, !slept_app, Hc, Hz.
    change (count_sleep [line]) with 0. change (slept [line]) with 0%Z.
    split; [reflexivity |]. split; [lia |]. split; [simpl; lia |].
    split; [simpl; lia |]. intros _. exact Hseen.
  - exists (Raised FileNotFoundError), (line :: new), n.
    rewrite <- app_assoc. split; [reflexivity |].
    change (line :: new) with ([line] ++ new).
    rewrite !commands_app, !count_sleep_app, !slept_app, Hc, Hz.
    change (count_sleep [line]) with 0. change (slept [line]) with 0%Z.
    split; [reflexivity |]. split; [lia |]. split; [simpl; lia |].
    split; [simpl; lia | discriminate].
Qed.

End Instance.
End AnyWorld.

(** ** More on the controller *)

Module ReadinessMore.
Import PyStr PyStrFacts Runtime ConnectEfs Controller TraceFacts.
Import EnsureRunningFacts ReachabilityFacts AnyWorld.
Local Open Scope py_scope.

Lemma ping_not_q instance_id :
  describe_ping_argv instance_id <> describe_state_argv instance_id.
Proof.
  intros E. apply (f_equal (fun l => nth 1 l [])) in E. vm_compute in E.
  discriminate E.
Qed.

Lemma ping_not_go instance_id :
  describe_ping_argv instance_id <> start_instances_argv instance_id.
Proof.
  intros E. apply (f_equal (@List.length _)) in E. discriminate E.
Qed.

Lemma count_in_repeat_same argv n :
  List.length (filter (fun a => is_run argv (Run a)) (repeat argv n)) = n.
Proof.
  induction n as [| n IH]; cbn [repeat filter]; [reflexivity |].
  rewrite is_run_same. cbn [List.length]. now rewrite IH.
Qed.

Lemma count_in_repeat_other argv argv' n :
  argv <> argv' ->
  List.length (filter (fun a => is_run argv (Run a)) (repeat argv' n)) = 0.
Proof.
  intros H. induction n as [| n IH]; cbn [repeat filter]; [reflexivity |].
  now rewrite (is_run_other _ _ H).
Qed.

(** X10: [start_instance_if_needed] is bounded in every world.  Whatever the
    replies are, it runs nothing but the power-state query and the start
    command of its instance, at most 31 queries and at most one start, and
    it sleeps at most 30 times, 300 seconds in all. *)
Theorem ensure_running_bounded w instance_id tr :
  exists o new,
    EnsureRunning w instance_id tr = (o, tr ++ new)
    /\ Forall (fun argv => argv = describe_state_argv instance_id
                           \/ argv = start_instances_argv instance_id)
         (commands new)
    /\ queries instance_id new <= 31
    /\ starts instance_id new <= 1
    /\ count_sleep new <= 30
    /\ (slept new <= 300)%Z.
Proof.
  destruct (ensure_running_any w instance_id tr)
    as (o & new & n & Hrun & Hc & Hn & Hsl & Hz & _).
  exists o, new. split; [exact Hrun |].
  assert (Hrep : Forall (fun argv => argv = describe_state_argv instance_id
                                     \/ argv = start_instances_argv instance_id)
                   (repeat (describe_state_argv instance_id) n)).
  { apply Forall_forall. intros a Ha. apply repeat_spec in Ha. now left. }
  unfold queries, starts. rewrite !count_run_commands.
  destruct Hc as [Hc | Hc]; rewrite Hc.
  - split; [constructor; [now left | exact Hrep] |].
    cbn [filter]. rewrite is_run_same.
    rewrite (is_run_other _ _ (go_not_q instance_id)).
    cbn [List.length].
    rewrite count_in_repeat_same,
      (count_in_repeat_other _ _ n (go_not_q instance_id)).
    repeat split; lia.
  - split; [constructor; [now left | constructor; [now right | exact Hrep]] |].
    cbn [filter]. rewrite !is_run_same.
    rewrite (is_run_other _ _ (go_not_q instance_id)).
    rewrite (is_run_other _ _ (fun E => go_not_q instance_id (eq_sym E))).
    cbn [List.length].
    rewrite count_in_repeat_same,
      (count_in_repeat_other _ _ n (go_not_q instance_id)).
    repeat split; lia.
Qed.

(** X11: [wait_for_ssm] is bounded in every world.  Whatever the replies are,
    it runs nothing but the reachability check of its instance, between 1
    and 30 times, and it sleeps at most 30 times, 300 seconds in all. *)
Theorem wait_for_ssm_bounded w instance_id tr :
  exists o new n,
    EnsureManagementReachable w instance_id tr = (o, tr ++ new)
    /\ commands new = repeat (describe_ping_argv instance_id) n
    /\ 1 <= n <= 30
    /\ checks instance_id new = n
    /\ count_sleep new <= 30
    /\ (slept new <= 300)%Z.
Proof.
  destruct (wait_for_ssm_any w instance_id tr)
    as (o & new & n & Hrun & Hc & Hn & Hsl & Hz & _).
  exists o, new, n. split; [exact Hrun |]. split; [exact Hc |].
  split; [exact Hn |].
  split; [exact (count_run_repeat_same _ new n Hc) |].
  split; lia.
Qed.

(** The power phase when [running] is seen at attempt [k]: the trace it
    leaves. *)
Lemma ensure_running_found w instance_id tr s0 k :
  state_seen w instance_id (queries instance_id tr) = Some s0 ->
  enters_wait w instance_id tr s0 ->
  1 <= k <= 30 ->
  (forall j, 1 <= j < k ->
     exists s, state_seen w instance_id (queries instance_id tr + j) = Some s
               /\ s <> lit "running") ->
  state_seen w instance_id (queries instance_id tr + k)
  = Some (lit "running") ->
  exists polls,
    EnsureRunning w instance_id tr
    = (Normal tt, tr ++ wait_prologue instance_id s0 ++ polls)
    /\ commands polls = repeat (describe_state_argv instance_id) k
    /\ count_sleep polls = k - 1
    /\ slept polls = (10 * Z.of_nat (k - 1))%Z.
Proof.
  intros Hs Hw Hk Hbefore Hat.
  pose proof (queries_prologue instance_id tr s0) as Hq.
  destruct (wait_phase_found w instance_id
              (tr ++ wait_prologue instance_id s0) k Hk)
    as (polls & Hrun & Hc & Hn & Hz & _).
  { intros j Hj. rewrite Hq.
    replace (S (queries instance_id tr) + j)
      with (queries instance_id tr + S j) by lia.
    apply Hbefore. lia. }
  { rewrite Hq.
    replace (S (queries instance_id tr) + (k - 1))
      with (queries instance_id tr + k) by lia.
    exact Hat. }
  exists polls.
  rewrite (ensure_running_to_wait w instance_id tr s0 Hs Hw).
  unfold call. rewrite Hrun, <- app_assoc.
  repeat split; assumption.
Qed.

Lemma prologue_no_sleep_more instance_id s0 :
  count_sleep (wait_prologue instance_id s0) = 0
  /\ slept (wait_prologue instance_id s0) = 0%Z.
Proof.
  unfold wait_prologue.
  destruct (str_eqb s0 (lit "stopped")); split; reflexivity.
Qed.

Lemma checks_prologue instance_id s0 :
  checks instance_id (wait_prologue instance_id s0) = 0.
Proof.
  unfold checks, wait_prologue.
  destruct (str_eqb s0 (lit "stopped")); cbn [app];
    rewrite ?count_run_cons_stderr,
      ?(count_run_cons_other _ _ _ (ping_not_q instance_id)),
      ?(count_run_cons_other _ _ _ (ping_not_go instance_id));
    reflexivity.
Qed.

(** X12: the two phases compose.  From a state that leads to the wait phase,
    with [running] seen at attempt [k] of the power phase and [Online] first
    seen at check [m] of the reachability phase, the two operations run one
    after the other as in [main] return normally, after [k + 1] power-state
    queries, one start command if the instance was stopped and none
    otherwise, [m] reachability checks, and [(k - 1) + (m - 1)] sleeps of 10
    seconds.  The power phase runs no reachability check, so the checks are
    counted from the trace before it. *)
Theorem ready_phases_compose w instance_id tr s0 k m :
  state_seen w instance_id (queries instance_id tr) = Some s0 ->
  enters_wait w instance_id tr s0 ->
  1 <= k <= 30 ->
  (forall j, 1 <= j < k ->
     exists s, state_seen w instance_id (queries instance_id tr + j) = Some s
               /\ s <> lit "running") ->
  state_seen w instance_id (queries instance_id tr + k)
  = Some (lit "running") ->
  1 <= m <= 30 ->
  (forall j, j < m - 1 ->
     online_seen w instance_id (checks instance_id tr + j) = Some false) ->
  online_seen w instance_id (checks instance_id tr + (m - 1)) = Some true ->
  exists new,
    (EnsureRunning w instance_id ;;
     EnsureManagementReachable w instance_id) tr
    = (Normal tt, tr ++ new)
    /\ queries instance_id new = k + 1
    /\ starts instance_id new = (if str_eqb s0 (lit "stopped") then 1 else 0)
    /\ checks instance_id new = m
    /\ count_sleep new = (k - 1) + (m - 1)
    /\ slept new = (10 * Z.of_nat ((k - 1) + (m - 1)))%Z.
Proof.
  intros Hs Hw Hk Hbefore Hat Hm Hoff Hon.
  destruct (ensure_running_found w instance_id tr s0 k Hs Hw Hk Hbefore Hat)
    as (polls & Hrun & Hc & Hn & Hz).
  set (tr1 := tr ++ wait_prologue instance_id s0 ++ polls) in *.
  assert (Hchecks : checks instance_id tr1 = checks instance_id tr).
  { unfold tr1, checks. rewrite !count_run_app.
    fold (checks instance_id (wait_prologue instance_id s0)).
    rewrite checks_prologue.
    rewrite (count_run_repeat_other _ _ polls k (ping_not_q instance_id) Hc).
    lia. }
  destruct (wait_for_ssm_found w instance_id tr1 m Hm)
    as (pings & Hrun2 & Hc2 & Hn2 & Hz2).
  { intros j Hj. rewrite Hchecks. now apply Hoff. }
  { rewrite Hchecks. exact Hon. }
  exists (wait_prologue instance_id s0 ++ polls ++ pings).
  unfold bind. rewrite Hrun, Hrun2. unfold tr1.
  split; [now rewrite <- !app_assoc |].
  destruct (prologue_no_sleep_more instance_id s0) as [Hp1 Hp2].
  unfold queries, starts, checks.
  rewrite !count_run_app, !count_sleep_app, !slept_app.
  fold (queries instance_id (wait_prologue instance_id s0)).
  fold (starts instance_id (wait_prologue instance_id s0)).
  fold (checks instance_id (wait_prologue instance_id s0)).
  rewrite checks_prologue, Hp1, Hp2, Hn, Hz, Hn2, Hz2.
  pose proof (queries_prologue instance_id [] s0) as Hq0.
  pose proof (starts_prologue instance_id [] s0) as Hs0.
  cbn [app] in Hq0, Hs0. rewrite Hq0, Hs0.
  rewrite (count_run_repeat_same _ polls k Hc).
  rewrite (count_run_repeat_other _ _ pings m
             (fun E => ping_not_q instance_id (eq_sym E)) Hc2).
  rewrite (count_run_repeat_other _ _ polls k (go_not_q instance_id) Hc).
  rewrite (count_run_repeat_other _ _ pings m
             (fun E => ping_not_go instance_id (eq_sym E)) Hc2).
  rewrite (count_run_repeat_other _ _ polls k (ping_not_q instance_id) Hc).
  rewrite (count_run_repeat_same _ pings m Hc2).
  change (queries instance_id []) with 0. change (starts instance_id []) with 0.
  repeat split; lia.
Qed.

End ReadinessMore.

(** ** main of connet-efs.py *)

Module MainFacts.
Import PyStr PyStrFacts Runtime ConnectEfs Controller TraceFacts.
Import TraceInv TraceInvFacts ScriptInv AnyWorld.
Local Open Scope py_scope.

Lemma utils_log_info_only_prints : only_prints (fun R => @Utils.log_info R).
Proof.
  intros P H1 H2 R message. unfold Utils.log_info.
  apply keeps_call. apply keeps_emit. apply H1.
Qed.

Section Script.
Variable w : World.
Variable P : event -> Prop.
Variable log_blue : forall R : Type, str -> M R unit.

Let script := sibling_path w (lit "get-efs-target.py").
Let log_info := fun R : Type => @Utils.log_info R.
Let log_error := fun R : Type => @Utils.log_error R.

Hypothesis P_stderr : forall line, P (Stderr line).
Hypothesis P_stdout : forall line, P (Stdout line).
Hypothesis P_sleep : forall s, P (Sleep s).
Hypothesis P_version : P (Run [lit "aws"; lit "--version"]).
Hypothesis P_identity :
  P (Run [lit "aws"; lit "sts"; lit "get-caller-identity"]).
Hypothesis P_script : P (Run [script]).
Hypothesis P_script_stack : forall name, P (Run [script; name]).
Hypothesis P_details : forall i, P (Run (describe_details_argv i)).
Hypothesis P_state : forall i, P (Run (describe_state_argv i)).
Hypothesis P_start : forall i, P (Run (start_instances_argv i)).
Hypothesis P_ping : forall i, P (Run (describe_ping_argv i)).
Hypothesis blue_prints : only_prints log_blue.

#[local] Hint Resolve P_stderr P_stdout P_sleep P_version P_identity
  P_script P_script_stack P_details P_state P_start P_ping : keeps.

(** The functions [main] calls before it starts the session. *)
Ltac keeps_script :=
  repeat first
    [ apply validate_requirements_keeps
    | apply get_efs_connection_info_keeps
    | apply get_instance_details_keeps
    | apply start_instance_if_needed_keeps
    | apply wait_for_ssm_keeps
    | apply show_usage_keeps
    | apply blue_prints
    | keeps_step ];
  cbn [app]; auto with keeps.

Lemma start_interactive_session_keeps R i :
  P (Execvp (lit "aws") (start_session_argv i)) ->
  keeps P (@start_interactive_session w log_error log_blue R i).
Proof.
  intros Hx. unfold start_interactive_session. subst log_error. cbv beta.
  repeat first [apply blue_prints | apply keeps_os_execvp | keeps_step];
    auto with keeps.
Qed.

Lemma main_keeps R :
  (forall i, P (Execvp (lit "aws") (start_session_argv i))) ->
  keeps P (@main w log_info log_error log_blue R).
Proof.
  intros Hx. unfold main. unfold log_info, log_error. cbv beta zeta.
  repeat first
    [ exact (start_interactive_session_keeps _ _ (Hx _))
    | apply validate_requirements_keeps
    | apply get_efs_connection_info_keeps
    | apply get_instance_details_keeps
    | apply start_instance_if_needed_keeps
    | apply wait_for_ssm_keeps
    | apply show_usage_keeps
    | keeps_step ];
    cbn [app]; auto with keeps.
Qed.

End Script.
End MainFacts.

(** ** What main of connet-efs.py does to the outside *)

Module MainSafety.
Import PyStr PyStrFacts Runtime ConnectEfs Controller TraceFacts.
Import TraceInv TraceInvFacts ScriptInv AnyWorld MainFacts.
Local Open Scope py_scope.

Lemma reach {R A B} (m : M R A) (k : A -> M R B) tr file argv :
  keeps not_exec m ->
  Forall not_exec tr ->
  In (Execvp file argv) (snd (bind m k tr)) ->
  exists x tr1,
    m tr = (Normal x, tr1)
    /\ Forall not_exec tr1
    /\ In (Execvp file argv) (snd (k x tr1)).
Proof.
  intros Hm H Hin. unfold bind in Hin.
  pose proof (Hm tr H) as H1.
  destruct (m tr) as [[a | r | e | c |] tr1]; cbn [snd] in *;
    try (rewrite Forall_forall in H1; elim (H1 _ Hin)).
  now exists a, tr1.
Qed.

Lemma dead {R A} (m : M R A) tr file argv :
  keeps not_exec m ->
  Forall not_exec tr ->
  In (Execvp file argv) (snd (m tr)) ->
  False.
Proof.
  intros Hm H Hin. pose proof (Hm tr H) as H1.
  rewrite Forall_forall in H1. exact (H1 _ Hin).
Qed.

(** The functions of the script, none of which replaces the process. *)
Ltac quiet blue :=
  repeat first
    [ apply validate_requirements_keeps
    | apply get_efs_connection_info_keeps
    | apply get_instance_details_keeps
    | apply start_instance_if_needed_keeps
    | apply wait_for_ssm_keeps
    | apply show_usage_keeps
    | apply blue
    | keeps_step ];
  intros; exact I.

Ltac step H blue :=
  apply reach in H;
  [ let x := fresh "x" in
    let t := fresh "t" in
    let E := fresh "E" in
    let F := fresh "F" in
    destruct H as (x & t & E & F & H)
  | solve [quiet blue]
  | assumption ].

(** X13: the session is started only on an instance that was seen running and
    reachable.  If, in any world, [main] (with the logging functions of
    [utils], and any function that only prints under the name [log_blue])
    replaces the process, then it does so with [aws ssm start-session] on an
    instance for which a power-state query reported [running] and a
    reachability check reported [Online]. *)
Theorem main_session_only_when_ready w log_blue tr file argv :
  only_prints log_blue ->
  Forall not_exec tr ->
  In (Execvp file argv)
     (snd (@main w (fun R => @Utils.log_info R) (fun R => @Utils.log_error R)
             log_blue unit tr)) ->
  exists i n m,
    file = lit "aws"
    /\ argv = start_session_argv i
    /\ state_seen w i n = Some (lit "running")
    /\ online_seen w i m = Some true.
Proof.
  intros Hblue Htr H.
  unfold main in H. rewrite snd_call in H. cbv beta zeta in H.
  step H Hblue. step H Hblue. step H Hblue. step H Hblue. step H Hblue.
  destruct (split (strip x3)) as [| bucket [| i [| y rest]]];
    try (exfalso; apply dead in H; [exact H | solve [quiet Hblue] | assumption]).
  step H Hblue. step H Hblue. step H Hblue. step H Hblue.
  step H Hblue. step H Hblue.
  exists i.
  destruct (ensure_running_any w i t7)
    as (o & new & n & Hrun & _ & _ & _ & _ & Hnormal).
  unfold EnsureRunning in Hrun. rewrite E8 in Hrun.
  destruct (wait_for_ssm_any w i t8)
    as (o' & new' & n' & Hrun' & _ & _ & _ & _ & Hnormal').
  unfold EnsureManagementReachable in Hrun'. rewrite E9 in Hrun'.
  destruct x8, x9.
  injection Hrun as <- _. injection Hrun' as <- _.
  destruct (Hnormal eq_refl) as (k & Hk).
  destruct (Hnormal' eq_refl) as (m & Hm).
  exists k, m.
  set (P' := fun e => not_exec e
                      \/ e = Execvp (lit "aws") (start_session_argv i)).
  assert (Hk' : keeps P' (@start_interactive_session w
                            (fun R => @Utils.log_error R) log_blue unit i)).
  { apply start_interactive_session_keeps; try exact Hblue.
    - intros line. left. exact I.
    - intros line. left. exact I.
    - right. reflexivity. }
  assert (F' : Forall P' t9).
  { eapply Forall_impl; [| exact F9]. intros e He. now left. }
  pose proof (Hk' t9 F') as Hall. rewrite Forall_forall in Hall.
  destruct (Hall _ H) as [[] | Heq].
  injection Heq as -> ->. repeat split; assumption.
Qed.

(** X14: [main] stays within its commands.  In any world, with the logging
    functions of [utils] and any function that only prints under the name
    [log_blue], every command [main] runs is the version check, the identity
    check, the sibling script (alone or with a stack name), or one of
    describe-instances, start-instances and describe-instance-information
    on an instance; and the only program it replaces the process by is
    [aws ssm start-session]. *)
Theorem main_effects_allowed w log_blue tr :
  only_prints log_blue ->
  Forall (allowed (sibling_path w (lit "get-efs-target.py"))) tr ->
  Forall (allowed (sibling_path w (lit "get-efs-target.py")))
    (snd (@main w (fun R => @Utils.log_info R) (fun R => @Utils.log_error R)
            log_blue unit tr)).
Proof.
  intros Hblue Htr.
  apply (main_keeps w (allowed (sibling_path w (lit "get-efs-target.py")))
           log_blue); try exact Hblue; try exact Htr; cbn [allowed];
    try (intros; exact I); eauto 8.
  all: intros i; do 4 right; exists i; tauto.
Qed.

End MainSafety.

(** ** get-efs-target.py *)

Module GetEfsTargetFacts.
Import PyStr PyStrFacts Runtime ConnectEfs Controller TraceFacts.
Import TraceInv TraceInvFacts ScriptInv StackOutput ConnectionInfo.
Import GetEfsTargetScript StdoutContract.
Local Open Scope py_scope.

Lemma keeps_bind_ret (P : event -> Prop) {R A B} (v : A) (f : A -> M R B) :
  keeps P (f v) -> keeps P (bind (ret v) f).
Proof. intros H tr Htr. exact (H tr Htr). Qed.

Section Script.
Variable w : World.
Variable h : Host.
Variable P : event -> Prop.

Hypothesis P_stderr : forall line, P (Stderr line).
Hypothesis P_aws : P (Run [lit "aws"; lit "--version"]).
Hypothesis P_jq : P (Run [lit "jq"; lit "--version"]).
Hypothesis P_identity :
  P (Run [lit "aws"; lit "sts"; lit "get-caller-identity"]).

#[local] Hint Resolve P_stderr P_aws P_jq P_identity : keeps.

Ltac keeps_all := repeat keeps_step; cbn [app]; auto with keeps.

Lemma get_validate_requirements_keeps R :
  keeps P (@GetEfsTargetScript.validate_requirements w R).
Proof.
  unfold GetEfsTargetScript.validate_requirements. cbv beta zeta.
  cbn [for_each]. keeps_all.
Qed.

Lemma get_stack_name_from_config_keeps R :
  keeps P (@get_stack_name_from_config w h R).
Proof. unfold get_stack_name_from_config. cbv beta zeta. keeps_all. Qed.

Lemma get_stack_output_keeps R stack_name output_key :
  P (Run (describe_stacks_argv stack_name output_key)) ->
  keeps P (@GetEfsTarget.get_stack_output w R stack_name output_key).
Proof.
  intros Hq. unfold GetEfsTarget.get_stack_output. cbv beta zeta. keeps_all.
Qed.

Lemma parse_connection_info_keeps R json_value :
  keeps P (@parse_connection_info w R json_value).
Proof. unfold parse_connection_info. keeps_all. Qed.

End Script.



Lemma no_return_when_exit {R} c (m : M R unit) :
  no_return m -> no_return (when c m).
Proof.
  intros H. destruct c; [exact H |]. intros tr r t. discriminate.
Qed.




Lemma keeps_bind_raise (P : event -> Prop) {R A B} e (f : A -> M R B) :
  keeps P (bind (@raise R A e) f).
Proof. intros tr Htr. exact Htr. Qed.






(** X17: the output key get-efs-target.py asks for.  In any world and on any
    host, every describe-stacks command [main] runs names a stack and the
    output whose key is the slug of that stack's name followed by
    [efnConnectionInfo]; besides it, [main] runs only the two version checks
    and the identity check. *)
Theorem get_efs_target_asks_for_slug w h tr :
  Forall (asks_for_slug h) tr ->
  Forall (asks_for_slug h) (snd (@GetEfsTargetScript.main w h unit tr)).
Proof.
  revert tr. change (keeps (asks_for_slug h) (@GetEfsTargetScript.main w h unit)).
  assert (P_stderr : forall line, asks_for_slug h (Stderr line))
    by (intros; exact I).
  assert (P_stdout : forall line, asks_for_slug h (Stdout line))
    by (intros; exact I).
  assert (P_aws : asks_for_slug h (Run [lit "aws"; lit "--version"]))
    by (cbn; tauto).
  assert (P_jq : asks_for_slug h (Run [lit "jq"; lit "--version"]))
    by (cbn; tauto).
  assert (P_id : asks_for_slug h
                   (Run [lit "aws"; lit "sts"; lit "get-caller-identity"]))
    by (cbn; tauto).
  unfold GetEfsTargetScript.main. cbv zeta.
  apply keeps_call.
  apply keeps_bind; [unfold GetEfsTargetScript.show_usage; repeat keeps_step; auto | intros _].
  apply keeps_bind; [repeat keeps_step; auto | intros _].
  apply keeps_bind; [now apply get_validate_requirements_keeps | intros _].
  apply keeps_bind.
  { destruct (1 <? List.length (sys_argv w)).
    - repeat keeps_step; auto.
    - apply keeps_bind; [repeat keeps_step; auto | intros _].
      now apply get_stack_name_from_config_keeps. }
  intros stack_name.
  apply keeps_bind; [repeat keeps_step; auto | intros _].
  destruct stack_name as [| text | items r | truth r];
    try apply keeps_bind_raise.
  unfold slugify_value. apply keeps_bind_ret.
  apply keeps_bind; [repeat keeps_step; auto | intros _].
  apply keeps_bind; [repeat keeps_step; auto | intros _].
  unfold as_argument. apply keeps_bind_ret.
  apply keeps_bind.
  { apply get_stack_output_keeps; [exact P_stderr |].
    cbn. do 3 right. now exists text. }
  intros [value |]; [| apply keeps_sys_exit].
  apply keeps_bind; [repeat keeps_step; auto | intros _].
  apply keeps_bind; [now apply parse_connection_info_keeps | intros line].
  apply keeps_emit. exact I.
Qed.


End GetEfsTargetFacts.

(** ** validate_requirements of connet-efs.py, and concrete runs *)

Module MoreRuns.
Import PyStr PyStrFacts PyStrMore Runtime ConnectEfs Controller TraceFacts.
Import TraceInv TraceInvFacts EnsureRunningFacts.
Import MainFacts MainSafety ReadinessMore SecretsArn SecretsArnFacts.
Import StdoutContract GetEfsTargetFacts.
Local Open Scope py_scope.

(** X15: [validate_requirements] returns normally exactly when [aws --version]
    and [aws sts get-caller-identity] both exit with status 0.  When the
    version check fails in either way (non-zero status, program not found)
    it reports the command as not found and exits with status 1 without
    running the identity check; a non-zero status of the identity check is
    reported as a configuration error with exit status 1; a program that
    disappears between the two checks is not caught. *)
Theorem validate_requirements_outcomes w tr :
  let version := [lit "aws"; lit "--version"] in
  let identity := [lit "aws"; lit "sts"; lit "get-caller-identity"] in
  @ConnectEfs.validate_requirements w (fun R => @Utils.log_error R) unit tr
  = match subprocess w version (count_run version tr) with
    | Completed _ =>
        match subprocess w identity (count_run identity tr) with
        | Completed _ => (Normal tt, tr ++ [Run version; Run identity])
        | NonZeroExit _ _ =>
            (SysExit 1,
             tr ++ [Run version; Run identity;
                    Stderr (error_line
                              (lit "AWS CLI not configured or credentials invalid"))])
        | NotFound =>
            (Raised FileNotFoundError, tr ++ [Run version; Run identity])
        end
    | _ =>
        (SysExit 1,
         tr ++ [Run version;
                Stderr (error_line (lit "Required command 'aws' not found"))])
    end.
Proof.
  intros version identity.
  unfold ConnectEfs.validate_requirements. cbv zeta. cbn [for_each].
  unfold call, bind, try_except, subprocess_run. fold version. fold identity.
  assert (Hn : count_run identity (tr ++ [Run version])
               = count_run identity tr).
  { rewrite count_run_app.
    assert (E : count_run identity [Run version] = 0).
    { apply count_run_cons_other. intros E.
      apply (f_equal (@List.length _)) in E. discriminate E. }
    rewrite E. lia. }
  destruct (subprocess w version (count_run version tr))
    as [out | text err |].
  - cbv [ret]. rewrite Hn.
    destruct (subprocess w identity (count_run identity tr))
      as [out' | text' err' |].
    + now rewrite <- app_assoc.
    + run_py. reflexivity.
    + now rewrite <- app_assoc.
  - run_py. reflexivity.
  - run_py. reflexivity.
Qed.

Local Open Scope string_scope.
Local Open Scope list_scope.

Lemma parse_secrets_arn_rejects_iff_witness :
  parse_secrets_arn (lit "db-password") = Pair None None
  /\ exists a f,
       parse_secrets_arn (lit "arn:aws:secretsmanager:eu:1:secret:db")
       = Pair (Some a) f.
Proof.
  split.
  - apply (proj1 (proj2 (parse_secrets_arn_rejects_iff (lit "db-password")))).
    vm_compute. reflexivity.
  - apply (proj2 (proj2 (parse_secrets_arn_rejects_iff
                           (lit "arn:aws:secretsmanager:eu:1:secret:db")))).
    vm_compute. reflexivity.
Defined.

(** A stopped instance seen running at the third attempt and reachable at
    the first check: one start, four queries, one check, two sleeps. *)
Lemma ready_phases_compose_witness :
  exists new,
    (bind (EnsureRunning
             (world_of ["stopped"; "pending"; "pending"; "running"]
                "running" ["Online"]) i_0abc)
          (fun _ =>
             EnsureManagementReachable
               (world_of ["stopped"; "pending"; "pending"; "running"]
                  "running" ["Online"]) i_0abc)) []
    = (Normal tt, [] ++ new)
    /\ queries i_0abc new = 3 + 1
    /\ starts i_0abc new
       = (if str_eqb (lit "stopped") (lit "stopped") then 1 else 0)
    /\ checks i_0abc new = 1
    /\ count_sleep new = (3 - 1) + (1 - 1)
    /\ slept new = (10 * Z.of_nat ((3 - 1) + (1 - 1)))%Z.
Proof.
  set (w := world_of ["stopped"; "pending"; "pending"; "running"]
              "running" ["Online"]).
  assert (Hs : state_seen w i_0abc (queries i_0abc []) = Some (lit "stopped"))
    by (vm_compute; reflexivity).
  assert (Hw : enters_wait w i_0abc [] (lit "stopped")).
  { right. right. split; [reflexivity |]. exists []. vm_compute; reflexivity. }
  assert (Hk : 1 <= 3 <= 30) by lia.
  assert (Hb : forall j, 1 <= j < 3 ->
                 exists s,
                   state_seen w i_0abc (queries i_0abc [] + j) = Some s
                   /\ s <> lit "running").
  { intros j Hj. exists (lit "pending").
    assert (E : j = 1 \/ j = 2) by lia.
    destruct E as [-> | ->]; (split; [vm_compute; reflexivity | discriminate]). }
  assert (Ha : state_seen w i_0abc (queries i_0abc [] + 3)
               = Some (lit "running")) by (vm_compute; reflexivity).
  assert (Hm : 1 <= 1 <= 30) by lia.
  assert (Hoff : forall j, j < 1 - 1 ->
                   online_seen w i_0abc (checks i_0abc [] + j) = Some false)
    by (intros j Hj; lia).
  assert (Hon : online_seen w i_0abc (checks i_0abc [] + (1 - 1)) = Some true)
    by (vm_compute; reflexivity).
  exact (ready_phases_compose w i_0abc [] _ 3 1 Hs Hw Hk Hb Ha Hm Hoff Hon).
Defined.

(** In the world where everything is ready, [main] ends by the session on
    the instance the sibling script named. *)
Lemma main_session_only_when_ready_witness :
  exists i n m,
    lit "aws" = lit "aws"
    /\ start_session_argv i_0abc = start_session_argv i
    /\ state_seen ready_world i n = Some (lit "running")
    /\ online_seen ready_world i m = Some true.
Proof.
  assert (Hin : In (Execvp (lit "aws") (start_session_argv i_0abc))
                  (snd (@ConnectEfs.main ready_world (fun R => @Utils.log_info R)
                          (fun R => @Utils.log_error R)
                          (fun R => @Utils.log_info R) unit []))).
  { vm_compute. repeat (try (left; reflexivity); right). }
  exact (main_session_only_when_ready ready_world _ [] _ _
           utils_log_info_only_prints (Forall_nil _) Hin).
Defined.

Lemma main_effects_allowed_witness :
  Forall (allowed (sibling_path ready_world (lit "get-efs-target.py")))
    (snd (@ConnectEfs.main ready_world (fun R => @Utils.log_info R)
            (fun R => @Utils.log_error R)
            (fun R => @Utils.log_info R) unit [])).
Proof.
  exact (main_effects_allowed ready_world _ []
           utils_log_info_only_prints (Forall_nil _)).
Defined.


Lemma get_efs_target_asks_for_slug_witness :
  Forall (asks_for_slug GetEfsTargetScript.bare_host)
    (snd (@GetEfsTargetScript.main GetEfsTargetScript.stack_world
          GetEfsTargetScript.bare_host unit [])).
Proof.
  exact (get_efs_target_asks_for_slug GetEfsTargetScript.stack_world
           GetEfsTargetScript.bare_host []
           (Forall_nil _)).
Defined.

(** The stack output of the concrete world: returned stripped. *)
Lemma get_stack_output_result_witness :
  exists o new,
    @StackOutput.GetEfsTarget.get_stack_output GetEfsTargetScript.stack_world
      unit (lit "My-Stack") (lit "mystackefnConnectionInfo") []
    = (o, [] ++ Stderr (info_line
                          (lit "Getting output '"
                           ++ lit "mystackefnConnectionInfo"
                           ++ lit "' from stack: " ++ lit "My-Stack"))
             :: Run (StackOutput.describe_stacks_argv (lit "My-Stack")
                       (lit "mystackefnConnectionInfo"))
             :: new)
    /\ (o = Normal (Some (lit "doc")) ->
        strip (lit "doc") = lit "doc" /\ lit "doc" <> []
        /\ lit "doc" <> lit "None").
Proof.
  destruct (proj2 (StackOutputFacts.get_stack_output_result
                     GetEfsTargetScript.stack_world (lit "My-Stack")
                     (lit "mystackefnConnectionInfo") []))
    as (o & new & Hrun & _ & _ & Hv).
  exists o, new. split; [exact Hrun |].
  intros E. exact (Hv _ E).
Defined.

End MoreRuns.

(** ** get_secret_value *)

Module SecretValueFacts.
Import PyStr PyStrFacts Runtime ConnectEfs Controller TraceFacts StripFacts.
Import SecretValue.
Local Open Scope py_scope.






End SecretValueFacts.
